(* ===== verification/_CoqProject ===== *)
-Q . S2P
Spec2Rocq.v
Calendar.v
Text.v
Regex.v
Strptime.v
Parse.v
Nlp.v
Recurrence.v
Store.v
StoreSpec.v
Migrations.v
Scheduler.v
Isoformat.v
Recovery.v
Handlers.v
Callbacks.v
Messages.v
Listing.v
Bot.v
