(* ===== verification/Spec2Rocq.v ===== *)
(** * Verification of the Telegram reminder bot (siddhucsk/telegram-reminder-bot)

    The program is one Python process ([src/bot.py]) that keeps reminders in
    an SQLite database ([src/migrations.py] creates the schema and the
    triggers that maintain the per-user quota counter), arms one
    [threading.Timer] per pending reminder, delivers the reminder through the
    Telegram bot when the timer fires, and re-arms recurring reminders.  At
    start-up [handle_missed_reminders] reconciles the stored pending
    reminders with the timers.  [src/nlp_parser.py] turns free text into a
    structured reminder.

    ** Parts of the program and how they interact

    A chat message reaches [handle_message], which turns free text into
    the structured format ([ReminderParser], nlp_parser.py), reads it with
    [parse_reminder], parses its time and date fields with [strptime],
    saves each reminder in the store and arms its timer with
    [schedule_reminder]; the timer thread runs [send_reminder], which
    delivers, completes the row and saves and arms the next occurrence;
    the inline buttons ([button_callback]) set the time zone, open the
    edit menu, whose state lives in [context.user_data] and is read by
    the next message, change the recurrence or the priority, or cancel;
    at start-up the recovery sweep re-arms or delivers the stored
    pending reminders.  The files follow
    these parts, in dependency order:

    - [Spec2Rocq.v] (this file): Python exceptions, the
      state-and-exception monad [pyst S] with stdpp's monad notation, the
      exception monad [exc], the tactic [py_run], generic lemmas on maps,
      lists and integers.
    - [Calendar.v]: the Python [datetime] semantics the code relies on
      (proleptic Gregorian ordinals, [timedelta] addition, fixed-offset
      aware datetimes as produced by [pytz.localize] and
      [datetime.fromisoformat]) and the time-zone interface, the class
      [TzDatabase].  Library semantics, not repository code: not in the
      manifest's map.
    - [Text.v], [Module Text]: the [str] methods the parsers call
      ([strip], [lower], [split], [in], [replace], [join], [int()],
      [str()]).  [Regex.v], [Module Regex]: a backtracking matcher for
      the fragment of Python's [re] the patterns use, with [re.match],
      [re.search], [group] and [re.sub].  [Strptime.v], [Module
      Strptime]: [datetime.strptime] as CPython's [_strptime] builds it,
      a regular expression per format.  Library semantics, not in the map.
    - [Parse.v], [Module Parse]: [parse_reminder] (bot.py 626-653), a fold
      of [parse_line] over the stripped lines with the reminder being
      built as a record of optional fields.
    - [Nlp.v], [Module Nlp]: [ReminderParser.parse_natural_time], as the
      sequence of its passes over the lowered text, and
      [format_reminder_text] ([src/nlp_parser.py]).
    - [Recurrence.v], [Module Recurrence]: [calculate_next_occurrence]
      (bot.py 700-734).
    - [Store.v], [Module Store]: the [users] and [reminders] tables with
      the CHECK constraints and the quota triggers of [src/migrations.py],
      and the [@safe_db_operation] functions of bot.py 46-262 and 858-873;
      the database is a record of two [gmap]s, each function a definition
      [Db -> exc (A * Db)] or a read [Db -> A].
    - [StoreSpec.v], [Module StoreSpec]: the contract of the store as
      the specification states it (§4.3), on tables without the cached
      counter, and the refinement of it by [Store].
    - [Migrations.v], [Module Migrations]: [migrate] (src/migrations.py)
      and [init_db] (bot.py 296-323) on the schema (tables and their
      columns, indexes, triggers, the history table), with SQLite's
      behaviour of each DDL statement and of [executescript], and the
      columns the SQL of bot.py names ([columns_used]).  The store of
      [Store.v] is the data model of the schema that [migrate] builds on
      an empty database.
    - [Scheduler.v], [Module Scheduler]: the process state [World] (the
      database, the [active_reminders] dictionary, the running
      [threading.Timer] threads, the outbox of sent messages, the clock,
      and [context.user_data] as a [gmap] from users to the record
      [user_state] of its three keys);
      [schedule_reminder], [reschedule_reminder], [send_reminder] as
      computations of [pyst World], so that an exception carries the state
      reached when it was raised (Python does not roll back the effects
      done before a [raise]).  The class [Respects] is the interface
      between the primitives and their clients: a relation on worlds that
      the database calls and the deliveries preserve is preserved by every
      computation built from them ([preserves_tac_with]).
    - [Isoformat.v], [Module Isoformat]: [datetime.isoformat()], the
      text [reminder_time] is stored as, and [datetime.fromisoformat] on
      that form.
    - [Recovery.v], [Module Recovery]: [handle_missed_reminders] (bot.py
      875-945).
    - [Handlers.v], [Module Handlers]: the [cancel_] branch of
      [button_callback], [/cancel], and the reminder-setting [try] block of
      [handle_message] (bot.py 1072-1174), which calls [Nlp], [Parse] and
      [Strptime] and then [Store] and [Scheduler].
    - [Callbacks.v], [Module Callbacks]: [button_callback] (bot.py
      415-567), its chain of [startswith] tests in code order and one
      definition per branch.
    - [Messages.v], [Module Messages]: [handle_message] (bot.py 976-1174)
      as a whole: the edit flows of 981-1052, the quick-time buttons with
      [process_quick_time], the early return for "remind" messages, then
      the block of [Handlers]; the branches of the [elif] chain that
      follows its [except] (quick-time message, time-zone name, fallback)
      with their own dispatch [message_chain].
    - [Listing.v], [Module Listing]: the handlers that only read and
      reply ([/start], [/help], [/format], [/timezone], [/list] with
      [get_user_reminders]), the data of the keyboards they attach, and
      [cleanup_old_reminders], the retention sweep no handler calls.
    - [Bot.v], [Module Bot]: the configuration read at import
      ([load_config]), the start of [main] ([main_start]: the recovery
      sweep before the handlers), and the running bot as an inductive
      step relation (a timer thread fires, a handler runs, time passes,
      the transport fails, a connection is busy, the process restarts)
      with the invariants of its runs.

    ** What the theorems show

    - [Bot]: in every reachable state the database is well formed (the
      quota counter equals the number of pending rows, what the triggers
      maintain) and completed or cancelled rows never change; an armed
      timer with the sink up has a run that delivers its reminder
      (liveness); the inline Cancel button leaves the timer armed, and the
      cancelled reminder is still delivered; a restart arms every
      pending reminder exactly once.  The steps of [Bot]
      are [Messages.handle_message] and [Callbacks.button_callback].
    - [Messages] and [Callbacks] (the composition of the two handlers
      through [context.user_data]): after the Edit button and the Change
      Time button, the message with the new time is read as a new
      reminder and the old one is unchanged, since the [edit_] test
      shadows every button of the edit menu; a time edit of an armed
      reminder commits the new time, then raises on [.cancel()] of the
      dictionary, replies "Invalid time format", and leaves the old timer
      armed and none for the new time; the recurrence and priority
      buttons always raise [ValueError] when unpacking their data; the
      quick-time branch of the [elif] chain re-enters [handle_message]
      with a text that starts with "reminder", which returns at once, so
      a quick-time reminder is never set.
    - [StoreSpec]: every database call of the code computes, through the
      abstraction that forgets [reminder_count], what the contract
      computes (refinement): the cached counter is a correct cache.
    - [Scheduler]: firing a one-shot reminder delivers and completes it;
      a recurring one also saves and arms its successor; at the quota the
      successor is refused, since it is saved before the fired row is
      completed; scheduling an armed id twice arms two timers.
    - [Handlers]: a reminder set at the quota is refused with the generic
      error reply and no change; [/cancel] has no owner check and leaves
      the timer.
    - [Parse]: round trip with the structured format of [/format] (each
      message gets a leading space); the example of [/format] loses its
      priority and recurrence lines; a bare [time:] line raises
      [AttributeError].
    - [Nlp]: the text written by [format_reminder_text] is read back by
      [parse_reminder] with its time and date but without priority and
      with the recurrence inside the message; the written time is read
      back by [strptime] at every minute of the day; an hour with am/pm
      and no minutes ("5pm") is never recognised; a day name gives a date
      on that weekday within two weeks; keywords match inside words
      ("midnight" is 8 pm, "friend" is a Friday).
    - [Recurrence]: the month arithmetic lands [interval] months later
      with a month in 1..12; the month branch clamps the day and its DST
      correction is dead code (equivalence with the branch without it);
      [day] and [week] keep the wall clock and offset, so a daily 09:00
      reminder fires at 10:00 local time after a DST change.
    - [Isoformat]: the stored text of every valid datetime is read back
      as the same datetime (round trip).
    - [Listing]: [cleanup_old_reminders] deletes exactly the old
      terminal rows and keeps the database well formed; the buttons of
      the [/list], [/timezone] and quick-time keyboards reach the
      branches they are meant for.
    - [Migrations]: [migrate] is idempotent; it never adds
      [users.last_active_at] to a [users] table created without it, so
      after [init_db] (which is all [main] runs) [set_user_timezone] can
      never run; [init_db] alone leaves seven functions of bot.py without
      their columns; a run interrupted inside or after the script of
      [003_recurring_and_priority] can never be completed.
    - [Store]: [update_reminder] changes only the present fields, and an
      all-[None] update changes nothing; the retry decorator is bounded
      and ends with a distinguishable [DatabaseError].
    - [Recovery]: a second run arms every future reminder again; a
      recurring reminder missed by more than one interval ends its series;
      one exception aborts the sweep; the stored text orders reminders of
      different zones out of chronological order.
    - The library files prove what the components use: the date/ordinal
      round trip ([Calendar]), soundness and completeness of the matcher
      for the relational semantics [Regex.matches] and the leftmost choice
      of [Regex.search], splitting a joined list ([Text]).

    Every theorem with hypotheses has a witness ([..._witness]) that
    applies it to a concrete input: the worlds use the time-zone instance
    [Scheduler.utc_db], the dates of March 2024 and the user [7].

    ** Bounds and modelling choices

    - Instants are integers (seconds); the clock of the process is the
      [w_now] field of the world, read by every [datetime.now] of one
      handler.  Microseconds are not modelled (every time the code stores
      comes from a parse with minute resolution or from the arithmetic
      above, which preserves seconds).
    - The date/ordinal round trip is proved for all integers from the
      400-year period; the check of one period runs [vm_compute] over the
      146097 days of a cycle ([Calendar.all_range] with that fuel, which
      is exactly the range checked) and, for the converse, over the
      dates of years 1..400.  The time round trip of [Nlp] checks the 1440
      minutes of a day the same way.
    - [Regex.sub] has the length of the text as fuel: every round passes
      at least one character.  [Text.str_int] has the bit length of the
      number as fuel, at least its number of decimal digits.  Whitespace
      and case are those of ASCII; strings are Stdlib strings of bytes.
    - Reminder ids drawn from [uuid.uuid4()] are an oracle [nat -> string]
      with a counter, so that witnesses can choose colliding or fresh ids.
    - SQLite's transient [sqlite3.Error]s and busy connections are the
      list [w_busy] of attempt outcomes consumed by
      [Store.safe_db_operation]; the table operations are total except
      for the errors they raise on purpose (unknown user, quota, duplicate
      key, failed CHECK).  Exception texts are kept only where a handler
      shows them.
    - Time zones are an interface ([TzDatabase]): the theorems about
      scheduling hold for every instance.  [datetime.now().date()] of the
      server, which [format_reminder_text] compares with, is a function of
      the instant given to [handle_set_reminders].
    - [reminder_time] is stored as [isoformat()] text and read back with
      [fromisoformat]; rows keep the datetime, which
      [Isoformat.fromisoformat_isoformat] justifies, and
      [Isoformat.isoformat] renders the text where SQLite compares it.
    - [bot.py] does not import as written (line 5 imports [calendar]
      from [datetime], an [ImportError]; an indentation error in
      [handle_message], lines 1115-1122; an [elif] after its [except],
      line 1177); the model takes [calendar] for the standard module,
      follows the evident nesting, ends [handle_message] at that
      [except], and models the branches of the [elif] chain on their own.
    - A restart keeps the database, the outbox and the clock and loses
      the timers, [active_reminders] and [context.user_data];
      [init_db] changes no row, so the start of [main] on the rows is
      [handle_missed_reminders].
    - [process_quick_time] receives the wall clock of
      [datetime.now(user_timezone)]; [ReminderParser] receives the same
      wall clock in the time edit.
    - [pytz.all_timezones] is a parameter of the section of the
      [elif] chain ([Messages.message_chain]): every statement about the
      chain holds for every list of zone names.

    ** Not modelled (yet)

    - The Telegram transport, the layout of the keyboards (their
      buttons' texts and callback data are modelled), [parse_mode] and
      the rendering of the replies.
    - The imports (bot.py 1-17), [logging], [keep_alive] and the
      [Updater] of [main] with its polling: library calls with no state
      of the program.
    - The [print] calls of [migrate]; the column types, defaults and
      [NOT NULL] constraints of the schema in [Migrations] (the data
      model of [Store] has them). *)

From stdpp Require Export base gmap strings list.
From Stdlib Require Export ZArith String Lia.

#[global] Open Scope string_scope.
#[global] Open Scope Z_scope.

(** ** Python exceptions raised by the modelled code *)

Inductive py_exn :=
| DatabaseError (msg : string)        (** bot.py [DatabaseError] *)
| ReminderLimitError (msg : string)   (** bot.py [ReminderLimitError] *)
| IntegrityError                      (** sqlite3: PRIMARY KEY or CHECK *)
| OperationalError (msg : string)    (** sqlite3: schema errors *)
| AttributeError (msg : string)       (** e.g. [dict.cancel()] *)
| KeyError (msg : string)             (** [d[k]] of a missing key *)
| TypeError
| ValueError (msg : string)
| OverflowError (msg : string)        (** [datetime] and [timedelta] out of range *)
| UnknownTimeZoneError
| NetworkError.                       (** [context.bot.send_message] *)

(** A Python computation either returns or raises. *)
Inductive exc (A : Type) := Ok (a : A) | Raise (e : py_exn).
Arguments Ok {A} a.
Arguments Raise {A} e.

(** ** The state-and-exception monad

    A computation over the process state [S] returns its value or its
    exception together with the state reached: effects done before a
    [raise] are kept, as in Python. *)

Definition pyst (S A : Type) : Type := S -> exc A * S.

Section PyMonad.
Context {S : Type}.

Definition py_ret {A} (a : A) : pyst S A := fun s => (Ok a, s).

Definition py_bind {A B} (f : A -> pyst S B) (m : pyst S A) : pyst S B :=
  fun s => match m s with
           | (Ok a, s') => f a s'
           | (Raise e, s') => (Raise e, s')
           end.

Definition py_raise {A} (e : py_exn) : pyst S A := fun s => (Raise e, s).

(** [try: m except: h]: the handler runs in the state the exception left. *)
Definition py_try {A} (m : pyst S A) (h : py_exn -> pyst S A) : pyst S A :=
  fun s => match m s with
           | (Raise e, s') => h e s'
           | r => r
           end.

Definition py_get : pyst S S := fun s => (Ok s, s).
Definition py_put (s : S) : pyst S unit := fun _ => (Ok tt, s).
Definition py_modify (f : S -> S) : pyst S unit := fun s => (Ok tt, f s).

(** Lift a function of the state that may raise. *)
Definition py_lift {A} (f : S -> exc (A * S)) : pyst S A :=
  fun s => match f s with
           | Ok (a, s') => (Ok a, s')
           | Raise e => (Raise e, s)
           end.

#[export] Instance pyst_ret : MRet (pyst S) := @py_ret.
#[export] Instance pyst_bind : MBind (pyst S) := @py_bind.
End PyMonad.

(** A computation without state that returns or raises. *)
#[export] Instance exc_ret : MRet exc := @Ok.
#[export] Instance exc_bind : MBind exc :=
  fun A B f m => match m with Ok a => f a | Raise e => Raise e end.
#[export] Instance exc_fmap : FMap exc :=
  fun A B f m => match m with Ok a => Ok (f a) | Raise e => Raise e end.

Lemma exc_bind_ok {A B} (a : A) (f : A -> exc B) : (Ok a ≫= f) = f a.
Proof. reflexivity. Qed.

Lemma exc_bind_raise {A B} e (f : A -> exc B) : (Raise e ≫= f) = Raise e.
Proof. reflexivity. Qed.

Lemma exc_bind_Ok_inv {A B} (m : exc A) (f : A -> exc B) b :
  (m ≫= f) = Ok b -> exists a, m = Ok a /\ f a = Ok b.
Proof. destruct m as [a|e]; [by exists a | done]. Qed.

(** [when b m]: run [m] only if [b]. *)
Definition py_when {S} (b : bool) (m : pyst S unit) : pyst S unit :=
  if b then m else mret tt.

(** ** Generic lemmas on the monad *)

Section PyMonadLemmas.
Context {S A B : Type}.

Lemma py_bind_ok (m : pyst S A) (f : A -> pyst S B) s a s' :
  m s = (Ok a, s') -> (m ≫= f) s = f a s'.
Proof. intros H. unfold mbind, pyst_bind, py_bind. by rewrite H. Qed.

Lemma py_bind_raise (m : pyst S A) (f : A -> pyst S B) s e s' :
  m s = (Raise e, s') -> (m ≫= f) s = (Raise e, s').
Proof. intros H. unfold mbind, pyst_bind, py_bind. by rewrite H. Qed.

Lemma py_try_ok (m : pyst S A) h s a s' :
  m s = (Ok a, s') -> py_try m h s = (Ok a, s').
Proof. intros H. unfold py_try. by rewrite H. Qed.

Lemma py_try_raise (m : pyst S A) h s e s' :
  m s = (Raise e, s') -> py_try m h s = h e s'.
Proof. intros H. unfold py_try. by rewrite H. Qed.
End PyMonadLemmas.

(** ** Integer division by its defining equation *)

Lemma divmod_eq a b q r : 0 <= r < b -> a = b * q + r -> a / b = q /\ a mod b = r.
Proof.
  intros Hr Ha. split; symmetry;
    [apply (Z.div_unique _ _ _ r) | apply (Z.mod_unique _ _ q)]; lia.
Qed.

(** The string ["\n"]. *)
Definition newline : string := String (Ascii.ascii_of_nat 10) EmptyString.

(** ** Python truthiness of the optional values the code tests with [if x:] *)

Definition truthy_str (o : option string) : bool :=
  match o with Some s => negb (String.eqb s "") | None => false end.

Lemma truthy_str_Some s : truthy_str (Some s) = true <-> s <> "".
Proof.
  unfold truthy_str. rewrite negb_true_iff.
  split; intros H.
  - intros ->. discriminate.
  - by apply String.eqb_neq.
Qed.

(** ** Tactics shared by the components *)

(** Run a model on a concrete state: unfold the monad and reduce. *)
Ltac py_run :=
  unfold mbind, mret, pyst_bind, pyst_ret, py_bind, py_ret, py_try, py_modify, py_raise,
    py_lift, py_when; cbn.

(** ** Counting the entries of a map that satisfy a predicate

    The quota counter of the store is such a count; these are the two
    ways the store changes a table. *)

Section MapCount.
Context {K V : Type} `{Countable K} (P : V -> Prop) `{forall v, Decision (P v)}.

Definition count_where (m : gmap K V) : Z :=
  Z.of_nat (size (filter (fun kv : K * V => P kv.2) m)).

Definition counted (o : option V) : Z :=
  match o with Some v => if decide (P v) then 1 else 0 | None => 0 end.

(** The filtered map has [k] exactly when [m] has it with [P]. *)
Lemma counted_filter (m : gmap K V) k :
  counted (filter (fun kv : K * V => P kv.2) m !! k) = counted (m !! k).
Proof.
  unfold counted. destruct (filter _ m !! k) as [v0|] eqn:Ef.
  - apply map_lookup_filter_Some in Ef as [-> HP]. by rewrite decide_True.
  - apply map_lookup_filter_None in Ef as [-> | Hn]; [done |].
    destruct (m !! k) as [v0|]; [| done].
    by rewrite decide_False by (apply (Hn v0); done).
Qed.

Lemma count_where_insert (m : gmap K V) k v :
  count_where (<[k:=v]> m) = count_where m - counted (m !! k) + counted (Some v).
Proof.
  unfold count_where. rewrite <- (counted_filter m k), map_filter_insert.
  set (f := filter (fun kv : K * V => P kv.2) m).
  case_decide as HP; cbn in HP.
  - rewrite map_size_insert. unfold counted at 2. rewrite decide_True by done.
    destruct (f !! k) as [v0|] eqn:Ef; cbn.
    + apply map_lookup_filter_Some in Ef as [_ HP0]. cbn in HP0.
      rewrite decide_True by done. lia.
    + lia.
  - rewrite map_filter_delete, map_size_delete. fold f.
    unfold counted at 2. rewrite decide_False by done.
    destruct (f !! k) as [v0|] eqn:Ef; cbn.
    + pose proof (map_size_ne_0_lookup_2 f k ltac:(by rewrite Ef)).
      apply map_lookup_filter_Some in Ef as [_ HP0]. cbn in HP0.
      rewrite decide_True by done. lia.
    + lia.
Qed.

Lemma count_where_zero (m : gmap K V) :
  (forall k v, m !! k = Some v -> ~ P v) -> count_where m = 0.
Proof.
  intros Hn. unfold count_where.
  replace (filter (fun kv : K * V => P kv.2) m) with (∅ : gmap K V); [done |].
  symmetry. apply map_empty_filter_2. intros k v Hk. by apply (Hn k v).
Qed.

Lemma count_where_nonneg (m : gmap K V) : 0 <= count_where m.
Proof. unfold count_where. lia. Qed.

(** Removing entries that do not satisfy [P] keeps the count. *)
Lemma count_where_filter (Q : K * V -> Prop) `{forall kv, Decision (Q kv)} (m : gmap K V) :
  (forall k v, P v -> Q (k, v)) -> count_where (filter Q m) = count_where m.
Proof.
  intros HQ. unfold count_where. rewrite map_filter_filter.
  do 3 f_equal. apply map_filter_ext. intros k v _. cbn. specialize (HQ k v). tauto.
Qed.
End MapCount.

(** A filter splits a map in two. *)
Lemma map_size_filter_split {K V} `{Countable K} (P : K * V -> Prop) `{forall kv, Decision (P kv)}
    (m : gmap K V) :
  (size (filter P m) + size (filter (fun kv => ~ P kv) m) = size m)%nat.
Proof.
  induction m as [|i x m Hi IH] using map_ind; [by rewrite !map_filter_empty |].
  rewrite !map_filter_insert, (map_size_insert_None _ _ _ Hi), delete_id by done.
  assert (HP : forall Q `{forall kv, Decision (Q kv)}, filter Q m !! i = None)
    by (intros; apply map_lookup_filter_None_2; by left).
  case_decide; case_decide; try tauto; rewrite map_size_insert_None by apply HP; lia.
Qed.

(** ** A boolean test over every entry of a map *)

Lemma map_forallb_spec {K V : Type} `{Countable K} (f : K -> V -> bool) (m : gmap K V) :
  forallb (fun kv : K * V => f kv.1 kv.2) (map_to_list m) = true <->
  forall k v, m !! k = Some v -> f k v = true.
Proof.
  rewrite forallb_forall. split.
  - intros Hall k v Hk. apply (Hall (k, v)). apply list_elem_of_In, elem_of_map_to_list, Hk.
  - intros Hall [k v] Hin. apply Hall, elem_of_map_to_list, list_elem_of_In, Hin.
Qed.

(** ** Filtering the images of a partial map over a list *)

Lemma filter_omap {A B} (f : A -> option B) (P : B -> Prop) (Q : A -> Prop)
    `{forall b, Decision (P b)} `{forall a, Decision (Q a)} (l : list A) :
  (forall a b, a ∈ l -> f a = Some b -> P b <-> Q a) ->
  filter P (omap f l) = omap f (filter Q l).
Proof.
  induction l as [|a l IH]; intros HPQ; [done |].
  assert (IH' : filter P (omap f l) = omap f (filter Q l))
    by (apply IH; intros; apply HPQ; [by right | done]).
  assert (Hc : forall l', omap f (a :: l') = match f a with Some b => b :: omap f l' | None => omap f l' end)
    by done.
  rewrite Hc, filter_cons. destruct (f a) as [b|] eqn:Hf.
  - rewrite filter_cons. specialize (HPQ a b ltac:(constructor) Hf).
    do 2 case_decide; try tauto; by rewrite ?Hc, ?Hf, IH'.
  - case_decide; by rewrite ?Hc, ?Hf, IH'.
Qed.

Lemma filter_key_absent {K V} `{EqDecision K} (l : list (K * V)) k :
  k ∉ l.*1 -> filter (fun kv => kv.1 = k) l = [].
Proof.
  induction l as [|[k' v'] l IH]; intros Hk; [done |]. cbn in Hk. rewrite not_elem_of_cons in Hk.
  destruct Hk as [Hne Hk]. rewrite filter_cons_False by (cbn; congruence). by apply IH.
Qed.

(** In a list with distinct keys, one entry has a given key. *)
Lemma filter_key_unique {K V} `{EqDecision K} (l : list (K * V)) k v :
  NoDup l.*1 -> (k, v) ∈ l -> filter (fun kv => kv.1 = k) l = [(k, v)].
Proof.
  induction l as [|[k' v'] l IH]; intros Hnd Hin; [by apply elem_of_nil in Hin |].
  cbn in Hnd. apply NoDup_cons in Hnd as [Hk' Hnd].
  apply elem_of_cons in Hin as [Heq | Hin].
  - simplify_eq. rewrite filter_cons_True by done. by rewrite filter_key_absent.
  - rewrite filter_cons_False; [by apply IH |]. cbn. intros ->.
    apply Hk'. apply list_elem_of_fmap. by exists (k, v).
Qed.
