(* ===== verification/Calendar.v ===== *)
(** * Python [datetime] arithmetic used by the bot

    The semantics of the parts of Python's [datetime] and [calendar]
    modules that [src/bot.py] relies on, written after CPython's pure
    Python implementation ([Lib/datetime.py]): proleptic Gregorian
    ordinals ([_ymd2ord], [_ord2ymd]), [calendar.monthrange], [datetime +
    timedelta] and aware datetimes with a fixed UTC offset (what
    [pytz.localize] and [datetime.fromisoformat] produce).  The main
    theorem is the round trip between dates and ordinals, proved from the
    400-year period of the calendar and a check of one period by
    evaluation. *)

From S2P Require Import Spec2Rocq.

(** ** Dates and ordinals *)

Definition is_leap (y : Z) : bool :=
  (y mod 4 =? 0) && (negb (y mod 100 =? 0) || (y mod 400 =? 0)).

(** [_DAYS_IN_MONTH] and [calendar.monthrange(y, m)[1]]. *)
Definition days_in_month (y m : Z) : Z :=
  if m =? 2 then (if is_leap y then 29 else 28)
  else if (m =? 4) || (m =? 6) || (m =? 9) || (m =? 11) then 30
  else 31.

(** [_DAYS_BEFORE_MONTH] (index 0 is CPython's placeholder). *)
Definition days_before_month_table : list Z :=
  [-1; 0; 31; 59; 90; 120; 151; 181; 212; 243; 273; 304; 334].

Definition days_before_month (y m : Z) : Z :=
  nth (Z.to_nat m) days_before_month_table 0
  + (if (m >? 2) && is_leap y then 1 else 0).

Definition days_before_year (y : Z) : Z :=
  let y' := y - 1 in y' * 365 + y' / 4 - y' / 100 + y' / 400.

Record date := mkdate { year : Z; month : Z; day : Z }.

Definition ymd2ord (d : date) : Z :=
  days_before_year (year d) + days_before_month (year d) (month d) + day d.

Definition DI400Y : Z := 146097.
Definition DI100Y : Z := 36524.
Definition DI4Y : Z := 1461.

(** CPython's [_ord2ymd], line by line; the part after the 400-year
    split is [cycle_ymd], which receives the year the cycle starts with. *)
Definition cycle_ymd (year0 n : Z) : date :=
  let n100 := n / DI100Y in let n := n mod DI100Y in
  let n4 := n / DI4Y in let n := n mod DI4Y in
  let n1 := n / 365 in let n := n mod 365 in
  let year := year0 + n100 * 100 + n4 * 4 + n1 in
  if (n1 =? 4) || (n100 =? 4) then mkdate (year - 1) 12 31
  else
    let leapyear := (n1 =? 3) && (negb (n4 =? 24) || (n100 =? 3)) in
    let month := Z.shiftr (n + 50) 5 in
    let preceding := nth (Z.to_nat month) days_before_month_table 0
                     + (if (month >? 2) && leapyear then 1 else 0) in
    let '(month, preceding) :=
      if preceding >? n then
        (month - 1,
         preceding - (nth (Z.to_nat (month - 1))
                        [-1; 31; 28; 31; 30; 31; 30; 31; 31; 30; 31; 30; 31] 0
                      + (if (month - 1 =? 2) && leapyear then 1 else 0)))
      else (month, preceding) in
    mkdate year month (n - preceding + 1).

Definition ord2ymd (n0 : Z) : date :=
  let n := n0 - 1 in
  let n400 := n / DI400Y in let n := n mod DI400Y in
  cycle_ymd (n400 * 400 + 1) n.

Definition valid_date (d : date) : bool :=
  (1 <=? year d) && (year d <=? 9999) && (1 <=? month d) && (month d <=? 12)
  && (1 <=? day d) && (day d <=? days_in_month (year d) (month d)).

(** ** Naive and aware datetimes *)

Record naive := mknaive { ndate : date; hour : Z; minute : Z; second : Z }.

Definition secs_of_day (t : naive) : Z := hour t * 3600 + minute t * 60 + second t.

(** Seconds since the start of ordinal day 0: the [timedelta] CPython
    builds in [datetime.__add__]. *)
Definition naive_seconds (t : naive) : Z := ymd2ord (ndate t) * 86400 + secs_of_day t.

Definition naive_of_seconds (s : Z) : naive :=
  let r := s mod 86400 in
  mknaive (ord2ymd (s / 86400)) (r / 3600) ((r mod 3600) / 60) (r mod 60).

(** [datetime + timedelta(seconds=s)] on the wall clock. *)
Definition add_seconds (t : naive) (s : Z) : naive := naive_of_seconds (naive_seconds t + s).

Definition valid_naive (t : naive) : bool :=
  valid_date (ndate t) && (0 <=? hour t) && (hour t <? 24) && (0 <=? minute t)
  && (minute t <? 60) && (0 <=? second t) && (second t <? 60).

(** A [datetime]: its wall clock and, when aware, the fixed UTC offset
    (seconds east of UTC) of its [tzinfo].  [pytz]'s localized tzinfo and
    the [timezone] of [fromisoformat] both answer [utcoffset()] with this
    fixed value, whatever the wall clock. *)
Record datetime := mkdt { wall : naive; tzoff : option Z }.

Definition utcoffset (d : datetime) : option Z := tzoff d.

(** [d + timedelta(seconds=s)]: the wall clock moves, the tzinfo stays. *)
Definition dt_add (d : datetime) (s : Z) : datetime := mkdt (add_seconds (wall d) s) (tzoff d).

Definition timedelta_days (n : Z) : Z := n * 86400.
Definition timedelta_weeks (n : Z) : Z := n * 7 * 86400.

(** The absolute instant of an aware datetime, seconds on the UTC scale
    ([d.astimezone(pytz.UTC)]); a naive datetime is read as UTC. *)
Definition instant (d : datetime) : Z :=
  naive_seconds (wall d) - from_option id 0 (tzoff d).

(** ** Time zones

    [pytz.timezone(name)] and [localize]: the zone database is an
    interface.  [tz_localize name t] is the offset [localize] attaches to
    the wall clock [t] ([None]: unknown zone name, [UnknownTimeZoneError]);
    [tz_offset_at name u] is the offset in force at the instant [u]. *)
Class TzDatabase := {
  tz_localize : string -> naive -> option Z;
  tz_offset_at : string -> Z -> option Z;
}.

Definition localize `{TzDatabase} (name : string) (t : naive) : exc datetime :=
  match tz_localize name t with
  | Some o => Ok (mkdt t (Some o))
  | None => Raise UnknownTimeZoneError
  end.

(** The wall clock of instant [u] in zone [name] ([astimezone]). *)
Definition to_local `{TzDatabase} (name : string) (u : Z) : option naive :=
  o ← tz_offset_at name u; Some (naive_of_seconds (u + o)).

(** ** The 400-year period of the calendar *)

Definition shift_year (d : date) (k : Z) : date := mkdate (year d + k) (month d) (day d).

#[export] Instance date_eq_dec : EqDecision date.
Proof. solve_decision. Defined.

Lemma shift_year_shift_year d a b : shift_year (shift_year d a) b = shift_year d (a + b).
Proof. unfold shift_year; cbn. f_equal. lia. Qed.

Lemma cycle_ymd_shift y0 n : cycle_ymd y0 n = shift_year (cycle_ymd 1 n) (y0 - 1).
Proof.
  unfold cycle_ymd, shift_year. cbv zeta.
  destruct (_ || _); [cbn; f_equal; lia |].
  destruct (_ >? _); cbn; f_equal; lia.
Qed.

Lemma ord2ymd_periodic n :
  ord2ymd n = shift_year (cycle_ymd 1 ((n - 1) mod DI400Y)) ((n - 1) / DI400Y * 400).
Proof. unfold ord2ymd. rewrite cycle_ymd_shift. f_equal. lia. Qed.

Lemma ord2ymd_add_period x q :
  ord2ymd (x + q * DI400Y) = shift_year (ord2ymd x) (400 * q).
Proof.
  rewrite !ord2ymd_periodic, shift_year_shift_year.
  replace (x + q * DI400Y - 1) with (x - 1 + q * DI400Y) by lia.
  rewrite Z_mod_plus_full, Z_div_plus_full by (unfold DI400Y; lia).
  f_equal. lia.
Qed.

Lemma is_leap_shift y k : is_leap (y + 400 * k) = is_leap y.
Proof.
  unfold is_leap.
  replace (y + 400 * k) with (y + (100 * k) * 4) by lia. rewrite Z_mod_plus_full.
  replace (y + 100 * k * 4) with (y + (4 * k) * 100) by lia. rewrite Z_mod_plus_full.
  replace (y + 4 * k * 100) with (y + k * 400) by lia. rewrite Z_mod_plus_full.
  reflexivity.
Qed.

Lemma days_in_month_shift y k m : days_in_month (y + 400 * k) m = days_in_month y m.
Proof. unfold days_in_month. by rewrite is_leap_shift. Qed.

Lemma days_before_year_shift y k :
  days_before_year (y + 400 * k) = days_before_year y + k * DI400Y.
Proof.
  unfold days_before_year, DI400Y.
  replace (y + 400 * k - 1) with (y - 1 + (100 * k) * 4) by lia.
  rewrite Z_div_plus_full by lia.
  replace (y - 1 + 100 * k * 4) with (y - 1 + (4 * k) * 100) by lia.
  rewrite Z_div_plus_full by lia.
  replace (y - 1 + 4 * k * 100) with (y - 1 + k * 400) by lia.
  rewrite Z_div_plus_full by lia. lia.
Qed.

Lemma ymd2ord_shift d k : ymd2ord (shift_year d (400 * k)) = ymd2ord d + k * DI400Y.
Proof.
  unfold ymd2ord, shift_year, days_before_month; cbn.
  rewrite days_before_year_shift, is_leap_shift. lia.
Qed.

(** Bounded checks evaluated by [vm_compute]: [f] holds on
    [lo, lo + n). *)
Fixpoint all_range (n : nat) (lo : Z) (f : Z -> bool) : bool :=
  match n with O => true | S k => f lo && all_range k (lo + 1) f end.

Lemma all_range_spec n lo f :
  all_range n lo f = true -> forall r, lo <= r < lo + Z.of_nat n -> f r = true.
Proof.
  revert lo. induction n as [|n IH]; cbn; intros lo H r Hr; [lia |].
  apply andb_true_iff in H as [H1 H2].
  destruct (decide (r = lo)) as [->|Hne]; [done |].
  apply (IH (lo + 1)); [done | lia].
Qed.

Definition valid_md_b (d : date) : bool :=
  (1 <=? month d) && (month d <=? 12) && (1 <=? day d) && (day d <=? days_in_month (year d) (month d)).

Lemma cycle_ymd_check :
  all_range (Z.to_nat DI400Y) 0
    (fun r => (ymd2ord (cycle_ymd 1 r) =? r + 1) && valid_md_b (cycle_ymd 1 r)) = true.
Proof. vm_compute. reflexivity. Qed.

Lemma ord2ymd_check :
  all_range 400 1 (fun y => all_range 12 1 (fun m => all_range 31 1 (fun d =>
    implb (d <=? days_in_month y m)
          (bool_decide (ord2ymd (ymd2ord (mkdate y m d)) = mkdate y m d))))) = true.
Proof. vm_compute. reflexivity. Qed.

(** Every integer is the ordinal of the date [_ord2ymd] gives. *)
Theorem ymd2ord_ord2ymd n : ymd2ord (ord2ymd n) = n.
Proof.
  rewrite ord2ymd_periodic.
  replace ((n - 1) / DI400Y * 400) with (400 * ((n - 1) / DI400Y)) by lia.
  rewrite ymd2ord_shift.
  pose proof (all_range_spec _ _ _ cycle_ymd_check ((n - 1) mod DI400Y)) as H.
  rewrite andb_true_iff, Z.eqb_eq in H.
  rewrite (fun Hr => proj1 (H Hr)) by (pose proof (Z.mod_pos_bound (n - 1) DI400Y); unfold DI400Y in *; lia).
  pose proof (Z.div_mod (n - 1) DI400Y). unfold DI400Y in *. lia.
Qed.

Lemma implb_true_elim a b : implb a b = true -> a = true -> b = true.
Proof. by destruct a. Qed.

Lemma days_in_month_bounds y m : 28 <= days_in_month y m <= 31.
Proof. unfold days_in_month. repeat case_match; lia. Qed.

Definition valid_md (d : date) : Prop :=
  1 <= month d <= 12 /\ 1 <= day d <= days_in_month (year d) (month d).

(** [_ord2ymd] inverts [_ymd2ord] on every date with a valid month and day. *)
Theorem ord2ymd_ymd2ord d : valid_md d -> ord2ymd (ymd2ord d) = d.
Proof.
  destruct d as [y m dd]; unfold valid_md; cbn; intros [Hm Hd].
  set (q := (y - 1) / 400). set (y0 := (y - 1) mod 400 + 1).
  assert (Hy : y = y0 + 400 * q).
  { pose proof (Z.div_mod (y - 1) 400). subst q y0. lia. }
  assert (Hy0 : 1 <= y0 < 1 + 400).
  { pose proof (Z.mod_pos_bound (y - 1) 400). subst y0. lia. }
  replace (mkdate y m dd) with (shift_year (mkdate y0 m dd) (400 * q))
    by (unfold shift_year; cbn; f_equal; lia).
  rewrite ymd2ord_shift, ord2ymd_add_period. f_equal.
  rewrite Hy, days_in_month_shift in Hd.
  pose proof (days_in_month_bounds y0 m).
  pose proof (all_range_spec _ _ _ ord2ymd_check y0 ltac:(change (Z.of_nat 400) with 400; change (Z.of_nat 12) with 12; change (Z.of_nat 31) with 31; lia)) as H1.
  pose proof (all_range_spec _ _ _ H1 m ltac:(change (Z.of_nat 400) with 400; change (Z.of_nat 12) with 12; change (Z.of_nat 31) with 31; lia)) as H2.
  pose proof (all_range_spec _ _ _ H2 dd ltac:(change (Z.of_nat 400) with 400; change (Z.of_nat 12) with 12; change (Z.of_nat 31) with 31; lia)) as H3.
  apply (proj1 (bool_decide_eq_true _)).
  apply (implb_true_elim (dd <=? days_in_month y0 m)); [exact H3 |].
  apply Z.leb_le. lia.
Qed.

Lemma valid_md_b_spec d : valid_md_b d = true <-> valid_md d.
Proof. unfold valid_md_b, valid_md. rewrite !andb_true_iff, !Z.leb_le. tauto. Qed.

(** [_ord2ymd] only produces dates with a valid month and day. *)
Lemma ord2ymd_valid n : valid_md (ord2ymd n).
Proof.
  rewrite ord2ymd_periodic.
  pose proof (all_range_spec _ _ _ cycle_ymd_check ((n - 1) mod DI400Y)) as H.
  rewrite andb_true_iff, valid_md_b_spec in H.
  destruct H as [_ [Hm Hd]];
    [pose proof (Z.mod_pos_bound (n - 1) DI400Y); unfold DI400Y in *; lia |].
  unfold shift_year, valid_md; cbn.
  replace ((n - 1) / DI400Y * 400) with (400 * ((n - 1) / DI400Y)) by lia.
  by rewrite days_in_month_shift.
Qed.

(** ** Seconds and wall clocks *)

Lemma secs_of_day_bounds t :
  0 <= hour t < 24 -> 0 <= minute t < 60 -> 0 <= second t < 60 ->
  0 <= secs_of_day t < 86400.
Proof. unfold secs_of_day. lia. Qed.

(** The wall clock rebuilt from a second count has that second count. *)
Theorem naive_seconds_of_seconds s : naive_seconds (naive_of_seconds s) = s.
Proof.
  unfold naive_seconds, naive_of_seconds, secs_of_day; cbn.
  rewrite ymd2ord_ord2ymd.
  pose proof (Z.div_mod s 86400 ltac:(lia)).
  pose proof (Z.mod_pos_bound s 86400 ltac:(lia)).
  set (r := s mod 86400) in *.
  pose proof (Z.div_mod r 3600 ltac:(lia)).
  pose proof (Z.mod_pos_bound r 3600 ltac:(lia)).
  pose proof (Z.div_mod (r mod 3600) 60 ltac:(lia)).
  pose proof (Z.mod_pos_bound (r mod 3600) 60 ltac:(lia)).
  assert (r mod 60 = r mod 3600 mod 60) as ->.
  { symmetry. apply Z.mod_mod_divide. exists 60; lia. }
  lia.
Qed.

Lemma naive_of_seconds_split dd sod :
  0 <= sod < 86400 ->
  naive_of_seconds (dd * 86400 + sod) =
  mknaive (ord2ymd dd) (sod / 3600) ((sod mod 3600) / 60) (sod mod 60).
Proof.
  intros Hs. unfold naive_of_seconds.
  rewrite <- (Z.div_unique (dd * 86400 + sod) 86400 dd sod),
          <- (Z.mod_unique (dd * 86400 + sod) 86400 dd sod) by lia.
  reflexivity.
Qed.

Definition valid_time (t : naive) : Prop :=
  0 <= hour t < 24 /\ 0 <= minute t < 60 /\ 0 <= second t < 60.

Lemma time_fields_of_secs t :
  valid_time t ->
  secs_of_day t / 3600 = hour t /\ (secs_of_day t mod 3600) / 60 = minute t
  /\ secs_of_day t mod 60 = second t.
Proof.
  unfold valid_time, secs_of_day. intros (Hh & Hm & Hs).
  rewrite <- (Z.mod_unique _ 3600 (hour t) (minute t * 60 + second t)) by lia.
  repeat split.
  - symmetry. apply (Z.div_unique _ _ _ (minute t * 60 + second t)); lia.
  - symmetry. apply (Z.div_unique _ _ _ (second t)); lia.
  - symmetry. apply (Z.mod_unique _ _ (hour t * 60 + minute t)); lia.
Qed.

(** A wall clock with a valid date and time is rebuilt from its second
    count: [naive_of_seconds] inverts [naive_seconds]. *)
Theorem naive_of_seconds_seconds t :
  valid_md (ndate t) -> valid_time t -> naive_of_seconds (naive_seconds t) = t.
Proof.
  intros Hd Ht. unfold naive_seconds.
  rewrite naive_of_seconds_split by (unfold valid_time, secs_of_day in *; lia).
  destruct (time_fields_of_secs t Ht) as (-> & -> & ->).
  rewrite ord2ymd_ymd2ord by done. by destruct t.
Qed.

(** Adding whole days to a wall clock keeps its time of day and moves
    its ordinal by that many days. *)
Lemma add_seconds_days t n :
  valid_time t ->
  add_seconds t (n * 86400) =
  mknaive (ord2ymd (ymd2ord (ndate t) + n)) (hour t) (minute t) (second t).
Proof.
  intros Ht. unfold add_seconds, naive_seconds.
  replace (ymd2ord (ndate t) * 86400 + secs_of_day t + n * 86400)
    with ((ymd2ord (ndate t) + n) * 86400 + secs_of_day t) by lia.
  rewrite naive_of_seconds_split by (unfold valid_time, secs_of_day in *; lia).
  by destruct (time_fields_of_secs t Ht) as (-> & -> & ->).
Qed.

Lemma naive_seconds_add t s : naive_seconds (add_seconds t s) = naive_seconds t + s.
Proof. apply naive_seconds_of_seconds. Qed.

Lemma instant_dt_add d s : instant (dt_add d s) = instant d + s.
Proof. unfold instant, dt_add; cbn. rewrite naive_seconds_add. lia. Qed.


