(* ===== verification/Text.v ===== *)
(** * Python string operations used by the parsers

    [Module Text] gives the semantics of the methods of Python's [str]
    that [parse_reminder] (bot.py 626-653), [ReminderParser]
    ([src/nlp_parser.py]) and the callback dispatch of [button_callback]
    call: [strip], [lower], [split], [startswith], [in], [replace],
    [join], [int()] and [str()] of integers.  Strings are Stdlib
    [string]s of bytes; whitespace and case are those of the ASCII range
    (Python's [str.isspace] there: tab to carriage return, the separators
    0x1c-0x1f and space).  The lemmas are the ones the round trips of the
    parsers need: stripping a stripped string, splitting a joined list,
    lowering an append. *)

From S2P Require Import Spec2Rocq.

Module Text.

(** ** Characters *)

(** [str.isspace] on one ASCII character. *)
Definition is_space (c : Ascii.ascii) : bool :=
  let n := Ascii.nat_of_ascii c in
  ((9 <=? n) && (n <=? 13))%nat || ((28 <=? n) && (n <=? 32))%nat.

(** [str.lower] on one ASCII character. *)
Definition lower_char (c : Ascii.ascii) : Ascii.ascii :=
  let n := Ascii.nat_of_ascii c in
  if ((65 <=? n) && (n <=? 90))%nat then Ascii.ascii_of_nat (n + 32) else c.

Definition is_digit (c : Ascii.ascii) : bool :=
  let n := Ascii.nat_of_ascii c in ((48 <=? n) && (n <=? 57))%nat.

(** ** Methods of [str] *)

Fixpoint lstrip (s : string) : string :=
  match s with
  | EmptyString => EmptyString
  | String c s' => if is_space c then lstrip s' else s
  end.

Fixpoint rstrip (s : string) : string :=
  match s with
  | EmptyString => EmptyString
  | String c s' =>
      let r := rstrip s' in
      if is_space c && String.eqb r "" then EmptyString else String c r
  end.

(** [s.strip()] *)
Definition strip (s : string) : string := rstrip (lstrip s).

(** [s.lower()] *)
Fixpoint lower (s : string) : string :=
  match s with
  | EmptyString => EmptyString
  | String c s' => String (lower_char c) (lower s')
  end.

(** [s.split(sep)] for a one-character separator: the pieces between
    the separators, empty ones included. *)
Fixpoint split_on (sep : Ascii.ascii) (s : string) : list string :=
  match s with
  | EmptyString => [EmptyString]
  | String c s' =>
      let rest := split_on sep s' in
      if Ascii.eqb c sep then EmptyString :: rest
      else match rest with
           | r :: rs => String c r :: rs
           | [] => [String c EmptyString]
           end
  end.

(** [s.startswith(p)] *)
Definition startswith (s p : string) : bool := String.prefix p s.

(** [sub in s] *)
Fixpoint contains (sub s : string) : bool :=
  String.prefix sub s ||
  match s with EmptyString => false | String _ s' => contains sub s' end.

(** The scan of [s.replace(old, new)] for a non-empty [old]: occurrences
    left to right, without overlap; [skip] characters of the last
    occurrence are still to be dropped. *)
Fixpoint replace_go (old new : string) (skip : nat) (s : string) : string :=
  match s with
  | EmptyString => EmptyString
  | String c s' =>
      match skip with
      | S k => replace_go old new k s'
      | O => if String.prefix old s
             then new +:+ replace_go old new (pred (String.length old)) s'
             else String c (replace_go old new 0 s')
      end
  end.

(** [s.replace("", new)] puts [new] around every character. *)
Fixpoint replace_empty (new s : string) : string :=
  match s with
  | EmptyString => new
  | String c s' => new +:+ String c (replace_empty new s')
  end.

(** [s.replace(old, new)] *)
Definition replace (s old new : string) : string :=
  if String.eqb old "" then replace_empty new s else replace_go old new 0 s.

(** [s[n:]] *)
Fixpoint drop (n : nat) (s : string) : string :=
  match n, s with
  | O, _ => s
  | S _, EmptyString => EmptyString
  | S k, String _ s' => drop k s'
  end.

(** [sep.join(l)] *)
Definition join (sep : string) (l : list string) : string := String.concat sep l.

(** ** Integers *)

Fixpoint digits_go (fuel : nat) (n : Z) (acc : string) : string :=
  match fuel with
  | O => acc
  | S f => let acc' := String (Ascii.ascii_of_nat (48 + Z.to_nat (n mod 10))) acc in
           if n <? 10 then acc' else digits_go f (n / 10) acc'
  end.

(** [str(n)]: the fuel is the number of bits of [n], at least its number
    of decimal digits. *)
Definition str_int (n : Z) : string :=
  let a := Z.abs n in
  (if n <? 0 then "-" else "") +:+ digits_go (S (Z.to_nat (Z.log2 a))) a "".

Fixpoint int_go (s : string) (acc : Z) : option Z :=
  match s with
  | EmptyString => Some acc
  | String c s' =>
      if is_digit c then int_go s' (10 * acc + Z.of_nat (Ascii.nat_of_ascii c - 48))
      else None
  end.

(** [int(s)] for the strings of digits the code converts ([None]: the
    [ValueError] of a non-numeric or empty string); an optional sign
    and surrounding whitespace are accepted, as Python does. *)
Definition int_of_string (s : string) : option Z :=
  match strip s with
  | EmptyString => None
  | String c s' =>
      if Ascii.eqb c (Ascii.ascii_of_nat 45) then (match s' with EmptyString => None | _ => n ← int_go s' 0; Some (- n) end)
      else if Ascii.eqb c (Ascii.ascii_of_nat 43) then (match s' with EmptyString => None | _ => int_go s' 0 end)
      else int_go (String c s') 0
  end.

(** Strings without whitespace. *)
Fixpoint graphic (s : string) : bool :=
  match s with EmptyString => true | String c s' => negb (is_space c) && graphic s' end.

(** ** Lemmas *)

(** stdpp makes [String.append] [simpl never]; its two equations. *)
Lemma string_app_nil b : "" +:+ b = b.
Proof. reflexivity. Qed.

Lemma string_app_cons c a b : String c a +:+ b = String c (a +:+ b).
Proof. reflexivity. Qed.

Create Rewrite HintDb text_rw.
#[export] Hint Rewrite string_app_nil string_app_cons : text_rw.

Ltac str_simpl := repeat (autorewrite with text_rw; cbn -[String.append]).

Lemma prefix_app p s : String.prefix p (p +:+ s) = true.
Proof.
  induction p as [|c p IH]; str_simpl; [by destruct s |].
  destruct (Ascii.ascii_dec c c); [exact IH | done].
Qed.

Lemma prefix_empty s : String.prefix "" s = true.
Proof. by destruct s. Qed.

Lemma startswith_app p s : startswith (p +:+ s) p = true.
Proof. apply prefix_app. Qed.

Lemma lower_app a b : lower (a +:+ b) = lower a +:+ lower b.
Proof. induction a as [|c a IH]; str_simpl; [done | by rewrite IH]. Qed.

Lemma string_app_assoc a b c : (a +:+ b) +:+ c = a +:+ (b +:+ c).
Proof. induction a as [|x a IH]; str_simpl; [done | by rewrite IH]. Qed.

Lemma string_app_nil_r a : a +:+ "" = a.
Proof. induction a as [|x a IH]; str_simpl; [done | by rewrite IH]. Qed.

Lemma lstrip_app_space a b :
  forallb is_space (String.list_ascii_of_string a) = true -> lstrip (a +:+ b) = lstrip b.
Proof.
  induction a as [|c a IH]; str_simpl; [done |].
  intros [Hc Ha]%andb_true_iff. rewrite Hc. by apply IH.
Qed.

Lemma drop_app p s : drop (String.length p) (p +:+ s) = s.
Proof. induction p as [|c p IH]; str_simpl; [done | exact IH]. Qed.

Lemma drop_length s : drop (String.length s) s = "".
Proof. induction s as [|c s IH]; [done | exact IH]. Qed.

(** A string with no whitespace at its start is its own [lstrip]. *)
Lemma lstrip_id s :
  match s with String c _ => is_space c = false | EmptyString => True end -> lstrip s = s.
Proof. destruct s as [|c s]; cbn; [done |]. by intros ->. Qed.

Lemma lstrip_blank s : lstrip (" " +:+ s) = lstrip s.
Proof. reflexivity. Qed.

Lemma lstrip_length s : (String.length (lstrip s) <= String.length s)%nat.
Proof. induction s as [|c s IH]; cbn; [lia |]. destruct (is_space c); cbn; lia. Qed.

(** Whether a one-character string occurs in an append. *)
Lemma contains_char_app c a b :
  contains (String c "") (a +:+ b) = contains (String c "") a || contains (String c "") b.
Proof.
  induction a as [|x a IH]; str_simpl.
  - destruct b; reflexivity.
  - rewrite IH. destruct (Ascii.ascii_dec c x); cbn; rewrite ?prefix_empty; cbn;
      [done | by destruct (contains _ a)].
Qed.

Lemma rstrip_app_nonspace a b :
  rstrip b = b -> b <> "" -> rstrip (a +:+ b) = a +:+ b.
Proof.
  intros Hb Hne. induction a as [|c a IH]; str_simpl; [done |].
  rewrite IH. destruct (a +:+ b) eqn:E; [| by rewrite andb_false_r].
  destruct a; cbn in E; [done | discriminate].
Qed.

(** The pieces of [sep.join(l)] are the elements of [l] when none
    contains the separator. *)
Lemma split_on_concat sep l :
  l <> [] -> Forall (fun x => contains (String sep "") x = false) l ->
  split_on sep (String.concat (String sep "") l) = l.
Proof.
  intros Hne Hl. induction l as [|x l IH]; [done |].
  apply Forall_cons in Hl as [Hx Hl].
  assert (Hsplit : forall y, contains (String sep "") y = false ->
            forall t, split_on sep (y +:+ String sep t) = y :: split_on sep t).
  { induction y as [|c y IHy]; intros Hy t; str_simpl.
    - by rewrite Ascii.eqb_refl.
    - cbn in Hy. destruct (Ascii.ascii_dec sep c) as [<- | Hsc]; [cbn in Hy; by rewrite prefix_empty in Hy |].
      cbn in Hy. rewrite (IHy Hy t).
      destruct (Ascii.eqb_spec c sep); [congruence | done]. }
  assert (Hone : forall y, contains (String sep "") y = false -> split_on sep y = [y]).
  { induction y as [|c y IHy]; intros Hy; cbn; [done |].
    cbn in Hy. destruct (Ascii.ascii_dec sep c) as [<- | Hsc]; [cbn in Hy; by rewrite prefix_empty in Hy |].
    cbn in Hy. rewrite (IHy Hy). destruct (Ascii.eqb_spec c sep); [congruence | done]. }
  destruct l as [|y l].
  - cbn. by apply Hone.
  - change (String.concat (String sep "") (x :: y :: l))
      with (x +:+ String sep "" +:+ String.concat (String sep "") (y :: l)).
    rewrite string_app_cons, string_app_nil, Hsplit by done. f_equal. apply IH; [done | done].
Qed.

(** [s.replace(c, '')] for one character distributes over an append. *)
Lemma replace_char_app c a b :
  replace (a +:+ b) (String c "") "" = replace a (String c "") "" +:+ replace b (String c "") "".
Proof.
  unfold replace; cbn -[String.append]. induction a as [|x a IH]; str_simpl; [done |].
  destruct (Ascii.ascii_dec c x); cbn; rewrite ?prefix_empty; str_simpl; by rewrite IH.
Qed.

Lemma graphic_app a b : graphic (a +:+ b) = graphic a && graphic b.
Proof. induction a as [|c a IH]; str_simpl; [done |]. by rewrite IH, andb_assoc. Qed.

Lemma graphic_rstrip s : graphic s = true -> rstrip s = s.
Proof.
  induction s as [|c s IH]; cbn; [done |].
  intros [Hc Hs]%andb_true_iff. rewrite (IH Hs). by destruct (is_space c).
Qed.

Lemma graphic_lstrip s : graphic s = true -> lstrip s = s.
Proof. destruct s as [|c s]; cbn; [done |]. intros [Hc _]%andb_true_iff. by destruct (is_space c). Qed.

Lemma graphic_no_space c s : is_space c = true -> graphic s = true -> contains (String c "") s = false.
Proof.
  intros Hc. induction s as [|x s IH]; cbn; [done |].
  intros [Hx Hs]%andb_true_iff. rewrite (IH Hs), orb_false_r.
  destruct (Ascii.ascii_dec c x) as [<- |]; [by rewrite Hc in Hx | done].
Qed.

Lemma digits_go_graphic f n acc :
  0 <= n -> graphic acc = true -> graphic (digits_go f n acc) = true.
Proof.
  revert n acc. induction f as [|f IH]; intros n acc Hn Hacc; cbn; [done |].
  assert (Hd : graphic (String (Ascii.ascii_of_nat (48 + Z.to_nat (n mod 10))) acc) = true).
  { cbn. rewrite Hacc, andb_true_r. pose proof (Z.mod_pos_bound n 10 ltac:(lia)).
    unfold is_space. rewrite Ascii.nat_ascii_embedding by lia.
    destruct (Nat.leb_spec 9 (48 + Z.to_nat (n mod 10))), (Nat.leb_spec (48 + Z.to_nat (n mod 10)) 13),
      (Nat.leb_spec 28 (48 + Z.to_nat (n mod 10))), (Nat.leb_spec (48 + Z.to_nat (n mod 10)) 32); cbn; lia. }
  destruct (n <? 10); [done |]. apply IH; [apply Z.div_pos; lia | done].
Qed.

Lemma str_int_graphic n : graphic (str_int n) = true.
Proof.
  unfold str_int. rewrite graphic_app. apply andb_true_iff. split; [by destruct (n <? 0) |].
  apply digits_go_graphic; [lia | done].
Qed.

End Text.
