(* ===== verification/Regex.v ===== *)
(** * Python regular expressions used by the parsers

    [Module Regex] is a backtracking matcher for the fragment of Python's
    [re] that the bot's patterns use: character classes, concatenation,
    ordered alternation [|], the greedy [?] and the greedy [*] and [+] of
    a character class, and capturing groups (numbered or named).  It is
    written the way CPython's [sre] engine explores a pattern: the first
    alternative first, the longest repetition first, each choice undone
    when the rest of the pattern fails.  [re.match], [re.search],
    [m.group()] and [re.sub] are defined on top of it.

    The relation [matches] is the declarative semantics (what a pattern
    can consume); the theorems show that the matcher is sound and
    complete for it, and that [search] returns the leftmost match. *)

From S2P Require Import Spec2Rocq.
From S2P Require Import Text.

Module Regex.
Import Text.

(** ** Patterns *)

(** The captured groups: their names ("1", "2", ... for the numbered
    ones) and the text they matched, in the order they closed. *)
Definition captures := list (string * string).

Inductive regex :=
| Empty                                   (** the empty pattern *)
| Class (p : Ascii.ascii -> bool)         (** a literal or a [[...]] class *)
| Cat (r1 r2 : regex)
| Alt (r1 r2 : regex)                     (** [r1|r2], [r1] tried first *)
| Opt (r : regex)                         (** [r?], greedy *)
| Rep (p : Ascii.ascii -> bool)           (** [[...]*], greedy *)
| Group (name : string) (r : regex).      (** [(r)] or [(?P<name>r)] *)

(** A literal character, a range, [\d], [\s], a literal string, [+]. *)
Definition chr (c : Ascii.ascii) : regex := Class (Ascii.eqb c).
Definition range (lo hi : Ascii.ascii) : regex :=
  Class (fun c => (Ascii.nat_of_ascii lo <=? Ascii.nat_of_ascii c)%nat
                  && (Ascii.nat_of_ascii c <=? Ascii.nat_of_ascii hi)%nat).
Definition digit : regex := Class is_digit.
Definition space : regex := Class is_space.
Fixpoint lit (s : string) : regex :=
  match s with
  | EmptyString => Empty
  | String c s' => Cat (chr c) (lit s')
  end.
Definition plus (p : Ascii.ascii -> bool) : regex := Cat (Class p) (Rep p).

(** [lit] under [re.IGNORECASE], for a lower-case [s]. *)
Fixpoint lit_i (s : string) : regex :=
  match s with
  | EmptyString => Empty
  | String c s' => Cat (Class (fun x => Ascii.eqb (lower_char x) c)) (lit_i s')
  end.

(** ** The matcher *)

(** The text [s] minus its suffix [s']. *)
Definition consumed (s s' : string) : string :=
  String.substring 0 (String.length s - String.length s') s.

Section Matcher.
Context {B : Type}.

(** [[p]*]: the longest run first, then one character less, ... *)
Fixpoint rep_go (p : Ascii.ascii -> bool) (k : string -> option B) (s : string) : option B :=
  match s with
  | String c s' =>
      if p c then match rep_go p k s' with Some b => Some b | None => k s end
      else k s
  | EmptyString => k s
  end.

(** [mtch r s caps k]: match [r] at the start of [s], then run the
    continuation [k] (the rest of the pattern) on what is left. *)
Fixpoint mtch (r : regex) (s : string) (caps : captures)
    (k : string -> captures -> option B) : option B :=
  match r with
  | Empty => k s caps
  | Class p => match s with
               | String c s' => if p c then k s' caps else None
               | EmptyString => None
               end
  | Cat r1 r2 => mtch r1 s caps (fun s' caps' => mtch r2 s' caps' k)
  | Alt r1 r2 => match mtch r1 s caps k with
                 | Some b => Some b
                 | None => mtch r2 s caps k
                 end
  | Opt r => match mtch r s caps k with
             | Some b => Some b
             | None => k s caps
             end
  | Rep p => rep_go p (fun s' => k s' caps) s
  | Group n r => mtch r s caps (fun s' caps' => k s' ((caps' ++ [(n, consumed s s')])%list))
  end.

End Matcher.

(** A match object: where it starts, the text of [m.group()], the
    groups. *)
Record match_obj := mkmatch { m_start : nat; m_text : string; m_groups : captures }.

(** [re.match(r, s)]: what is left of [s] and the groups. *)
Definition match_at (r : regex) (s : string) : option (string * captures) :=
  mtch r s [] (fun s' caps => Some (s', caps)).

Fixpoint search_go (r : regex) (i : nat) (s : string) : option match_obj :=
  match match_at r s with
  | Some (s', caps) => Some (mkmatch i (consumed s s') caps)
  | None => match s with
            | String _ s' => search_go r (S i) s'
            | EmptyString => None
            end
  end.

(** [re.search(r, s)]: the leftmost position where [r] matches. *)
Definition search (r : regex) (s : string) : option match_obj := search_go r 0 s.

(** [m.group(name)] *)
Definition group (name : string) (m : match_obj) : option string :=
  option_map snd (List.find (fun nc => String.eqb (fst nc) name) (m_groups m)).

(** [re.sub(r, repl, s)] for a pattern that never matches the empty
    string: every leftmost match replaced, scanning left to right; the
    fuel is the length of [s], one character at least being passed at
    each round. *)
Fixpoint sub_go (r : regex) (repl : string) (fuel : nat) (s : string) : string :=
  match fuel, s with
  | O, _ => s
  | _, EmptyString => EmptyString
  | S f, String c s' =>
      match match_at r s with
      | Some (rest, _) =>
          if (String.length rest <? String.length s)%nat then repl +:+ sub_go r repl f rest
          else String c (sub_go r repl f s')
      | None => String c (sub_go r repl f s')
      end
  end.

Definition sub (r : regex) (repl s : string) : string := sub_go r repl (String.length s) s.

(** ** Declarative semantics *)

(** [matches r s caps s' caps']: [r] can consume the text [s] down to
    its suffix [s'], taking the groups from [caps] to [caps']. *)
Inductive matches : regex -> string -> captures -> string -> captures -> Prop :=
| m_empty s c : matches Empty s c s c
| m_class p ch s c : p ch = true -> matches (Class p) (String ch s) c s c
| m_cat r1 r2 s c s1 c1 s2 c2 :
    matches r1 s c s1 c1 -> matches r2 s1 c1 s2 c2 -> matches (Cat r1 r2) s c s2 c2
| m_alt_l r1 r2 s c s' c' : matches r1 s c s' c' -> matches (Alt r1 r2) s c s' c'
| m_alt_r r1 r2 s c s' c' : matches r2 s c s' c' -> matches (Alt r1 r2) s c s' c'
| m_opt_some r s c s' c' : matches r s c s' c' -> matches (Opt r) s c s' c'
| m_opt_none r s c : matches (Opt r) s c s c
| m_rep_nil p s c : matches (Rep p) s c s c
| m_rep_cons p ch s s' c :
    p ch = true -> matches (Rep p) s c s' c -> matches (Rep p) (String ch s) c s' c
| m_group n r s c s' c' :
    matches r s c s' c' -> matches (Group n r) s c s' ((c' ++ [(n, consumed s s')])%list).

(** ** The matcher decides the semantics *)

Section Correctness.
Context {B : Type}.
Implicit Types (k : string -> captures -> option B) (b : B).

Lemma rep_go_sound p (k : string -> option B) s b c :
  rep_go p k s = Some b -> exists s', matches (Rep p) s c s' c /\ k s' = Some b.
Proof.
  induction s as [|ch s IH]; cbn; [eauto using matches |].
  destruct (p ch) eqn:Hp; [| eauto using matches].
  destruct (rep_go p k s) eqn:E; [intros [= <-] | eauto using matches].
  destruct (IH eq_refl) as (s' & Hm & Hk). eauto using matches.
Qed.

Lemma rep_go_here p (k : string -> option B) s b :
  k s = Some b -> exists b', rep_go p k s = Some b'.
Proof. destruct s; cbn; [eauto |]. case_match; [case_match |]; eauto. Qed.

Lemma mtch_sound r : forall s caps k b,
  mtch r s caps k = Some b -> exists s' caps', matches r s caps s' caps' /\ k s' caps' = Some b.
Proof.
  induction r as [|p|r1 IH1 r2 IH2|r1 IH1 r2 IH2|r IH|p|n r IH]; intros s caps k b; cbn.
  - eauto using matches.
  - destruct s as [|ch s]; [done |]. destruct (p ch) eqn:Hp; [eauto using matches | done].
  - intros (s1 & c1 & Hm1 & (s2 & c2 & Hm2 & Hk)%IH2)%IH1. eauto using matches.
  - destruct (mtch r1 s caps k) eqn:E.
    + intros [= <-]. destruct (IH1 _ _ _ _ E) as (? & ? & ? & ?). eauto using matches.
    + intros (? & ? & ? & ?)%IH2. eauto using matches.
  - destruct (mtch r s caps k) eqn:E.
    + intros [= <-]. destruct (IH _ _ _ _ E) as (? & ? & ? & ?). eauto using matches.
    + eauto using matches.
  - intros (s' & ? & ?)%(rep_go_sound _ _ _ _ caps). eauto.
  - intros (s' & c' & ? & ?)%IH. eauto using matches.
Qed.

Lemma mtch_complete r s caps s' caps' :
  matches r s caps s' caps' ->
  forall k b, k s' caps' = Some b -> exists b', mtch r s caps k = Some b'.
Proof.
  induction 1 as [| p ch s c Hp | r1 r2 s c s1 c1 s2 c2 _ IH1 _ IH2
                 | r1 r2 s c s' c' _ IH | r1 r2 s c s' c' _ IH | r s c s' c' _ IH | r s c
                 | p s c | p ch s s' c Hp _ IH | n r s c s' c' _ IH]; intros k b Hk; cbn.
  - eauto.
  - rewrite Hp. eauto.
  - destruct (IH2 k b Hk) as [b2 H2]. exact (IH1 _ b2 H2).
  - destruct (IH k b Hk) as [b' ->]. eauto.
  - destruct (mtch r1 s c k); [eauto | exact (IH k b Hk)].
  - destruct (IH k b Hk) as [b' ->]. eauto.
  - destruct (mtch r s c k); eauto.
  - exact (rep_go_here p (fun s' => k s' c) s b Hk).
  - rewrite Hp. destruct (IH k b Hk) as [b' Hb]. cbn in Hb. rewrite Hb. eauto.
  - exact (IH _ b Hk).
Qed.

End Correctness.

Lemma match_at_sound r s s' caps :
  match_at r s = Some (s', caps) -> matches r s [] s' caps.
Proof.
  intros (s1 & c1 & Hm & Hk)%mtch_sound. by injection Hk as -> ->.
Qed.

Lemma match_at_complete r s s' caps :
  matches r s [] s' caps -> match_at r s <> None.
Proof.
  intros Hm. destruct (mtch_complete _ _ _ _ _ Hm (fun s' caps => Some (s', caps)) _ eq_refl)
    as [b Hb]. unfold match_at. by rewrite Hb.
Qed.

(** [re.search] returns the leftmost position where the pattern matches,
    and the text the match consumed there. *)
Lemma search_go_leftmost r s i m :
  search_go r i s = Some m ->
  (i <= m_start m)%nat /\
  (exists s' caps, matches r (drop (m_start m - i) s) [] s' caps /\
     m_text m = consumed (drop (m_start m - i) s) s' /\ m_groups m = caps) /\
  forall j s' caps, (j < m_start m - i)%nat -> ~ matches r (drop j s) [] s' caps.
Proof.
  revert i. induction s as [|ch s IH]; intros i; cbn.
  - destruct (match_at r "") as [[s' caps]|] eqn:E; [intros [= <-] | done]; cbn.
    rewrite Nat.sub_diag. split; [lia |]. split; [exists s', caps; split; [by apply match_at_sound | done] | intros; lia].
  - destruct (match_at r (String ch s)) as [[s' caps]|] eqn:E.
    + intros [= <-]; cbn. rewrite Nat.sub_diag. split; [lia |].
      split; [exists s', caps; split; [by apply match_at_sound | done] | intros; lia].
    + intros (Hle & (s' & caps & Hm & Ht & Hg) & Hno)%IH. split; [lia |].
      replace (m_start m - i)%nat with (S (m_start m - S i)) by lia. split; [eauto |].
      intros [|j] s'' caps' Hj; cbn.
      * intros Hm'. exact (match_at_complete _ _ _ _ Hm' E).
      * apply Hno. lia.
Qed.

Lemma search_go_none r s i :
  search_go r i s = None -> forall j s' caps, (j <= String.length s)%nat -> ~ matches r (drop j s) [] s' caps.
Proof.
  revert i. induction s as [|ch s IH]; intros i; cbn;
    destruct (match_at _ _) as [[? ?]|] eqn:E; try done.
  - intros _ [|j] s' caps Hj; [| lia]. intros Hm. exact (match_at_complete _ _ _ _ Hm E).
  - intros Hn [|j] s' caps Hj; cbn.
    + intros Hm. exact (match_at_complete _ _ _ _ Hm E).
    + apply (IH _ Hn). lia.
Qed.

End Regex.
