(* ===== verification/Strptime.v ===== *)
(** * [datetime.strptime] for the formats the bot uses

    [Module Strptime] follows CPython's [Lib/_strptime.py]: the format is
    compiled into a regular expression ([TimeRE.pattern]: a run of
    whitespace becomes [\s+], each directive its own named group, the
    whole compiled with [re.IGNORECASE]), the expression is matched at
    the start of the text ([re.match]), a match that stops before the end
    raises "unconverted data remains", and the groups are converted to
    the fields of the result, with the [%I]/[%p] rule for the hour and
    the check of the day against its month.  The directives are the ones
    [src/bot.py] and [src/nlp_parser.py] pass: [%d %m %Y %H %I %M %p]. *)

From S2P Require Import Spec2Rocq.
From Stdlib Require Import Ascii.
From S2P Require Import Calendar Text Regex.

Module Strptime.
Import Text Regex.

(** ** Formats *)

Inductive directive :=
| Dd | Dm | DY | DH | DI | DM | Dp
| DSpace                       (** a run of whitespace of the format *)
| DLit (c : Ascii.ascii).      (** any other character *)

(** The format string read as its directives; [None] is the
    [ValueError] of an unknown directive. *)
Fixpoint parse_format (f : string) : option (list directive) :=
  match f with
  | EmptyString => Some []
  | String c f' =>
      if Ascii.eqb c "%"%char then
        match f' with
        | String x f'' =>
            d ← (if Ascii.eqb x "d"%char then Some Dd else if Ascii.eqb x "m"%char then Some Dm
                 else if Ascii.eqb x "Y"%char then Some DY else if Ascii.eqb x "H"%char then Some DH
                 else if Ascii.eqb x "I"%char then Some DI else if Ascii.eqb x "M"%char then Some DM
                 else if Ascii.eqb x "p"%char then Some Dp else None);
            ds ← parse_format f''; Some (d :: ds)
        | EmptyString => None
        end
      else if is_space c then
        ds ← parse_format f';
        Some (match ds with DSpace :: _ => ds | _ => DSpace :: ds end)
      else ds ← parse_format f'; Some (DLit c :: ds)
  end.

(** ** The regular expression of a format ([TimeRE.__init__]) *)

Definition alts (rs : list regex) : regex :=
  match rs with
  | [] => Empty
  | r :: rs' => fold_left (fun acc r' => Alt acc r') rs' r
  end.

Definition directive_re (d : directive) : regex :=
  match d with
  | Dd => Group "d" (alts [Cat (chr "3"%char) (range "0"%char "1"%char); Cat (range "1"%char "2"%char) digit;
                           Cat (chr "0"%char) (range "1"%char "9"%char); range "1"%char "9"%char;
                           Cat (chr " "%char) (range "1"%char "9"%char)])
  | Dm => Group "m" (alts [Cat (chr "1"%char) (range "0"%char "2"%char); Cat (chr "0"%char) (range "1"%char "9"%char); range "1"%char "9"%char])
  | DY => Group "Y" (Cat digit (Cat digit (Cat digit digit)))
  | DH => Group "H" (alts [Cat (chr "2"%char) (range "0"%char "3"%char); Cat (range "0"%char "1"%char) digit; digit])
  | DI => Group "I" (alts [Cat (chr "1"%char) (range "0"%char "2"%char); Cat (chr "0"%char) (range "1"%char "9"%char); range "1"%char "9"%char])
  | DM => Group "M" (alts [Cat (range "0"%char "5"%char) digit; digit])
  | Dp => Group "p" (alts [lit_i "am"; lit_i "pm"])
  | DSpace => plus is_space
  | DLit c => Class (fun x => Ascii.eqb (lower_char x) (lower_char c))
  end.

Fixpoint format_re (ds : list directive) : regex :=
  match ds with
  | [] => Empty
  | d :: ds' => Cat (directive_re d) (format_re ds')
  end.

(** ** Conversion of the groups ([_strptime]) *)

Record stm := mkstm { st_year : Z; st_month : Z; st_day : Z; st_hour : Z; st_minute : Z }.

Definition int_group (caps : captures) (name : string) (dflt : Z) : Z :=
  match List.find (fun nc => String.eqb (fst nc) name) caps with
  | Some (_, v) => default dflt (int_of_string v)
  | None => dflt
  end.

Definition str_group (caps : captures) (name : string) : string :=
  match List.find (fun nc => String.eqb (fst nc) name) caps with
  | Some (_, v) => v
  | None => ""
  end.

Definition has_group (caps : captures) (name : string) : bool :=
  bool_decide (is_Some (List.find (fun nc => String.eqb (fst nc) name) caps)).

(** The hour: [%H] as it is; [%I] with [%p], 12 AM being 0 and a PM hour
    other than 12 taking 12 more; [%I] alone read as AM. *)
Definition hour_of (caps : captures) : Z :=
  if has_group caps "I" then
    let h := int_group caps "I" 0 in
    let ampm := lower (str_group caps "p") in
    if String.eqb ampm "" || String.eqb ampm "am" then (if h =? 12 then 0 else h)
    else if String.eqb ampm "pm" then (if h =? 12 then h else h + 12)
    else h
  else int_group caps "H" 0.

Definition strptime (s fmt : string) : exc stm :=
  match parse_format fmt with
  | None => Raise (ValueError "bad directive in format")
  | Some ds =>
      match match_at (format_re ds) s with
      | None => Raise (ValueError ("time data '" +:+ s +:+ "' does not match format '" +:+ fmt +:+ "'"))
      | Some (EmptyString, caps) =>
          let r := mkstm (int_group caps "Y" 1900) (int_group caps "m" 1) (int_group caps "d" 1)
                         (hour_of caps) (int_group caps "M" 0) in
          if valid_date (mkdate (st_year r) (st_month r) (st_day r)) then Ok r
          else Raise (ValueError "day is out of range for month")
      | Some (rest, _) => Raise (ValueError ("unconverted data remains: " +:+ rest))
      end
  end.

(** [.time()] and [.date()] of the result. *)
Definition st_time (r : stm) : Z * Z := (st_hour r, st_minute r).
Definition st_date (r : stm) : date := mkdate (st_year r) (st_month r) (st_day r).

End Strptime.
