(* ===== verification/Parse.v ===== *)
(** * The structured reminder format: [parse_reminder] (bot.py 626-653)

    [Module Parse] translates [parse_reminder]: the text is split into
    stripped non-empty lines; a [date:] or [time:] line (tested on the
    lowered line) first saves the reminder being built when it has a time
    and a message, then sets its field from the regular expression
    [key:\s*(.+)]; any other line after a time is appended to the message
    with a space.  The [defaultdict] being built is a record of three
    optional fields; a field is "truthy" when it is set and not empty.
    The theorems: the round trip with the structured format of [/format]
    (each reminder comes back, its message with a leading space), the
    documented example with [priority:] and [repeat:] lines, and the
    error of an empty [time:] line. *)

From S2P Require Import Spec2Rocq Text.

Module Parse.
Import Text.

(** The [defaultdict(str)] of the reminder being built. *)
Record building := mkbuild { b_date : option string; b_time : option string; b_message : option string }.

Definition empty_building : building := mkbuild None None None.

(** [dict(current_reminder)] of a finished reminder: its keys [date]
    (when set), [time] and [message]. *)
Record parsed_reminder := mkparsed {
  pr_date : option string; pr_time : string; pr_message : string;
}.

(** [current_reminder.get('time') and current_reminder.get('message')] *)
Definition ready (b : building) : bool := truthy_str (b_time b) && truthy_str (b_message b).

Definition finish (b : building) : parsed_reminder :=
  mkparsed (b_date b) (from_option id "" (b_time b)) (from_option id "" (b_message b)).

(** bot.py 635-638 and 641-644: save the reminder when it is ready. *)
Definition flush (rs : list parsed_reminder) (b : building) : list parsed_reminder * building :=
  if ready b then ((rs ++ [finish b])%list, empty_building) else (rs, b).

(** [re.search(r'KEY:\s*(.+)', line, re.IGNORECASE).group(1).strip()] on
    a line that starts with [KEY:] (the key has [n] characters with its
    colon): [\s*] takes the blanks, [(.+)] the rest; when nothing
    follows the key the search fails and [.group] raises. *)
Definition field_value (n : nat) (line : string) : exc string :=
  let rest := drop n line in
  match lstrip rest with
  | EmptyString =>
      if String.eqb rest "" then Raise (AttributeError "'NoneType' object has no attribute 'group'")
      else Ok ""
  | v => Ok (strip v)
  end.

(** The body of the loop (bot.py 633-648) on one line. *)
Definition parse_line (st : list parsed_reminder * building) (line : string)
    : exc (list parsed_reminder * building) :=
  let '(rs, b) := st in
  let lower_line := lower line in
  if startswith lower_line "date:" then
    let '(rs', b') := flush rs b in
    match field_value 5 line with
    | Ok v => Ok (rs', mkbuild (Some v) (b_time b') (b_message b'))
    | Raise e => Raise e
    end
  else if startswith lower_line "time:" then
    let '(rs', b') := flush rs b in
    match field_value 5 line with
    | Ok v => Ok (rs', mkbuild (b_date b') (Some v) (b_message b'))
    | Raise e => Raise e
    end
  else if truthy_str (b_time b) then
    Ok (rs, mkbuild (b_date b) (b_time b) (Some (from_option id "" (b_message b) +:+ " " +:+ line)))
  else Ok (rs, b).

Fixpoint parse_lines (ls : list string) (st : list parsed_reminder * building)
    : exc (list parsed_reminder * building) :=
  match ls with
  | [] => Ok st
  | l :: ls' => match parse_line st l with Ok st' => parse_lines ls' st' | Raise e => Raise e end
  end.

(** [[line.strip() for line in text.split('\n') if line.strip()]] *)
Definition text_lines (text : string) : list string :=
  filter (fun l => l <> "") (map strip (split_on (Ascii.ascii_of_nat 10) text)).

(** bot.py 626-653 *)
Definition parse_reminder (text : string) : exc (list parsed_reminder) :=
  match parse_lines (text_lines text) ([], empty_building) with
  | Ok (rs, b) => Ok (fst (flush rs b))
  | Raise e => Raise e
  end.

(** ** The structured format *)

(** One reminder of the structured format of [/format] (bot.py
    356-373): an optional [date:] line, a [time:] line and the lines of
    the message. *)
Record structured := mkstruct { s_date : option string; s_time : string; s_lines : list string }.

Definition render_one (it : structured) : list string :=
  (match s_date it with Some d => ["date: " +:+ d] | None => [] end)
  ++ ["time: " +:+ s_time it] ++ s_lines it.

Definition render (its : list structured) : string :=
  join newline (List.concat (map render_one its)).

(** What [parse_reminder] gives for it: the message lines each prefixed
    by a space. *)
Fixpoint message_of (ls : list string) : string :=
  match ls with [] => "" | l :: ls' => " " +:+ l +:+ message_of ls' end.

Definition expected (it : structured) : parsed_reminder :=
  mkparsed (s_date it) (s_time it) (message_of (s_lines it)).

(** A field or message line the format can carry: one stripped line. *)
Definition clean_line (l : string) : Prop :=
  l <> "" /\ lstrip l = l /\ rstrip l = l /\ contains newline l = false.

(** A message line is not read as a [date:] or [time:] line. *)
Definition message_line (l : string) : Prop :=
  clean_line l /\ startswith (lower l) "date:" = false /\ startswith (lower l) "time:" = false.

Definition well_formed (it : structured) : Prop :=
  match s_date it with Some d => clean_line d | None => True end
  /\ clean_line (s_time it) /\ s_lines it <> [] /\ Forall message_line (s_lines it).

(** The reminder being built after the lines of [it]. *)
Definition build_of (it : structured) : building :=
  mkbuild (s_date it) (Some (s_time it)) (Some (message_of (s_lines it))).

(** The final [if ... append] of bot.py 651-652 after the loop. *)
Definition finish_parse (r : exc (list parsed_reminder * building)) : exc (list parsed_reminder) :=
  match r with Ok (rs, b) => Ok (fst (flush rs b)) | Raise e => Raise e end.

(** ** Lemmas on lines *)

Lemma parse_reminder_lines text :
  parse_reminder text = finish_parse (parse_lines (text_lines text) ([], empty_building)).
Proof. reflexivity. Qed.

Lemma parse_lines_app l1 l2 st :
  parse_lines (l1 ++ l2) st = match parse_lines l1 st with Ok st' => parse_lines l2 st' | Raise e => Raise e end.
Proof.
  revert st. induction l1 as [|l l1 IH]; intros st; [done |]. cbn.
  destruct (parse_line st l); [apply IH | done].
Qed.

Lemma clean_line_first l :
  clean_line l -> exists c s, l = String c s /\ is_space c = false.
Proof.
  intros (Hne & Hl & _). destruct l as [|c s]; [done |]. exists c, s. split; [done |].
  destruct (is_space c) eqn:Hc; [| done]. exfalso. cbn in Hl. rewrite Hc in Hl.
  pose proof (lstrip_length s) as Hlen. rewrite Hl in Hlen. cbn in Hlen. lia.
Qed.

(** A clean line after a key and a blank is read back by [field_value]. *)
Lemma field_value_key key v :
  String.length key = 5%nat -> clean_line v -> field_value 5 (key +:+ " " +:+ v) = Ok v.
Proof.
  intros Hk Hv. unfold field_value. rewrite <- Hk, drop_app.
  destruct (clean_line_first v Hv) as (c & s & -> & Hc).
  rewrite lstrip_blank, (lstrip_id (String c s)) by done.
  destruct Hv as (_ & Hl & Hr & _). unfold strip. by rewrite Hl, Hr.
Qed.

Lemma startswith_lower_key key v :
  startswith (lower (key +:+ v)) (lower key) = true.
Proof. rewrite lower_app. apply startswith_app. Qed.

Lemma filter_Forall {A} (P : A -> Prop) `{!forall x, Decision (P x)} l :
  Forall P l -> filter P l = l.
Proof. induction 1; [done |]. rewrite filter_cons, decide_True by done. by f_equal. Qed.

Lemma clean_line_app p v :
  (exists c s, p = String c s /\ is_space c = false) -> contains newline p = false ->
  clean_line v -> clean_line (p +:+ v).
Proof.
  intros (c & s & -> & Hc) Hp (Hne & Hl & Hr & Hn). repeat split.
  - done.
  - rewrite string_app_cons. by apply lstrip_id.
  - by apply rstrip_app_nonspace.
  - unfold newline in *. by rewrite contains_char_app, Hp, Hn.
Qed.

Lemma clean_line_strip l : clean_line l -> strip l = l.
Proof. intros (_ & Hl & Hr & _). unfold strip. by rewrite Hl, Hr. Qed.

Lemma render_one_clean it : well_formed it -> Forall clean_line (render_one it).
Proof.
  intros (Hd & Ht & _ & Hm). unfold render_one. apply Forall_app; split; [| apply Forall_app; split].
  - destruct (s_date it) as [d|]; [| done]. constructor; [| done].
    apply clean_line_app; [by do 2 eexists | reflexivity | done].
  - constructor; [| done]. apply clean_line_app; [by do 2 eexists | reflexivity | done].
  - eapply Forall_impl; [exact Hm | by intros l []].
Qed.

Lemma render_one_nonempty it : render_one it <> [].
Proof. unfold render_one. destruct (s_date it); discriminate. Qed.

Lemma clean_line_graphic l : l <> "" -> graphic l = true -> clean_line l.
Proof.
  intros Hne Hg. repeat split; [done | by apply graphic_lstrip | by apply graphic_rstrip |].
  apply graphic_no_space; [reflexivity | done].
Qed.

(** The lines [parse_reminder] reads from clean lines joined with
    newlines are those lines. *)
Lemma text_lines_join ls :
  ls <> [] -> Forall clean_line ls -> text_lines (join newline ls) = ls.
Proof.
  intros Hne Hc. unfold text_lines, join, newline.
  rewrite split_on_concat; [| done | eapply Forall_impl; [exact Hc | by intros l (_ & _ & _ & Hn)]].
  rewrite (map_ext_in _ id), map_id.
  - apply filter_Forall. eapply Forall_impl; [exact Hc | by intros l []].
  - intros l Hl%list_elem_of_In. rewrite Forall_forall in Hc. by apply clean_line_strip, Hc.
Qed.

Lemma render_clean its :
  Forall well_formed its -> Forall clean_line (List.concat (map render_one its)).
Proof.
  intros Hwf. apply Forall_concat, Forall_map. eapply Forall_impl; [exact Hwf | apply render_one_clean].
Qed.

(** The lines [parse_reminder] reads from the rendered text are the
    rendered lines. *)
Lemma text_lines_render its :
  Forall well_formed its -> text_lines (render its) = List.concat (map render_one its).
Proof.
  intros Hwf. destruct its as [|it its]; [reflexivity |].
  apply text_lines_join; [| by apply render_clean].
  cbn. pose proof (render_one_nonempty it). destruct (render_one it); [done | discriminate].
Qed.

(** Lines that are neither [date:] nor [time:] lines are skipped before
    the first reminder. *)
Definition preamble_line (l : string) : Prop :=
  startswith (lower l) "date:" = false /\ startswith (lower l) "time:" = false.

Lemma parse_lines_preamble pre rest rs :
  Forall preamble_line pre ->
  parse_lines (pre ++ rest) (rs, empty_building) = parse_lines rest (rs, empty_building).
Proof.
  induction 1 as [|l pre [Hd Ht] _ IH]; [done |].
  cbn [app parse_lines parse_line]. by rewrite Hd, Ht.
Qed.

(** ** Reading one rendered reminder *)

Lemma date_line_date d : startswith (lower ("date: " +:+ d)) "date:" = true.
Proof. change ("date: " +:+ d) with ("date:" +:+ (" " +:+ d)). rewrite lower_app. apply startswith_app. Qed.

Lemma time_line_date t : startswith (lower ("time: " +:+ t)) "date:" = false.
Proof. rewrite lower_app. unfold startswith. by str_simpl. Qed.

Lemma time_line_time t : startswith (lower ("time: " +:+ t)) "time:" = true.
Proof. change ("time: " +:+ t) with ("time:" +:+ (" " +:+ t)). rewrite lower_app. apply startswith_app. Qed.

Lemma field_value_date d : clean_line d -> field_value 5 ("date: " +:+ d) = Ok d.
Proof. apply (field_value_key "date:"). reflexivity. Qed.

Lemma field_value_time t : clean_line t -> field_value 5 ("time: " +:+ t) = Ok t.
Proof. apply (field_value_key "time:"). reflexivity. Qed.

(** Before a reminder the builder is empty or holds a finished one; a
    [date:] or [time:] line then leaves an empty builder. *)
Definition between (b : building) : Prop := b = empty_building \/ ready b = true.

Lemma flush_between rs b : between b -> flush rs b = (fst (flush rs b), empty_building).
Proof. unfold flush. intros [-> | ->]; reflexivity. Qed.

Lemma flush_ready rs b : ready b = true -> flush rs b = ((rs ++ [finish b])%list, empty_building).
Proof. unfold flush. by intros ->. Qed.

Lemma build_of_ready it : well_formed it -> ready (build_of it) = true.
Proof.
  intros (_ & (Ht & _) & Hls & _). unfold ready, build_of; cbn.
  apply andb_true_iff; split; apply truthy_str_Some; [done |].
  destruct (s_lines it); [done |]. cbn. discriminate.
Qed.

Lemma parse_message_lines ls rest rs dt t mo :
  Forall message_line ls -> t <> "" ->
  parse_lines (ls ++ rest) (rs, mkbuild dt (Some t) mo)
  = parse_lines rest (rs, mkbuild dt (Some t)
                            (match ls with [] => mo | _ => Some (from_option id "" mo +:+ message_of ls) end)).
Proof.
  intros Hls Ht. revert mo. induction Hls as [|l ls (_ & Hd & Htm) Hls IH]; intros mo; [done |].
  cbn [app parse_lines parse_line b_time b_date b_message]. rewrite Hd, Htm, (proj2 (truthy_str_Some t) Ht).
  rewrite IH. destruct ls as [|l' ls']; cbn [message_of from_option id].
  - by rewrite string_app_nil_r.
  - by rewrite !string_app_assoc.
Qed.

Lemma parse_one it rest rs b :
  well_formed it -> between b ->
  parse_lines (render_one it ++ rest) (rs, b) = parse_lines rest (fst (flush rs b), build_of it).
Proof.
  intros (Hd & Ht & Hls & Hm) Hb. destruct it as [dt t ls]; cbn in *. unfold render_one; cbn.
  assert (Htime : forall dt', parse_lines (["time: " +:+ t] ++ ls ++ rest) (fst (flush rs b), mkbuild dt' None None)
                  = parse_lines rest (fst (flush rs b), mkbuild dt' (Some t) (Some (message_of ls)))).
  { intros dt'. cbn [app parse_lines parse_line]. rewrite time_line_date, time_line_time.
    unfold flush at 2; cbn. rewrite field_value_time by done. rewrite parse_message_lines by (done || by destruct Ht).
    destruct ls; [done |]. reflexivity. }
  destruct dt as [d|]; cbn [app].
  - cbn [parse_lines parse_line]. rewrite date_line_date, (flush_between rs b Hb), field_value_date by done.
    apply (Htime (Some d)).
  - cbn [parse_lines parse_line]. rewrite time_line_date, time_line_time, (flush_between rs b Hb),
      field_value_time by done.
    cbn [b_date b_message empty_building]. rewrite parse_message_lines by (done || by destruct Ht).
    destruct ls; [done | reflexivity].
Qed.

Lemma parse_render_from its rs b :
  Forall well_formed its -> between b ->
  finish_parse (parse_lines (List.concat (map render_one its)) (rs, b))
  = Ok (fst (flush rs b) ++ map expected its)%list.
Proof.
  intros Hwf. revert rs b. induction Hwf as [|it its Hit Hwf IH]; intros rs b Hb.
  - cbn. by rewrite app_nil_r.
  - cbn [map List.concat]. rewrite parse_one by done.
    rewrite IH by (right; by apply build_of_ready).
    rewrite (flush_ready _ (build_of it)) by (by apply build_of_ready). cbn. by rewrite <- app_assoc.
Qed.

(** Reminders rendered after lines that are skipped. *)
Lemma parse_reminder_after pre its :
  Forall clean_line pre -> Forall preamble_line pre -> Forall well_formed its -> (pre ++ List.concat (map render_one its))%list <> [] ->
  parse_reminder (join newline (pre ++ List.concat (map render_one its))) = Ok (map expected its).
Proof.
  intros Hc Hp Hwf Hne. rewrite parse_reminder_lines, text_lines_join;
    [| done | apply Forall_app; split; [done | by apply render_clean]].
  rewrite parse_lines_preamble by done. rewrite parse_render_from by (done || by left). reflexivity.
Qed.

(** ** Properties of [parse_reminder] *)

(** C23 Round trip with the structured format: the text of reminders in
    the format of [/format] (an optional [date:] line, a [time:] line,
    the message lines) is parsed back into the same reminders, in order,
    each message being its lines joined with spaces, with a leading
    space. *)
Theorem parse_reminder_render its :
  Forall well_formed its -> parse_reminder (render its) = Ok (map expected its).
Proof.
  intros Hwf. rewrite parse_reminder_lines, text_lines_render by done.
  rewrite parse_render_from by (done || by left). reflexivity.
Qed.

(** The structured example of [/format] (bot.py 356-363) is read as
    one reminder with its time and date: the [priority: high] line before
    the time is dropped, and the [repeat: daily] line becomes part of the
    message, so the reminder is neither high priority nor recurring. *)
Example parse_reminder_format_example :
  parse_reminder (join newline ["reminder"; "priority: high"; "time: 9:00am"; "date: 25/02/2024";
                                "repeat: daily"; "Take medicine"])
  = Ok [mkparsed (Some "25/02/2024") "9:00am" " repeat: daily Take medicine"].
Proof. vm_compute. reflexivity. Qed.

Lemma field_value_bare n key : String.length key = n -> field_value n key = Raise (AttributeError "'NoneType' object has no attribute 'group'").
Proof. intros <-. unfold field_value. by rewrite drop_length. Qed.

(** C24 A [time:] (or [date:]) line with nothing after the key makes the
    regular expression fail, and [.group(1)] raises [AttributeError]: the
    whole message is rejected, whatever the other lines are. *)
Theorem parse_reminder_bare_key text ls1 ls2 key st :
  (key = "time:" \/ key = "date:") ->
  text_lines text = (ls1 ++ key :: ls2)%list ->
  parse_lines ls1 ([], empty_building) = Ok st ->
  parse_reminder text = Raise (AttributeError "'NoneType' object has no attribute 'group'").
Proof.
  intros Hk Hl H1. rewrite parse_reminder_lines, Hl, parse_lines_app, H1.
  destruct st as [rs b].
  destruct Hk as [-> | ->]; cbn [parse_lines parse_line];
    [change (startswith (lower "time:") "date:") with false; cbn iota beta
    | change (startswith (lower "date:") "date:") with true; cbn iota beta];
    destruct (flush rs b); rewrite field_value_bare by reflexivity; reflexivity.
Qed.

Example parse_reminder_render_witness :
  parse_reminder (render [mkstruct None "9:00am" ["Take medicine"];
                          mkstruct (Some "26/02/2024") "2:30pm" ["Doctor"; "appointment"]])
  = Ok (map expected [mkstruct None "9:00am" ["Take medicine"];
                      mkstruct (Some "26/02/2024") "2:30pm" ["Doctor"; "appointment"]]).
Proof.
  apply parse_reminder_render.
  repeat constructor; try discriminate; vm_compute; reflexivity.
Defined.

Example parse_reminder_bare_key_witness :
  parse_reminder (join newline ["Call mom"; "time:"; "9:00am"])
  = Raise (AttributeError "'NoneType' object has no attribute 'group'").
Proof.
  apply (parse_reminder_bare_key _ ["Call mom"] ["9:00am"] "time:" ([], empty_building));
    [left; reflexivity | vm_compute; reflexivity | vm_compute; reflexivity].
Defined.

End Parse.
