(* ===== verification/Nlp.v ===== *)
(** * The natural-language parser ([src/nlp_parser.py])

    [Module Nlp] models [ReminderParser]: its keyword tables in their
    dictionary order, [parse_natural_time] as the sequence of passes the
    method makes over the lowered text (priority keywords, recurrence
    keywords, [every N days], a time, relative times, relative days, day
    names, the clean-up of the message and the defaults), and
    [format_reminder_text], which writes the result in the structured
    format that [parse_reminder] reads.  Each pass is a function from the
    result and the remaining text to the new ones; a keyword is found
    with Python's [in] (a substring test) and removed with [str.replace],
    as the code does.  The current time is the wall clock of [now]. *)

From S2P Require Import Spec2Rocq.
From Stdlib Require Import Ascii.
From S2P Require Import Calendar Text Regex Strptime Parse.

Module Nlp.
Import Text Regex Strptime Parse.

(** ** The tables of [ReminderParser] *)

Definition DAYS_OF_WEEK : list (string * Z) :=
  [("monday", 0); ("mon", 0); ("tuesday", 1); ("tue", 1); ("wednesday", 2); ("wed", 2);
   ("thursday", 3); ("thu", 3); ("friday", 4); ("fri", 4); ("saturday", 5); ("sat", 5);
   ("sunday", 6); ("sun", 6)].

Definition RELATIVE_DAYS : list (string * Z) :=
  [("today", 0); ("tomorrow", 1); ("tmr", 1); ("next week", 7)].

Definition RELATIVE_TIMES : list (string * string) :=
  [("morning", "9:00am"); ("noon", "12:00pm"); ("afternoon", "2:00pm");
   ("evening", "6:00pm"); ("night", "8:00pm"); ("midnight", "12:00am")].

Definition RECURRENCE_PATTERNS : list (string * (string * Z)) :=
  [("daily", ("day", 1)); ("weekly", ("week", 1)); ("monthly", ("month", 1));
   ("every day", ("day", 1)); ("every week", ("week", 1)); ("every month", ("month", 1))].

Definition PRIORITY_KEYWORDS : list (string * string) :=
  [("urgent", "high"); ("important", "high"); ("high", "high");
   ("medium", "medium"); ("normal", "medium"); ("low", "low")].

(** ** The result dictionary *)

(** A [datetime.time] at second precision. *)
Definition clock := (Z * Z * Z)%type.

Record nlp_result := mkresult {
  r_time : option clock;
  r_date : option date;
  r_recurrence_type : option string;
  r_recurrence_interval : option Z;
  r_priority : string;
  r_message : string }.

Definition set_time (r : nlp_result) (t : clock) : nlp_result :=
  mkresult (Some t) (r_date r) (r_recurrence_type r) (r_recurrence_interval r) (r_priority r) (r_message r).
Definition set_date (r : nlp_result) (d : date) : nlp_result :=
  mkresult (r_time r) (Some d) (r_recurrence_type r) (r_recurrence_interval r) (r_priority r) (r_message r).
Definition set_recurrence (r : nlp_result) (ty : string) (n : Z) : nlp_result :=
  mkresult (r_time r) (r_date r) (Some ty) (Some n) (r_priority r) (r_message r).
Definition set_priority (r : nlp_result) (p : string) : nlp_result :=
  mkresult (r_time r) (r_date r) (r_recurrence_type r) (r_recurrence_interval r) p (r_message r).
Definition set_message (r : nlp_result) (m : string) : nlp_result :=
  mkresult (r_time r) (r_date r) (r_recurrence_type r) (r_recurrence_interval r) (r_priority r) m.

(** [text.replace(keyword, '').strip()] *)
Definition remove (t kw : string) : string := strip (replace t kw "").

(** [date + timedelta(days=k)] and [date.weekday()]. *)
Definition date_add (d : date) (k : Z) : date := ord2ymd (ymd2ord d + k).
Definition weekday (d : date) : Z := (ymd2ord d + 6) mod 7.

Definition clock_of (r : stm) : clock := (st_hour r, st_minute r, 0).

(** ** The passes of [parse_natural_time] *)

(** Lines 64-67: every priority keyword found sets the priority. *)
Definition priority_step (st : nlp_result * string) (kp : string * string) : nlp_result * string :=
  let '(r, t) := st in
  if contains (fst kp) t then (set_priority r (snd kp), remove t (fst kp)) else (r, t).

(** Lines 70-74 *)
Definition recurrence_step (st : nlp_result * string) (pr : string * (string * Z)) : nlp_result * string :=
  let '(r, t) := st in
  if contains (fst pr) t then (set_recurrence r (fst (snd pr)) (snd (snd pr)), remove t (fst pr))
  else (r, t).

(** [r'every (\d+) (day|week|month)s?'] *)
Definition every_re : regex :=
  Cat (lit "every ") (Cat (Group "1" (plus is_digit)) (Cat (chr " "%char)
    (Cat (Group "2" (Alt (lit "day") (Alt (lit "week") (lit "month")))) (Opt (chr "s"%char))))).

(** Lines 77-82 *)
Definition every_step (r : nlp_result) (t : string) : exc (nlp_result * string) :=
  match search every_re t with
  | Some m =>
      let interval := default "" (group "1" m) in
      let rec_type := default "" (group "2" m) in
      match int_of_string interval with
      | Some n => Ok (set_recurrence r rec_type n, remove t (m_text m))
      | None => Raise (ValueError "invalid literal for int()")
      end
  | None => Ok (r, t)
  end.

(** [r'(?:at )?((?:1[0-2]|0?[1-9])(?::[0-5][0-9])?\s*(?:am|pm)|(?:[01]?[0-9]|2[0-3]):[0-5][0-9])'] *)
Definition time_re : regex :=
  let minutes := Cat (chr ":"%char) (Cat (range "0"%char "5"%char) (range "0"%char "9"%char)) in
  Cat (Opt (lit "at "))
    (Group "1"
      (Alt (Cat (Alt (Cat (chr "1"%char) (range "0"%char "2"%char))
                     (Cat (Opt (chr "0"%char)) (range "1"%char "9"%char)))
                (Cat (Opt minutes) (Cat (Rep is_space) (Alt (lit "am") (lit "pm")))))
           (Cat (Alt (Cat (Opt (range "0"%char "1"%char)) (range "0"%char "9"%char))
                     (Cat (chr "2"%char) (range "0"%char "3"%char)))
                minutes))).

(** Lines 89-99: the format chosen for the matched time. *)
Definition time_of_match (time_str : string) : exc clock :=
  if negb (contains ":" time_str) then
    let ts := replace time_str " " "" in
    if (4 <? String.length ts)%nat then clock_of <$> strptime ts "%I%p"
    else clock_of <$> strptime ts "%H"
  else if contains "am" (lower time_str) || contains "pm" (lower time_str)
  then clock_of <$> strptime time_str "%I:%M%p"
  else clock_of <$> strptime time_str "%H:%M".

(** Lines 85-101: a [ValueError] of [strptime] leaves the time unset. *)
Definition time_step (r : nlp_result) (t : string) : exc nlp_result :=
  match search time_re t with
  | Some m =>
      match time_of_match (default "" (group "1" m)) with
      | Ok c => Ok (set_time r c)
      | Raise (ValueError _) => Ok r
      | Raise e => Raise e
      end
  | None => Ok r
  end.

(** Lines 104-107: every relative time found sets the time. *)
Definition relative_time_step (st : exc (nlp_result * string)) (rt : string * string)
    : exc (nlp_result * string) :=
  '(r, t) ← st;
  if contains (fst rt) t then
    c ← clock_of <$> strptime (snd rt) "%I:%M%p"; Ok (set_time r c, remove t (fst rt))
  else Ok (r, t).

(** Lines 110-114: the first relative day found sets the date. *)
Fixpoint relative_day_step (today : date) (r : nlp_result) (t : string)
    (tbl : list (string * Z)) : nlp_result * string :=
  match tbl with
  | [] => (r, t)
  | (rd, k) :: tbl' =>
      if contains rd t then (set_date r (date_add today k), remove t rd)
      else relative_day_step today r t tbl'
  end.

(** Lines 119-124: days to the named weekday, a week when it is today,
    one more week when the text says [next]. *)
Definition days_ahead (today : date) (day_num : Z) (t : string) : Z :=
  let d := (day_num - weekday today) mod 7 in
  let d := if d =? 0 then 7 else d in
  if contains "next" t then d + 7 else d.

(** Lines 117-127: the first day name found sets the date. *)
Fixpoint day_of_week_step (today : date) (r : nlp_result) (t : string)
    (tbl : list (string * Z)) : nlp_result * string :=
  match tbl with
  | [] => (r, t)
  | (dn, k) :: tbl' =>
      if contains dn t then (set_date r (date_add today (days_ahead today k t)), remove t dn)
      else day_of_week_step today r t tbl'
  end.

(** [re.sub(r'\s+', ' ', text).strip()] *)
Definition clean_message (t : string) : string := strip (sub (plus is_space) " " t).

(** Lines 130-138 *)
Definition finish_result (now : naive) (r : nlp_result) (t : string) : nlp_result :=
  let m := clean_message t in
  let r := set_message r (if String.eqb m "" then "Reminder" else m) in
  let r := match r_date r with Some _ => r | None => set_date r (ndate now) end in
  match r_time r with
  | Some _ => r
  | None => set_time r (hour now, minute now, second now)
  end.

(** [ReminderParser.parse_natural_time(text, now)] *)
Definition parse_natural_time (text : string) (now : naive) : exc nlp_result :=
  let text := strip (lower text) in
  let r0 := mkresult None None None None "medium" text in
  let '(r1, t1) := fold_left priority_step PRIORITY_KEYWORDS (r0, text) in
  let '(r2, t2) := fold_left recurrence_step RECURRENCE_PATTERNS (r1, t1) in
  '(r3, t3) ← every_step r2 t2;
  r4 ← time_step r3 t3;
  '(r5, t5) ← fold_left relative_time_step RELATIVE_TIMES (Ok (r4, t3));
  let '(r6, t6) := relative_day_step (ndate now) r5 t5 RELATIVE_DAYS in
  let '(r7, t7) := day_of_week_step (ndate now) r6 t6 DAYS_OF_WEEK in
  Ok (finish_result now r7 t7).

(** ** [format_reminder_text] *)

(** [strftime('%d/%m/%Y')] for a year of four digits and
    [strftime('%I:%M%p').lower()]. *)
Definition pad2 (n : Z) : string := (if n <? 10 then "0" else "") +:+ str_int n.
Definition fmt_dmY (d : date) : string :=
  pad2 (day d) +:+ "/" +:+ pad2 (month d) +:+ "/" +:+ str_int (year d).
Definition fmt_IMp_lower (c : clock) : string :=
  let '(h, m, _) := c in
  let h12 := if h mod 12 =? 0 then 12 else h mod 12 in
  pad2 h12 +:+ ":" +:+ pad2 m +:+ (if h <? 12 then "am" else "pm").

Definition none_attr : py_exn := AttributeError "'NoneType' object has no attribute 'strftime'".

(** [f"{x}"] of the optional interval. *)
Definition str_interval (o : option Z) : string :=
  match o with Some n => str_int n | None => "None" end.

(** Lines 143-165; [today] is [datetime.now().date()], the date of the
    server's clock. *)
Definition format_reminder_text (today : date) (p : nlp_result) : exc string :=
  let t := "reminder" +:+ newline in
  let t := if String.eqb (r_priority p) "medium" then t
           else t +:+ "priority: " +:+ r_priority p +:+ newline in
  t ← (if decide (r_date p = Some today) then Ok t
       else match r_date p with
            | Some d => Ok (t +:+ "date: " +:+ fmt_dmY d +:+ newline)
            | None => Raise none_attr
            end);
  t ← (match r_time p with
       | Some c => Ok (t +:+ "time: " +:+ fmt_IMp_lower c +:+ newline)
       | None => Raise none_attr
       end);
  let t := if truthy_str (r_recurrence_type p)
           then t +:+ "repeat: every " +:+ str_interval (r_recurrence_interval p) +:+ " "
                  +:+ default "" (r_recurrence_type p) +:+ "(s)" +:+ newline
           else t in
  Ok (t +:+ r_message p).

(** The lines of [format_reminder_text]: a preamble that
    [parse_reminder] skips, then one reminder of the structured format. *)
Definition repeat_line (p : nlp_result) : string :=
  "repeat: every " +:+ str_interval (r_recurrence_interval p) +:+ " "
  +:+ default "" (r_recurrence_type p) +:+ "(s)".

Definition preamble (p : nlp_result) : list string :=
  "reminder" :: (if String.eqb (r_priority p) "medium" then [] else ["priority: " +:+ r_priority p]).

Definition formatted (today : date) (p : nlp_result) (c : clock) (d : date) : structured :=
  mkstruct (if decide (Some d = Some today) then None else Some (fmt_dmY d)) (fmt_IMp_lower c)
           ((if truthy_str (r_recurrence_type p) then [repeat_line p] else []) ++ [r_message p]).

(** ** Lemmas *)

(** [n] blanks. *)
Fixpoint spaces (n : nat) : string :=
  match n with O => "" | S k => String " " (spaces k) end.

Lemma replace_spaces n : replace (spaces n) " " "" = "".
Proof.
  induction n as [|n IH]; [done |].
  change (spaces (S n)) with (" " +:+ spaces n). by rewrite replace_char_app, IH.
Qed.

Lemma contains_colon_spaces n : contains ":" (spaces n) = false.
Proof.
  induction n as [|n IH]; [done |].
  change (spaces (S n)) with (" " +:+ spaces n). by rewrite contains_char_app, IH.
Qed.

(** Blanks inside a time without minutes are removed before [strptime]. *)
Lemma time_of_match_spaces h ap n :
  contains ":" h = false -> contains ":" ap = false ->
  replace h " " "" = h -> replace ap " " "" = ap ->
  time_of_match (h +:+ spaces n +:+ ap) = time_of_match (h +:+ ap).
Proof.
  intros Hh Ha Rh Ra. unfold time_of_match.
  rewrite !contains_char_app, contains_colon_spaces, Hh, Ha; cbn [negb orb].
  by rewrite !replace_char_app, replace_spaces, Rh, Ra, string_app_nil.
Qed.

Lemma weekday_date_add d a : weekday (date_add d a) = (weekday d + a) mod 7.
Proof.
  unfold weekday, date_add. rewrite ymd2ord_ord2ymd.
  rewrite Z.add_mod_idemp_l by lia. f_equal. lia.
Qed.

Lemma days_ahead_spec today k t :
  0 <= k < 7 ->
  1 <= days_ahead today k t <= 14 /\ (weekday today + days_ahead today k t) mod 7 = k.
Proof.
  intros Hk. unfold days_ahead. set (w := weekday today). set (m := (k - w) mod 7).
  assert (Hb : 0 <= m < 7) by (apply Z.mod_pos_bound; lia).
  assert (Hj : forall j, (w + (m + j * 7)) mod 7 = k).
  { intros j. rewrite Z.add_assoc, Z_mod_plus_full. subst m.
    rewrite Z.add_mod_idemp_r by lia. replace (w + (k - w)) with k by lia. by apply Z.mod_small. }
  destruct (Z.eqb_spec m 0) as [E|E]; destruct (contains "next" t); split; try lia.
  all: first [rewrite <- (Hj 0); f_equal; lia | rewrite <- (Hj 1); f_equal; lia
            | rewrite <- (Hj 2); f_equal; lia].
Qed.

(** The date a day name gives: within two weeks after [today], on the
    named weekday. *)
Lemma day_of_week_step_spec today r t tbl :
  Forall (fun p => 0 <= snd p < 7) tbl ->
  day_of_week_step today r t tbl = (r, t)
  \/ exists dn k a, In (dn, k) tbl /\ contains dn t = true /\ 1 <= a <= 14
       /\ weekday (date_add today a) = k
       /\ day_of_week_step today r t tbl = (set_date r (date_add today a), remove t dn).
Proof.
  induction 1 as [|[dn k] tbl Hk Htbl IH]; cbn; [by left |].
  destruct (contains dn t) eqn:Hc.
  - right. destruct (days_ahead_spec today k t Hk) as [Hb Hw].
    exists dn, k, (days_ahead today k t). rewrite weekday_date_add.
    exact (conj (or_introl eq_refl) (conj Hc (conj Hb (conj Hw eq_refl)))).
  - destruct IH as [-> | (dn' & k' & a & Hin & ? & ? & ? & ->)]; [by left |].
    right. exists dn', k', a. by split; [right |].
Qed.

(** The texts the hour part [(?:1[0-2]|0?[1-9])] of [time_re] matches. *)
Definition hour12_texts : list string :=
  ["10"; "11"; "12"; "1"; "2"; "3"; "4"; "5"; "6"; "7"; "8"; "9";
   "01"; "02"; "03"; "04"; "05"; "06"; "07"; "08"; "09"].

Lemma date_add_ord d a : ymd2ord (date_add d a) = ymd2ord d + a.
Proof. apply ymd2ord_ord2ymd. Qed.

(** ** Properties of [parse_natural_time] *)

(** C22 A time written as an hour and [am]/[pm] without minutes ("5pm",
    "11 pm", "09am") is never read: without a colon the code calls
    [strptime] with [%I%p] only when the text is longer than four
    characters, which such a time never is, and [%H] leaves the [am] or
    [pm] unconverted, so [strptime] raises [ValueError], which the code
    swallows, and the time stays unset. *)
Theorem time_of_match_hour_ampm h ap n :
  In h hour12_texts -> In ap ["am"; "pm"] ->
  exists e, time_of_match (h +:+ spaces n +:+ ap) = Raise (ValueError e).
Proof.
  intros Hh Ha.
  repeat destruct Hh as [<- | Hh]; try done; repeat destruct Ha as [<- | Ha]; try done;
    rewrite time_of_match_spaces by reflexivity; eexists; vm_compute; reflexivity.
Qed.

(** On "call mom at 5pm" the parser keeps the current time as the
    reminder's time, not 5 pm, and leaves "at 5pm" in the message. *)
Example parse_natural_time_at_5pm now :
  fmap r_time (parse_natural_time "call mom at 5pm" now) = Ok (Some (hour now, minute now, second now)).
Proof. lazy -[date_add days_ahead]. reflexivity. Qed.

(** Keywords are found inside words: "midnight" contains "night",
    which comes first in [RELATIVE_TIMES], so "midnight snack" is set for
    8 pm with the message "mid snack"; "friend" contains "fri", so "lunch
    with friend" is moved to the next Friday with the message "lunch
    with end". *)
Example parse_natural_time_substrings now :
  fmap (fun r => (r_time r, r_message r)) (parse_natural_time "midnight snack" now)
  = Ok (Some (20, 0, 0), "mid snack")
  /\ fmap (fun r => (r_date r, r_message r)) (parse_natural_time "lunch with friend" now)
     = Ok (Some (date_add (ndate now) (days_ahead (ndate now) 4 "lunch with friend")), "lunch with end").
Proof. split; lazy -[date_add days_ahead]; reflexivity. Qed.

(** C26 The date a day name gives falls on that weekday, strictly after
    today and at most two weeks ahead; without a day name in the text the
    pass changes nothing. *)
Theorem day_of_week_step_future today r t r' t' :
  day_of_week_step today r t DAYS_OF_WEEK = (r', t') ->
  (r', t') = (r, t)
  \/ exists dn k d, In (dn, k) DAYS_OF_WEEK /\ contains dn t = true /\ r' = set_date r d
       /\ ymd2ord today < ymd2ord d <= ymd2ord today + 14 /\ weekday d = k.
Proof.
  intros Hs. destruct (day_of_week_step_spec today r t DAYS_OF_WEEK)
    as [E | (dn & k & a & Hin & Hc & Ha & Hw & E)].
  - repeat constructor; cbn; lia.
  - left. by rewrite <- Hs, E.
  - right. rewrite Hs in E. injection E as -> ->.
    exists dn, k, (date_add today a). rewrite date_add_ord. repeat split; done || lia.
Qed.

Example time_of_match_hour_ampm_witness :
  exists e, time_of_match ("11" +:+ spaces 1 +:+ "pm") = Raise (ValueError e).
Proof. apply time_of_match_hour_ampm; cbn; tauto. Defined.

Example day_of_week_step_future_witness :
  let today := mkdate 2024 3 6 in
  let '(r', t') := day_of_week_step today (mkresult None None None None "medium" "lunch with friend")
                     "lunch with friend" DAYS_OF_WEEK in
  (r', t') = (mkresult None None None None "medium" "lunch with friend", "lunch with friend")
  \/ exists dn k d, In (dn, k) DAYS_OF_WEEK /\ contains dn "lunch with friend" = true
       /\ r' = set_date (mkresult None None None None "medium" "lunch with friend") d
       /\ ymd2ord today < ymd2ord d <= ymd2ord today + 14 /\ weekday d = k.
Proof. cbv zeta. eapply day_of_week_step_future. vm_compute. reflexivity. Defined.

Lemma join_cons sep x y l : join sep (x :: y :: l) = x +:+ sep +:+ join sep (y :: l).
Proof. reflexivity. Qed.

Lemma format_reminder_text_lines today p c d :
  r_time p = Some c -> r_date p = Some d ->
  format_reminder_text today p = Ok (join newline (preamble p ++ render_one (formatted today p c d))).
Proof.
  intros Ht Hd. unfold format_reminder_text, preamble, formatted, render_one, repeat_line. rewrite Ht, Hd.
  destruct (String.eqb _ "medium"), (decide _), (truthy_str _); cbn -[String.append join];
    rewrite ?join_cons; cbn -[String.append]; rewrite ?string_app_assoc; reflexivity.
Qed.

Lemma app_nonempty_r a b : b <> "" -> a +:+ b <> "".
Proof. destruct a; [done | discriminate]. Qed.

Lemma pad2_graphic n : graphic (pad2 n) = true.
Proof. unfold pad2. rewrite graphic_app, str_int_graphic. by destruct (n <? 10). Qed.

Lemma fmt_dmY_clean d : clean_line (fmt_dmY d).
Proof.
  apply clean_line_graphic; [apply app_nonempty_r; discriminate |].
  unfold fmt_dmY. by rewrite !graphic_app, !pad2_graphic, str_int_graphic.
Qed.

Lemma fmt_IMp_lower_clean c : clean_line (fmt_IMp_lower c).
Proof.
  destruct c as [[h m] sec]. apply clean_line_graphic; [apply app_nonempty_r; discriminate |].
  unfold fmt_IMp_lower. rewrite !graphic_app, !pad2_graphic. by destruct (h <? 12).
Qed.

Lemma str_interval_graphic o : graphic (str_interval o) = true.
Proof. destruct o; [apply str_int_graphic | done]. Qed.

Lemma no_newline s : graphic s = true -> contains newline s = false.
Proof. apply graphic_no_space. reflexivity. Qed.

Lemma repeat_line_message p :
  (forall ty, r_recurrence_type p = Some ty -> graphic ty = true) -> message_line (repeat_line p).
Proof.
  intros Hty. assert (Hg : graphic (default "" (r_recurrence_type p)) = true)
    by (destruct (r_recurrence_type p) as [ty|]; [by apply Hty | done]).
  unfold repeat_line. rewrite <- !string_app_assoc.
  split; [| split; rewrite lower_app, !string_app_assoc; unfold startswith; by str_simpl].
  apply clean_line_app; [by do 2 eexists | | by apply clean_line_graphic].
  unfold newline. rewrite !contains_char_app, (no_newline (str_interval _)), (no_newline (default "" _));
    [reflexivity | exact Hg | apply str_interval_graphic].
Qed.

Lemma formatted_well_formed today p c d :
  (forall ty, r_recurrence_type p = Some ty -> graphic ty = true) -> message_line (r_message p) ->
  well_formed (formatted today p c d).
Proof.
  intros Hty Hm. unfold formatted, well_formed; cbn.
  split; [destruct (decide _); [done | apply fmt_dmY_clean] |].
  split; [apply fmt_IMp_lower_clean |]. split; [by destruct (truthy_str _) |].
  apply Forall_app; split; [| by constructor].
  destruct (truthy_str _); [constructor; [by apply repeat_line_message | done] | done].
Qed.

Lemma preamble_ok p :
  In (r_priority p) ["high"; "medium"; "low"] ->
  Forall clean_line (preamble p) /\ Forall preamble_line (preamble p).
Proof.
  unfold preamble. intros Hp. repeat destruct Hp as [Hp | Hp]; try done; rewrite <- Hp; cbn;
    split; repeat constructor; discriminate.
Qed.

(** ** From [parse_natural_time] to [parse_reminder] *)

(** C21 Round trip through the structured format on the natural-language
    path of [handle_message] (bot.py 1077-1080): the text
    [format_reminder_text] writes for a parsed reminder is read back by
    [parse_reminder] as exactly one reminder with its time ([%I:%M%p],
    lower case) and its date (none when it is the server's today), but
    without its priority, and with the recurrence written into the
    message ([" repeat: every N day(s)"]), where it is no longer a
    recurrence. *)
Theorem format_reminder_text_parse today p c d text :
  r_time p = Some c -> r_date p = Some d -> In (r_priority p) ["high"; "medium"; "low"] ->
  (forall ty, r_recurrence_type p = Some ty -> graphic ty = true) -> message_line (r_message p) ->
  format_reminder_text today p = Ok text ->
  parse_reminder text
  = Ok [mkparsed (if decide (d = today) then None else Some (fmt_dmY d)) (fmt_IMp_lower c)
          ((if truthy_str (r_recurrence_type p) then " " +:+ repeat_line p else "") +:+ " " +:+ r_message p)].
Proof.
  intros Ht Hd Hp Hty Hm Hf. rewrite (format_reminder_text_lines today p c d Ht Hd) in Hf.
  assert (E : text = join newline (preamble p ++ render_one (formatted today p c d))) by congruence.
  rewrite E.
  destruct (preamble_ok p Hp) as [Hc Hpre].
  pose proof (parse_reminder_after (preamble p) [formatted today p c d] Hc Hpre) as H.
  replace (List.concat (map render_one [formatted today p c d])) with (render_one (formatted today p c d))
    in H by (cbn; by rewrite app_nil_r). rewrite H.
  - unfold expected, formatted; cbn. f_equal. f_equal. f_equal.
    + destruct (decide (Some d = Some today)), (decide (d = today)); congruence.
    + destruct (truthy_str _); cbn; by rewrite ?string_app_nil_r, ?string_app_assoc.
  - constructor; [by apply formatted_well_formed | done].
  - unfold preamble. cbn. discriminate.
Qed.

(** The check behind the round trip of the time, by evaluation. *)
Definition time_roundtrip_ok (h m : Z) : bool :=
  match strptime (fmt_IMp_lower (h, m, 0)) "%I:%M%p" with
  | Ok r => (st_year r =? 1900) && (st_month r =? 1) && (st_day r =? 1) && (st_hour r =? h) && (st_minute r =? m)
  | Raise _ => false
  end.

Lemma time_roundtrip_check :
  all_range 24 0 (fun h => all_range 60 0 (fun m => time_roundtrip_ok h m)) = true.
Proof. vm_compute. reflexivity. Qed.

(** C25 The time [format_reminder_text] writes ([%I:%M%p], lowered) is
    read back by the first format [handle_message] tries
    ([strptime(..., '%I:%M%p')], bot.py 1086) as the same hour and minute,
    for every time of the day; only the seconds are lost. *)
Theorem strptime_fmt_IMp_lower h m sec :
  0 <= h < 24 -> 0 <= m < 60 ->
  strptime (fmt_IMp_lower (h, m, sec)) "%I:%M%p" = Ok (mkstm 1900 1 1 h m).
Proof.
  intros Hh Hm.
  pose proof (all_range_spec _ _ _ (all_range_spec _ _ _ time_roundtrip_check h Hh) m Hm) as H.
  change (fmt_IMp_lower (h, m, sec)) with (fmt_IMp_lower (h, m, 0)).
  unfold time_roundtrip_ok in H. destruct (strptime _ _) as [[y mo dy hr mi]|]; [| done]. cbn in H.
  repeat (apply andb_true_iff in H as [H ?%Z.eqb_eq]). apply Z.eqb_eq in H. by subst.
Qed.

Example strptime_fmt_IMp_lower_witness :
  strptime (fmt_IMp_lower (0, 5, 30)) "%I:%M%p" = Ok (mkstm 1900 1 1 0 5).
Proof. apply strptime_fmt_IMp_lower; lia. Defined.

Example format_reminder_text_parse_witness :
  parse_reminder (join newline ["reminder"; "priority: high"; "date: 06/03/2024"; "time: 10:30am";
                                "repeat: every 1 day(s)"; "call mom at 10:30"])
  = Ok [mkparsed (Some "06/03/2024") "10:30am" " repeat: every 1 day(s) call mom at 10:30"].
Proof.
  rewrite (format_reminder_text_parse (mkdate 2024 3 7)
             (mkresult (Some (10, 30, 0)) (Some (mkdate 2024 3 6)) (Some "day") (Some 1) "high" "call mom at 10:30")
             (10, 30, 0) (mkdate 2024 3 6)).
  - vm_compute. reflexivity.
  - reflexivity.
  - reflexivity.
  - cbn. tauto.
  - intros ty [= <-]. reflexivity.
  - repeat split; (discriminate || reflexivity).
  - vm_compute. reflexivity.
Defined.

End Nlp.
