(* ===== verification/Recurrence.v ===== *)
(** * The recurrence calculator: [calculate_next_occurrence] (bot.py 700-734)

    [Module Recurrence] translates the function branch by branch: [day]
    and [week] add a [timedelta] to the aware datetime (the wall clock
    moves, the fixed offset stays), [month] recomputes year and month
    ([next_year_month], bot.py 708-717), clamps the day with
    [calendar.monthrange] and applies the "DST correction" of bot.py
    725-732.  The theorems give the result of every branch, the
    equivalence of the month arithmetic with [divmod] on a month index,
    the validity of the produced date, the end-of-month clamp, and the
    finding that the DST correction never fires, so that a recurring
    reminder drifts by the DST shift in local time. *)

From S2P Require Import Spec2Rocq Calendar.

Module Recurrence.

(** bot.py 708-717: the year and month [interval] months later. *)
Definition next_year_month (year0 month0 interval : Z) : Z * Z :=
  let year := year0 in
  let month := month0 + interval in
  if month >? 12 then
    let year := year + month / 12 in
    let month := month mod 12 in
    if month =? 0 then (year - 1, 12) else (year, month)
  else (year, month).

(** [last_time.replace(year=y, month=m, day=dd)]: time and tzinfo kept. *)
Definition dt_replace_date (d : datetime) (y m dd : Z) : datetime :=
  mkdt (mknaive (mkdate y m dd) (hour (wall d)) (minute (wall d)) (second (wall d)))
       (tzoff d).

(** The years of [datetime]: [MINYEAR] to [MAXYEAR]. *)
Definition year_in_range (y : Z) : bool := (1 <=? y) && (y <=? 9999).

(** [timedelta(days=n)], in seconds: at most 999999999 days either way. *)
Definition timedelta_of_days (n : Z) : exc Z :=
  if Z.abs n <=? 999999999 then Ok (timedelta_days n)
  else Raise (OverflowError "days; must have magnitude <= 999999999").

(** [d + timedelta(seconds=s)] on an aware [d]: the wall clock moves and
    its year must stay within [MINYEAR..MAXYEAR]. *)
Definition dt_add_checked (d : datetime) (s : Z) : exc datetime :=
  let r := dt_add d s in
  if year_in_range (year (ndate (wall r))) then Ok r
  else Raise (OverflowError "date value out of range").

(** bot.py 700-734.  [timedelta(weeks=w)] is [timedelta(days=7*w)];
    [calendar.monthrange] rejects a month outside 1..12 and accepts any
    year, [replace] rejects a year outside 1..9999.  Python falls off the
    end of the function, returning [None], for any other recurrence
    type. *)
Definition calculate_next_occurrence (last_time : datetime) (recurrence_type : string)
    (interval : Z) : exc (option datetime) :=
  if String.eqb recurrence_type "day" then
    td ← timedelta_of_days interval; r ← dt_add_checked last_time td; Ok (Some r)
  else if String.eqb recurrence_type "week" then
    td ← timedelta_of_days (interval * 7); r ← dt_add_checked last_time td; Ok (Some r)
  else if String.eqb recurrence_type "month" then
    let d := ndate (wall last_time) in
    let '(y, m) := next_year_month (year d) (month d) interval in
    if negb ((1 <=? m) && (m <=? 12)) then Raise (ValueError "bad month number; must be 1-12") else
    let dd := Z.min (day d) (days_in_month y m) in
    if negb (year_in_range y) then Raise (ValueError "year is out of range") else
    let next_time := dt_replace_date last_time y m dd in
    match tzoff next_time with
    | Some _ =>
        match utcoffset last_time, utcoffset next_time with
        | Some old_offset, Some new_offset =>
            if negb (old_offset =? new_offset)
            then (r ← dt_add_checked next_time (old_offset - new_offset); Ok (Some r))
            else Ok (Some next_time)
        | _, _ => Ok (Some next_time)
        end
    | None => Ok (Some next_time)
    end
  else Ok None.

(** Whether a computation returns rather than raises. *)
Definition returns {A} (e : exc A) : bool := match e with Ok _ => true | Raise _ => false end.

(** A reference month arithmetic: count months from year 0. *)
Definition month_index (y m : Z) : Z := 12 * y + (m - 1).
Definition of_month_index (i : Z) : Z * Z := (i / 12, i mod 12 + 1).

(** ** The month arithmetic *)

(** The year/month computation of the month branch is [divmod] by 12
    on the month index shifted by the interval. *)
Lemma next_year_month_of_index y m k :
  1 <= m <= 12 -> 0 <= k ->
  next_year_month y m k = of_month_index (month_index y m + k).
Proof.
  intros Hm Hk. unfold next_year_month, of_month_index, month_index.
  destruct (Z.gtb_spec (m + k) 12) as [Hgt | Hle].
  - pose proof (Z.div_mod (m + k) 12 ltac:(lia)) as Hdm.
    pose proof (Z.mod_pos_bound (m + k) 12 ltac:(lia)) as Hb.
    destruct (Z.eqb_spec ((m + k) mod 12) 0) as [Hz | Hz].
    + destruct (divmod_eq (12 * y + (m - 1) + k) 12 (y + (m + k) / 12 - 1) 11)
        as [-> ->]; [lia | lia | done].
    + destruct (divmod_eq (12 * y + (m - 1) + k) 12 (y + (m + k) / 12) ((m + k) mod 12 - 1))
        as [-> ->]; [lia | lia | f_equal; lia].
  - destruct (divmod_eq (12 * y + (m - 1) + k) 12 y (m + k - 1))
      as [-> ->]; [lia | lia | f_equal; lia].
Qed.

Lemma of_month_index_bounds i : 1 <= snd (of_month_index i) <= 12.
Proof. cbn. pose proof (Z.mod_pos_bound i 12). lia. Qed.

Lemma next_year_month_month y m k :
  1 <= m <= 12 -> 0 <= k -> 1 <= snd (next_year_month y m k) <= 12.
Proof. intros. rewrite next_year_month_of_index by done. apply of_month_index_bounds. Qed.

(** ** The three branches *)

Definition is_day_or_week (rt : string) (w : Z) : Prop :=
  rt = "day" /\ w = 1 \/ rt = "week" /\ w = 7.

(** The [day] and [week] branches add [interval * w] days. *)
Lemma day_week_branch last rt w k :
  is_day_or_week rt w ->
  calculate_next_occurrence last rt k
  = (td ← timedelta_of_days (k * w); r ← dt_add_checked last td; Ok (Some r)).
Proof.
  intros [[-> ->] | [-> ->]]; unfold calculate_next_occurrence;
    cbn [String.eqb Ascii.eqb Bool.eqb andb]; [by rewrite Z.mul_1_r | done].
Qed.

(** Adding [n >= 0] days: the date is [n] ordinals later, the time of
    day and the offset stay; the errors are those of [timedelta] and of
    the year range. *)
Lemma add_days_spec last n :
  valid_time (wall last) -> 0 <= n ->
  (td ← timedelta_of_days n; r ← dt_add_checked last td; Ok (Some r))
  = if n <=? 999999999 then
      let d' := ord2ymd (ymd2ord (ndate (wall last)) + n) in
      if year_in_range (year d')
      then Ok (Some (mkdt (mknaive d' (hour (wall last)) (minute (wall last)) (second (wall last)))
                          (tzoff last)))
      else Raise (OverflowError "date value out of range")
    else Raise (OverflowError "days; must have magnitude <= 999999999").
Proof.
  intros Ht Hn. unfold timedelta_of_days. rewrite Z.abs_eq by done.
  destruct (n <=? 999999999); [rewrite exc_bind_ok | by rewrite exc_bind_raise].
  unfold dt_add_checked, dt_add, timedelta_days. rewrite add_seconds_days by done.
  cbn [wall ndate tzoff]. destruct (year_in_range _); by rewrite ?exc_bind_ok, ?exc_bind_raise.
Qed.

(** The month branch with the reference month arithmetic. *)
Lemma month_branch last k :
  1 <= month (ndate (wall last)) <= 12 -> 0 <= k ->
  calculate_next_occurrence last "month" k =
  let '(y, m) := of_month_index (month_index (year (ndate (wall last)))
                                             (month (ndate (wall last))) + k) in
  if year_in_range y
  then Ok (Some (dt_replace_date last y m (Z.min (day (ndate (wall last))) (days_in_month y m))))
  else Raise (ValueError "year is out of range").
Proof.
  intros Hm Hk. unfold calculate_next_occurrence; cbn -[next_year_month of_month_index year_in_range days_in_month add_seconds].
  rewrite next_year_month_of_index by done.
  pose proof (of_month_index_bounds (month_index (year (ndate (wall last)))
                                                 (month (ndate (wall last))) + k)) as Hb.
  destruct (of_month_index _) as [y m]; cbn in Hb.
  rewrite (proj2 (Z.leb_le 1 m)), (proj2 (Z.leb_le m 12)) by lia; cbn -[year_in_range].
  destruct (year_in_range y); [| done].
  unfold utcoffset, dt_replace_date; cbn -[days_in_month].
  destruct (tzoff last) as [o|]; cbn; [by rewrite Z.eqb_refl | done].
Qed.

(** The year and month of the month branch are the ones [interval]
    months later: their month index is the old one plus the interval and
    the month is between 1 and 12, so December and intervals of more than
    a year never produce month 0 or 13. *)
Theorem next_year_month_spec y m k :
  1 <= m <= 12 -> 0 <= k ->
  let '(y', m') := next_year_month y m k in
  month_index y' m' = month_index y m + k /\ 1 <= m' <= 12.
Proof.
  intros Hm Hk. rewrite next_year_month_of_index by done.
  pose proof (of_month_index_bounds (month_index y m + k)) as Hb.
  unfold of_month_index in *; cbn in *. split; [| lia].
  unfold month_index at 1. pose proof (Z.div_mod (month_index y m + k) 12). lia.
Qed.

Example next_year_month_spec_witness :
  let '(y', m') := next_year_month 2024 11 14 in
  month_index y' m' = month_index 2024 11 + 14 /\ 1 <= m' <= 12.
Proof. apply next_year_month_spec; lia. Defined.

(** C28 The DST correction of the month branch (bot.py 726-732) is dead
    code: [replace] keeps the tzinfo, a fixed-offset tzinfo answers
    [utcoffset()] with the same offset, so the branch returns the
    replaced datetime itself, with the year and month of
    [next_year_month] and the day clamped to the target month. *)
Theorem month_dst_correction_dead last k :
  calculate_next_occurrence last "month" k =
  let d := ndate (wall last) in
  let '(y, m) := next_year_month (year d) (month d) k in
  if negb ((1 <=? m) && (m <=? 12)) then Raise (ValueError "bad month number; must be 1-12")
  else if negb (year_in_range y) then Raise (ValueError "year is out of range")
  else Ok (Some (dt_replace_date last y m (Z.min (day d) (days_in_month y m)))).
Proof.
  unfold calculate_next_occurrence; cbn -[next_year_month year_in_range days_in_month add_seconds].
  destruct (next_year_month _ _ _) as [y m].
  destruct (_ && _); cbn -[year_in_range days_in_month]; [| done].
  destruct (year_in_range y); cbn -[days_in_month]; [| done].
  unfold utcoffset, dt_replace_date; cbn -[days_in_month].
  destruct (tzoff last) as [o|]; cbn; [by rewrite Z.eqb_refl | done].
Qed.

(** 31 January plus one month is the last day of February of the same
    year (29 in a leap year, 28 otherwise), never a day of March. *)
Theorem month_end_clamp last y :
  ndate (wall last) = mkdate y 1 31 -> 1 <= y <= 9999 ->
  exists next, calculate_next_occurrence last "month" 1 = Ok (Some next)
    /\ ndate (wall next) = mkdate y 2 (days_in_month y 2)
    /\ (days_in_month y 2 = 29 /\ is_leap y = true
        \/ days_in_month y 2 = 28 /\ is_leap y = false).
Proof.
  intros Hd Hy. rewrite month_branch by (try rewrite Hd; cbn; lia).
  rewrite Hd. cbn -[days_in_month year_in_range].
  unfold month_index.
  destruct (divmod_eq (12 * y + (1 - 1) + 1) 12 y 1) as [-> ->]; [lia | lia |].
  unfold year_in_range. rewrite (proj2 (Z.leb_le 1 y)), (proj2 (Z.leb_le y 9999)) by lia.
  eexists; split; [reflexivity |]. unfold dt_replace_date; cbn.
  unfold days_in_month; cbn. destruct (is_leap y); auto.
Qed.

Example month_end_clamp_witness :
  exists next, calculate_next_occurrence
                 (mkdt (mknaive (mkdate 2024 1 31) 9 0 0) (Some 0)) "month" 1 = Ok (Some next)
    /\ ndate (wall next) = mkdate 2024 2 (days_in_month 2024 2)
    /\ (days_in_month 2024 2 = 29 /\ is_leap 2024 = true
        \/ days_in_month 2024 2 = 28 /\ is_leap 2024 = false).
Proof. apply (month_end_clamp _ 2024); [reflexivity | lia]. Defined.

Lemma day_week_valid last rt w k :
  is_day_or_week rt w -> valid_time (wall last) -> 0 <= k ->
  match calculate_next_occurrence last rt k with
  | Ok (Some next) => valid_md (ndate (wall next)) /\ valid_time (wall next)
                      /\ year_in_range (year (ndate (wall next))) = true /\ tzoff next = tzoff last
  | Ok None => False
  | Raise e => exists msg, e = OverflowError msg \/ e = ValueError msg
  end
  /\ returns (calculate_next_occurrence last rt k)
     = (k * w <=? 999999999) && year_in_range (year (ord2ymd (ymd2ord (ndate (wall last)) + k * w))).
Proof.
  intros Hdw Ht Hk.
  assert (Hkw : 0 <= k * w) by (destruct Hdw as [[_ ->] | [_ ->]]; lia).
  rewrite (day_week_branch _ _ _ _ Hdw), add_days_spec by done.
  destruct (_ <=? _); cbv zeta; [destruct (year_in_range _) eqn:Hy |]; (split; [| reflexivity]).
  - split; [apply ord2ymd_valid |]. split; [exact Ht | done].
  - eexists; left; reflexivity.
  - eexists; left; reflexivity.
Qed.

Lemma month_valid last k :
  valid_md (ndate (wall last)) -> valid_time (wall last) -> 0 <= k ->
  match calculate_next_occurrence last "month" k with
  | Ok (Some next) => valid_md (ndate (wall next)) /\ valid_time (wall next)
                      /\ year_in_range (year (ndate (wall next))) = true /\ tzoff next = tzoff last
  | Ok None => False
  | Raise e => exists msg, e = OverflowError msg \/ e = ValueError msg
  end
  /\ returns (calculate_next_occurrence last "month" k)
     = year_in_range (fst (next_year_month (year (ndate (wall last))) (month (ndate (wall last))) k)).
Proof.
  intros Hd Ht Hk. destruct Hd as [Hm Hdd].
  rewrite month_branch, next_year_month_of_index by done.
  pose proof (of_month_index_bounds (month_index (year (ndate (wall last)))
                                                 (month (ndate (wall last))) + k)) as Hb.
  destruct (of_month_index _) as [y m]; cbn in Hb |- *.
  destruct (year_in_range y) eqn:Hy; cbn; (split; [| reflexivity]).
  - unfold dt_replace_date, valid_md; cbn. pose proof (days_in_month_bounds y m).
    split; [lia |]. split; [exact Ht | done].
  - eexists; right; reflexivity.
Qed.

(** C29 Bounds of the recurrence calculator.  For the three recurrence
    types of the schema's [CHECK], a valid datetime and an interval
    [k >= 0], the function never returns [None]: it returns a datetime
    with a valid date and time of day, a year in 1..9999 and the previous
    UTC offset, or it raises [OverflowError] or [ValueError].  The [day]
    and [week] branches raise exactly when [timedelta] exceeds 999999999
    days or the date [k] days (weeks) later leaves the years 1..9999; the
    [month] branch raises exactly when the year [k] months later does. *)
Theorem calculate_next_occurrence_valid last rt k :
  rt = "day" \/ rt = "week" \/ rt = "month" ->
  valid_md (ndate (wall last)) -> valid_time (wall last) -> 0 <= k ->
  match calculate_next_occurrence last rt k with
  | Ok (Some next) => valid_md (ndate (wall next)) /\ valid_time (wall next)
                      /\ year_in_range (year (ndate (wall next))) = true /\ tzoff next = tzoff last
  | Ok None => False
  | Raise e => exists msg, e = OverflowError msg \/ e = ValueError msg
  end
  /\ (forall w, is_day_or_week rt w ->
        returns (calculate_next_occurrence last rt k)
        = (k * w <=? 999999999) && year_in_range (year (ord2ymd (ymd2ord (ndate (wall last)) + k * w))))
  /\ (rt = "month" ->
        returns (calculate_next_occurrence last rt k)
        = year_in_range (fst (next_year_month (year (ndate (wall last))) (month (ndate (wall last))) k))).
Proof.
  intros Hrt Hd Ht Hk. destruct Hrt as [-> | [-> | ->]].
  - destruct (day_week_valid last "day" 1 k) as [H1 H2]; [by left | done | done |].
    split; [exact H1 |]. split; [| discriminate].
    intros w [[_ ->] | [? _]]; [exact H2 | discriminate].
  - destruct (day_week_valid last "week" 7 k) as [H1 H2]; [by right | done | done |].
    split; [exact H1 |]. split; [| discriminate].
    intros w [[? _] | [_ ->]]; [discriminate | exact H2].
  - destruct (month_valid last k) as [H1 H2]; [done | done | done |].
    split; [exact H1 |]. split; [intros w [[? _] | [? _]]; discriminate | intros _; exact H2].
Qed.

(** Monthly from 31 January 2024 with an interval of 120000 months: the
    year 12024 is out of range and the call raises. *)
Example calculate_next_occurrence_valid_witness :
  let last := mkdt (mknaive (mkdate 2024 1 31) 9 0 0) (Some 0) in
  returns (calculate_next_occurrence last "month" 120000)
    = year_in_range (fst (next_year_month 2024 1 120000))
  /\ year_in_range (fst (next_year_month 2024 1 120000)) = false.
Proof.
  split; [| vm_compute; reflexivity].
  destruct (calculate_next_occurrence_valid (mkdt (mknaive (mkdate 2024 1 31) 9 0 0) (Some 0))
              "month" 120000) as (_ & _ & H);
    [right; right; done | unfold valid_md; cbn; lia | unfold valid_time; cbn; lia | lia |].
  by apply H.
Defined.

(** ** Local time of the next firing *)

(** A toy [Europe/London] for 2024: GMT, and BST (+3600 s) from
    2024-03-31 01:00 UTC to 2024-10-27 01:00 UTC; [localize] with pytz's
    default [is_dst=False] (the repeated hour and the skipped hour get
    GMT). *)
Definition bst_start : Z := naive_seconds (mknaive (mkdate 2024 3 31) 1 0 0).
Definition bst_end : Z := naive_seconds (mknaive (mkdate 2024 10 27) 1 0 0).

Definition london_2024 : TzDatabase := {|
  tz_localize name t :=
    if String.eqb name "Europe/London" then
      let s := naive_seconds t in
      Some (if (bst_start + 3600 <=? s) && (s <? bst_end) then 3600 else 0)
    else None;
  tz_offset_at name u :=
    if String.eqb name "Europe/London" then
      Some (if (bst_start <=? u) && (u <? bst_end) then 3600 else 0)
    else None;
|}.

(** The next occurrence carries the tzinfo of the previous one. *)
Lemma dt_add_checked_tzoff d s r : dt_add_checked d s = Ok r -> tzoff r = tzoff d.
Proof. unfold dt_add_checked. destruct (year_in_range _); intros; simplify_eq; reflexivity. Qed.

Lemma calculate_next_occurrence_tzoff last rt k next :
  calculate_next_occurrence last rt k = Ok (Some next) -> tzoff next = tzoff last.
Proof.
  intros Hc. unfold calculate_next_occurrence in Hc.
  destruct (String.eqb rt "day"); [| destruct (String.eqb rt "week")].
  1,2: apply exc_bind_Ok_inv in Hc as (td & _ & Hc); apply exc_bind_Ok_inv in Hc as (r & Hr & Hc);
    simplify_eq; by eapply dt_add_checked_tzoff.
  destruct (String.eqb rt "month"); [| done].
  destruct (next_year_month _ _ _) as [y m].
  destruct (negb _); [done |]. destruct (negb (year_in_range y)); [done |].
  unfold utcoffset, dt_replace_date in Hc; cbn [tzoff] in Hc.
  destruct (tzoff last) as [o|] eqn:Ho; [| by simplify_eq].
  rewrite Z.eqb_refl in Hc. cbn [negb] in Hc. by simplify_eq.
Qed.

(** C27 The next occurrence is armed for the instant of its wall clock
    read with the offset of the previous occurrence.  When the zone's
    offset at that instant is another one (a DST change in between), the
    reminder fires at a local time shifted by the difference: the local
    clock time is not preserved. *)
Theorem next_occurrence_local_time `{TzDatabase} name last rt k next o o' :
  tzoff last = Some o ->
  calculate_next_occurrence last rt k = Ok (Some next) ->
  tz_offset_at name (instant next) = Some o' ->
  to_local name (instant next) = Some (add_seconds (wall next) (o' - o)).
Proof.
  intros Ho Hc Ho'.
  assert (Hn : tzoff next = Some o) by (rewrite <- Ho; by eapply calculate_next_occurrence_tzoff).
  unfold to_local. rewrite Ho'; cbn. unfold add_seconds, instant.
  rewrite Hn; cbn. f_equal. f_equal. lia.
Qed.

(** A daily reminder set for 09:00 on 30 March 2024 in London fires at
    10:00 local time on 31 March. *)
Example next_occurrence_local_time_witness :
  let last := mkdt (mknaive (mkdate 2024 3 30) 9 0 0) (Some 0) in
  @localize london_2024 "Europe/London" (wall last) = Ok last
  /\ calculate_next_occurrence last "day" 1
     = Ok (Some (mkdt (mknaive (mkdate 2024 3 31) 9 0 0) (Some 0)))
  /\ @to_local london_2024 "Europe/London"
       (instant (mkdt (mknaive (mkdate 2024 3 31) 9 0 0) (Some 0)))
     = Some (mknaive (mkdate 2024 3 31) 10 0 0).
Proof.
  split; [vm_compute; reflexivity |]. split; [vm_compute; reflexivity |].
  rewrite (@next_occurrence_local_time london_2024 "Europe/London"
             (mkdt (mknaive (mkdate 2024 3 30) 9 0 0) (Some 0)) "day" 1 _ 0 3600);
    vm_compute; reflexivity.
Defined.

End Recurrence.
