(* ===== verification/Store.v ===== *)
(** * The reminder store: SQLite tables, triggers and [@safe_db_operation]

    [Module Store] models the two tables of [src/migrations.py] (after
    migrations 001-004) as two [gmap]s, the [CHECK] constraints of the
    schema as a boolean test on a row, and the two triggers of migration
    004 that maintain [users.reminder_count].  Each database function of
    [src/bot.py] is a function [Db -> exc (A * Db)]: an SQL error rolls the
    transaction back, so a raised exception carries no database.  The
    retry decorator [safe_db_operation] is a combinator over an oracle of
    busy connections.  The theorems state the well-formedness invariant of
    the database (the quota counter equals the number of pending rows of
    the user) and its preservation by every operation, the quota check,
    the pending-to-terminal discipline of status changes, the behaviour
    of [update_reminder] and the bounded retries of the decorator. *)

From S2P Require Import Spec2Rocq Calendar.

Module Store.

(** ** Data: the rows of the two tables *)

(** [status TEXT CHECK (status IN ('pending', 'completed', 'cancelled'))] *)
Inductive status := Pending | Completed | Cancelled.

#[export] Instance status_eq_dec : EqDecision status.
Proof. solve_decision. Defined.

(** A row of [reminders]: [reminder_time] is stored as [isoformat()] of an
    aware datetime and read back by [fromisoformat], which gives the same
    wall clock and offset. *)
Record reminder_row := mkrow {
  r_id : string;
  r_user : Z;
  r_message : string;
  r_time : datetime;
  r_status : status;
  r_priority : string;
  r_rtype : option string;
  r_rinterval : option Z;
  r_end : option datetime;
  r_parent : option string;
}.

(** A row of [users] ([created_at], [last_active_at] not modelled). *)
Record user_row := mkuser {
  u_timezone : option string;
  u_max : Z;
  u_count : Z;
}.

Record Db := mkdb {
  users : gmap Z user_row;
  rows : gmap string reminder_row;
}.

(** The [CHECK] constraints of migrations 001 and 003 on a reminder row. *)
Definition row_check (r : reminder_row) : bool :=
  bool_decide (r_priority r ∈ ["high"; "medium"; "low"])
  && match r_rtype r with
     | Some t => bool_decide (t ∈ ["day"; "week"; "month"])
     | None => true
     end
  && match r_rinterval r with Some n => 0 <? n | None => true end.

(** ** The triggers of migration 004 *)

Definition incr_count (u : user_row) : user_row :=
  mkuser (u_timezone u) (u_max u) (u_count u + 1).
Definition decr_count (u : user_row) : user_row :=
  mkuser (u_timezone u) (u_max u) (u_count u - 1).

(** [update_reminder_count_insert]: AFTER INSERT WHEN NEW.status = 'pending'. *)
Definition trigger_insert (r : reminder_row) (us : gmap Z user_row) : gmap Z user_row :=
  if decide (r_status r = Pending) then alter incr_count (r_user r) us else us.

(** [update_reminder_count_delete]: AFTER UPDATE WHEN NEW.status != 'pending'
    AND OLD.status = 'pending'. *)
Definition trigger_update (old new : reminder_row) (us : gmap Z user_row) : gmap Z user_row :=
  if decide (r_status new <> Pending /\ r_status old = Pending)
  then alter decr_count (r_user new) us else us.

(** [INSERT INTO reminders]: the primary key and the checks, then the
    insert trigger. *)
Definition insert_row (r : reminder_row) (db : Db) : exc Db :=
  match rows db !! r_id r with
  | Some _ => Raise IntegrityError
  | None =>
      if row_check r
      then Ok (mkdb (trigger_insert r (users db)) (<[r_id r := r]> (rows db)))
      else Raise IntegrityError
  end.

(** [UPDATE reminders SET ... WHERE id = ? AND cond]: the primary key
    selects at most one row; returns [c.rowcount > 0]. *)
Definition update_row (rid : string) (cond : reminder_row -> bool)
    (f : reminder_row -> reminder_row) (db : Db) : exc (bool * Db) :=
  match rows db !! rid with
  | Some r =>
      if cond r then
        if row_check (f r)
        then Ok (true, mkdb (trigger_update r (f r) (users db)) (<[rid := f r]> (rows db)))
        else Raise IntegrityError
      else Ok (false, db)
  | None => Ok (false, db)
  end.

Definition is_pending (r : reminder_row) : bool := bool_decide (r_status r = Pending).

(** Python's [if user_id:]: [None] and [0] are false. *)
Definition owner_filter (user_id : option Z) (r : reminder_row) : bool :=
  match user_id with
  | Some u => if decide (u = 0) then true else bool_decide (r_user r = u)
  | None => true
  end.

Definition set_status (s : status) (r : reminder_row) : reminder_row :=
  mkrow (r_id r) (r_user r) (r_message r) (r_time r) s (r_priority r)
        (r_rtype r) (r_rinterval r) (r_end r) (r_parent r).

(** ** The database functions of bot.py *)

(** bot.py 68-73 *)
Definition get_user_timezone (user_id : Z) (db : Db) : option string :=
  u ← users db !! user_id; u_timezone u.

(** bot.py 75-84: INSERT ... ON CONFLICT(user_id) DO UPDATE SET timezone;
    a new user gets the column defaults of migration 004 (quota 50). *)
Definition set_user_timezone (user_id : Z) (timezone : string) (db : Db) : exc (unit * Db) :=
  let u := match users db !! user_id with
           | Some u => mkuser (Some timezone) (u_max u) (u_count u)
           | None => mkuser (Some timezone) 50 0
           end in
  Ok (tt, mkdb (<[user_id := u]> (users db)) (rows db)).

(** bot.py 86-109 *)
Definition save_reminder (user_id : Z) (reminder_id message : string)
    (reminder_time : datetime) (priority : string) (recurrence_type : option string)
    (recurrence_interval : option Z) (parent_id : option string) (db : Db)
    : exc (bool * Db) :=
  match users db !! user_id with
  | None => Raise (DatabaseError "User not found")
  | Some u =>
      if u_max u <=? u_count u then Raise (ReminderLimitError "Maximum number of reminders reached")
      else
        match insert_row (mkrow reminder_id user_id message reminder_time Pending priority
                                recurrence_type recurrence_interval None parent_id) db with
        | Ok db' => Ok (true, db')
        | Raise e => Raise e
        end
  end.

(** bot.py 132-147 *)
Definition delete_reminder (reminder_id : string) (user_id : option Z) (db : Db)
    : exc (bool * Db) :=
  update_row reminder_id (fun r => owner_filter user_id r && is_pending r)
             (set_status Cancelled) db.

(** bot.py 149-157 *)
Definition mark_reminder_complete (reminder_id : string) (db : Db) : exc (bool * Db) :=
  update_row reminder_id is_pending (set_status Completed) db.

(** The columns [update_reminder] may set, with the keyword's value. *)
Inductive field_update :=
| UMessage (v : option string)
| UTime (v : option datetime)
| UPriority (v : option string)
| URecType (v : option string)
| URecInterval (v : option Z).

(** [value is not None]: the field becomes a [SET] clause. *)
Definition update_present (u : field_update) : bool :=
  match u with
  | UMessage v => bool_decide (is_Some v) | UTime v => bool_decide (is_Some v)
  | UPriority v => bool_decide (is_Some v) | URecType v => bool_decide (is_Some v)
  | URecInterval v => bool_decide (is_Some v)
  end.

Definition apply_update (r : reminder_row) (u : field_update) : reminder_row :=
  match u with
  | UMessage (Some m) =>
      mkrow (r_id r) (r_user r) m (r_time r) (r_status r) (r_priority r)
            (r_rtype r) (r_rinterval r) (r_end r) (r_parent r)
  | UTime (Some t) =>
      mkrow (r_id r) (r_user r) (r_message r) t (r_status r) (r_priority r)
            (r_rtype r) (r_rinterval r) (r_end r) (r_parent r)
  | UPriority (Some p) =>
      mkrow (r_id r) (r_user r) (r_message r) (r_time r) (r_status r) p
            (r_rtype r) (r_rinterval r) (r_end r) (r_parent r)
  | URecType (Some t) =>
      mkrow (r_id r) (r_user r) (r_message r) (r_time r) (r_status r) (r_priority r)
            (Some t) (r_rinterval r) (r_end r) (r_parent r)
  | URecInterval (Some n) =>
      mkrow (r_id r) (r_user r) (r_message r) (r_time r) (r_status r) (r_priority r)
            (r_rtype r) (Some n) (r_end r) (r_parent r)
  | _ => r
  end.

(** bot.py 228-262: with no keyword, or only [None] values, it returns
    [False] without touching the table. *)
Definition update_reminder (reminder_id : string) (user_id : option Z)
    (updates : list field_update) (db : Db) : exc (bool * Db) :=
  if bool_decide (updates = []) then Ok (false, db)
  else if negb (existsb update_present updates) then Ok (false, db)
  else update_row reminder_id (fun r => owner_filter user_id r && is_pending r)
                  (fun r => foldl apply_update r updates) db.

(** The dictionary [get_reminder_by_id] returns (bot.py 218-226). *)
Record reminder_view := mkview {
  v_id : string; v_message : string; v_time : datetime; v_priority : string;
  v_rtype : option string; v_rinterval : option Z; v_status : status;
}.

(** bot.py 196-226: only pending rows are found; [row['priority'] or 'medium']. *)
Definition get_reminder_by_id (reminder_id : string) (user_id : option Z) (db : Db)
    : option reminder_view :=
  r ← rows db !! reminder_id;
  if owner_filter user_id r && is_pending r then
    Some (mkview (r_id r) (r_message r) (r_time r)
                 (if String.eqb (r_priority r) "" then "medium" else r_priority r)
                 (r_rtype r) (r_rinterval r) (r_status r))
  else None.

(** bot.py 858-873.  The row is looked up whatever its status; comparing
    [None] (an unknown recurrence type) with an end date raises. *)
Definition should_create_next_occurrence (reminder_id : string) (next_time : option datetime)
    (db : Db) : exc bool :=
  match rows db !! reminder_id with
  | None => Ok true
  | Some r =>
      match r_end r with
      | None => Ok true
      | Some e =>
          match next_time with
          | Some t => Ok (instant t <=? instant e)
          | None => Raise TypeError
          end
      end
  end.

(** ** [@safe_db_operation] (bot.py 46-66)

    Three attempts; an attempt on a busy connection (the oracle [busy])
    or an [sqlite3.Error] of the function is retried; any other exception
    escapes at once; after the third failure [DatabaseError] is raised. *)
Definition is_sqlite_error (e : py_exn) : bool :=
  match e with IntegrityError | OperationalError _ => true | _ => false end.

Fixpoint attempts {A} (n : nat) (busy : list bool) (op : Db -> exc (A * Db)) (db : Db)
    : exc (A * Db) * list bool :=
  match n with
  | O => (Raise (DatabaseError "Database operation failed"), busy)
  | S n' =>
      let '(b, rest) := match busy with [] => (false, []) | b :: r => (b, r) end in
      if b then attempts n' rest op db
      else match op db with
           | Ok r => (Ok r, rest)
           | Raise e => if is_sqlite_error e then attempts n' rest op db else (Raise e, rest)
           end
  end.

Definition safe_db_operation {A} (busy : list bool) (op : Db -> exc (A * Db)) (db : Db)
    : exc (A * Db) * list bool :=
  attempts 3 busy op db.

(** ** Well-formed databases *)

Definition pending_of (uid : Z) (r : reminder_row) : Prop := r_user r = uid /\ r_status r = Pending.

#[export] Instance pending_of_dec uid r : Decision (pending_of uid r).
Proof. unfold pending_of. apply _. Defined.

(** The number of pending reminders of a user. *)
Definition pending_count (uid : Z) (rs : gmap string reminder_row) : Z :=
  count_where (pending_of uid) rs.

Record db_wf (db : Db) : Prop := {
  wf_keys : forall k r, rows db !! k = Some r -> r_id r = k;
  wf_owner : forall k r, rows db !! k = Some r -> is_Some (users db !! r_user r);
  wf_check : forall k r, rows db !! k = Some r -> row_check r = true;
  wf_count : forall uid u, users db !! uid = Some u -> u_count u = pending_count uid (rows db);
}.

(** ** Lemmas on the tables *)

(** The decidable version of [db_wf]. *)
Definition row_ok (db : Db) (k : string) (r : reminder_row) : bool :=
  String.eqb (r_id r) k && bool_decide (is_Some (users db !! r_user r)) && row_check r.
Definition user_ok (db : Db) (uid : Z) (u : user_row) : bool :=
  u_count u =? pending_count uid (rows db).

Definition db_wfb (db : Db) : bool :=
  forallb (fun kr : string * reminder_row => row_ok db kr.1 kr.2) (map_to_list (rows db))
  && forallb (fun ku : Z * user_row => user_ok db ku.1 ku.2) (map_to_list (users db)).

Lemma db_wfb_spec db : db_wfb db = true <-> db_wf db.
Proof.
  unfold db_wfb. rewrite andb_true_iff, (map_forallb_spec (row_ok db)),
    (map_forallb_spec (user_ok db)). unfold row_ok, user_ok.
  split.
  - intros [H1 H2]. constructor.
    + intros k r Hk. specialize (H1 k r Hk). by apply andb_true_iff in H1 as [[?%String.eqb_eq _]%andb_true_iff _].
    + intros k r Hk. specialize (H1 k r Hk). by apply andb_true_iff in H1 as [[_ ?%bool_decide_eq_true]%andb_true_iff _].
    + intros k r Hk. specialize (H1 k r Hk). by apply andb_true_iff in H1 as [_ ?].
    + intros uid u Hu. by apply Z.eqb_eq, H2.
  - intros Hwf. split.
    + intros k r Hk. rewrite (wf_keys _ Hwf _ _ Hk), String.eqb_refl, (wf_check _ Hwf _ _ Hk).
      rewrite bool_decide_eq_true_2; [done | by eapply wf_owner].
    + intros uid u Hu. apply Z.eqb_eq. by apply (wf_count _ Hwf).
Qed.

Lemma pending_count_insert uid k r rs :
  pending_count uid (<[k:=r]> rs) =
  pending_count uid rs - counted (pending_of uid) (rs !! k) + counted (pending_of uid) (Some r).
Proof. apply count_where_insert. Qed.

Lemma counted_pending uid r :
  counted (pending_of uid) (Some r) = if decide (r_user r = uid /\ r_status r = Pending) then 1 else 0.
Proof. done. Qed.

(** Inserting a checked row for an existing user keeps the database well formed. *)
Lemma insert_row_wf r db db' :
  db_wf db -> is_Some (users db !! r_user r) -> r_status r = Pending ->
  insert_row r db = Ok db' -> db_wf db'.
Proof.
  intros Hwf Hu Hp. unfold insert_row.
  destruct (rows db !! r_id r) eqn:Hk; [done |].
  destruct (row_check r) eqn:Hc; [| done]. intros [= <-].
  unfold trigger_insert. rewrite decide_True by done.
  constructor; cbn.
  - intros k r'. rewrite lookup_insert. case_decide; intros; simplify_eq; [done | by eapply wf_keys].
  - intros k r'. rewrite lookup_alter_is_Some, lookup_insert.
    case_decide; intros; simplify_eq; [done | by eapply wf_owner].
  - intros k r'. rewrite lookup_insert. case_decide; intros; simplify_eq; [done | by eapply wf_check].
  - intros uid u Hl. rewrite pending_count_insert, Hk, counted_pending. cbn.
    apply lookup_alter_Some in Hl as [[<- [u0 [Hu0 ->]]] | [Hne Hl]].
    + rewrite decide_True by done. cbn. rewrite (wf_count _ Hwf _ u0 Hu0). lia.
    + rewrite decide_False by (intros [? _]; done). rewrite (wf_count _ Hwf _ u Hl). lia.
Qed.

(** The shape of every [UPDATE] of the code: the key and owner stay, and
    only a pending row may change status. *)
Definition update_ok (cond : reminder_row -> bool) (f : reminder_row -> reminder_row) : Prop :=
  forall r, cond r = true ->
    r_id (f r) = r_id r /\ r_user (f r) = r_user r
    /\ (r_status (f r) = r_status r \/ r_status r = Pending).

Lemma update_row_wf rid cond f b db db' :
  db_wf db -> update_ok cond f -> update_row rid cond f db = Ok (b, db') -> db_wf db'.
Proof.
  intros Hwf Hf. unfold update_row.
  destruct (rows db !! rid) as [r|] eqn:Hk; [| by intros [= _ <-]].
  destruct (cond r) eqn:Hc; [| by intros [= _ <-]].
  destruct (row_check (f r)) eqn:Hck; [| done]. intros [= _ <-].
  destruct (Hf r Hc) as (Hid & Huser & Hst).
  pose proof (wf_keys _ Hwf _ _ Hk) as Hkr.
  constructor; cbn.
  - intros k r'. rewrite lookup_insert. case_decide; intros; simplify_eq;
      [congruence | by eapply wf_keys].
  - intros k r'. unfold trigger_update. case_decide; rewrite ?lookup_alter_is_Some;
      rewrite lookup_insert; case_decide; intros; simplify_eq;
      try (rewrite Huser; by eapply wf_owner); by eapply wf_owner.
  - intros k r'. rewrite lookup_insert. case_decide; intros; simplify_eq; [done | by eapply wf_check].
  - intros uid u Hl. rewrite pending_count_insert, Hk, !counted_pending.
    unfold trigger_update in Hl. case_decide as Htr.
    + destruct Htr as [Hnew Hold].
      apply lookup_alter_Some in Hl as [[<- [u0 [Hu0 ->]]] | [Hne Hl]].
      * cbn. rewrite (wf_count _ Hwf _ u0 Hu0).
        rewrite decide_True by (split; congruence). rewrite decide_False by tauto. lia.
      * rewrite (wf_count _ Hwf _ u Hl).
        rewrite !decide_False by (intros [? _]; congruence). lia.
    + rewrite (wf_count _ Hwf _ u Hl).
      assert (r_status (f r) = Pending <-> r_status r = Pending) as Hiff.
      { destruct Hst as [-> | Hp]; [done |]. split; [done |]. intros _.
        destruct (decide (r_status (f r) = Pending)); [done |]. tauto. }
      case_decide as H1; case_decide as H2; try lia; exfalso; [apply H2 | apply H1]; destruct_and?; split; try congruence; apply Hiff; congruence.
Qed.

Lemma set_status_update_ok s : update_ok is_pending (set_status s).
Proof.
  intros r Hc. unfold is_pending in Hc. apply bool_decide_eq_true in Hc. cbn. auto.
Qed.

Lemma set_status_owner_update_ok s uid :
  update_ok (fun r => owner_filter uid r && is_pending r) (set_status s).
Proof.
  intros r Hc. apply andb_true_iff in Hc as [_ Hc].
  by apply set_status_update_ok.
Qed.

Lemma apply_updates_fields r ups :
  r_id (foldl apply_update r ups) = r_id r /\ r_user (foldl apply_update r ups) = r_user r
  /\ r_status (foldl apply_update r ups) = r_status r.
Proof.
  revert r. induction ups as [|u ups IH]; intros r; [done |]. cbn.
  destruct (IH (apply_update r u)) as (-> & -> & ->).
  destruct u as [[]|[]|[]|[]|[]]; done.
Qed.

Lemma apply_updates_update_ok uid ups :
  update_ok (fun r => owner_filter uid r && is_pending r) (fun r => foldl apply_update r ups).
Proof. intros r _. destruct (apply_updates_fields r ups) as (-> & -> & ->). auto. Qed.

Lemma set_user_timezone_wf uid tz db db' :
  db_wf db -> set_user_timezone uid tz db = Ok (tt, db') -> db_wf db'.
Proof.
  intros Hwf. unfold set_user_timezone. intros [= <-].
  constructor; cbn; try apply Hwf.
  - intros k r Hk. rewrite lookup_insert. case_decide; [done | by eapply wf_owner].
  - intros uid' u. rewrite lookup_insert. case_decide as Heq; [subst uid'|].
    + destruct (users db !! uid) as [u0|] eqn:Hu; intros [= <-]; cbn.
      * by apply (wf_count _ Hwf).
      * symmetry. apply count_where_zero. intros k r Hk [Hr _].
        pose proof (wf_owner _ Hwf _ _ Hk) as [u1 Hu1]. congruence.
    + apply (wf_count _ Hwf).
Qed.

Lemma save_reminder_wf uid rid msg t prio rt ri parent b db db' :
  db_wf db -> save_reminder uid rid msg t prio rt ri parent db = Ok (b, db') -> db_wf db'.
Proof.
  intros Hwf. unfold save_reminder.
  destruct (users db !! uid) as [u|] eqn:Hu; [| done].
  destruct (u_max u <=? u_count u); [done |].
  destruct (insert_row _ db) as [db1|] eqn:Hi; [| done]. intros [= _ <-].
  eapply (insert_row_wf (mkrow rid uid msg t Pending prio rt ri None parent));
    [done | by exists u | done | exact Hi].
Qed.

(** ** Every store operation of the code *)

Inductive store_call :=
| CallSetTimezone (user_id : Z) (timezone : string)
| CallSave (user_id : Z) (reminder_id message : string) (reminder_time : datetime)
    (priority : string) (recurrence_type : option string) (recurrence_interval : option Z)
    (parent_id : option string)
| CallDelete (reminder_id : string) (user_id : option Z)
| CallComplete (reminder_id : string)
| CallUpdate (reminder_id : string) (user_id : option Z) (updates : list field_update).

Definition run_call (c : store_call) (db : Db) : exc (bool * Db) :=
  match c with
  | CallSetTimezone u tz =>
      match set_user_timezone u tz db with Ok (_, db') => Ok (true, db') | Raise e => Raise e end
  | CallSave u rid m t p rt ri par => save_reminder u rid m t p rt ri par db
  | CallDelete rid u => delete_reminder rid u db
  | CallComplete rid => mark_reminder_complete rid db
  | CallUpdate rid u ups => update_reminder rid u ups db
  end.

(** Every database operation of the code that commits keeps the
    database well formed: row keys are ids, every row has an owner, rows
    satisfy the schema's CHECKs, and each user's [reminder_count] equals
    the number of its pending rows (what the triggers maintain). *)
Theorem run_call_wf c b db db' :
  db_wf db -> run_call c db = Ok (b, db') -> db_wf db'.
Proof.
  intros Hwf. destruct c; cbn.
  - destruct (set_user_timezone user_id timezone db) as [[[] db1]|] eqn:E; intros; simplify_eq.
    by eapply set_user_timezone_wf.
  - by apply save_reminder_wf.
  - apply update_row_wf; [done | apply set_status_owner_update_ok].
  - apply update_row_wf; [done | apply set_status_update_ok].
  - unfold update_reminder. case_bool_decide; [by intros [= _ <-] |].
    destruct (negb _); [by intros [= _ <-] |].
    apply update_row_wf; [done | apply apply_updates_update_ok].
Qed.

(** ** The quota *)

(** At the quota ([reminder_count >= max_reminders]) [save_reminder]
    raises [ReminderLimitError]; the transaction has written nothing, so
    the database and its counter are unchanged. *)
Theorem save_reminder_at_quota uid u rid msg t prio rt ri parent db :
  users db !! uid = Some u -> u_max u <= u_count u ->
  save_reminder uid rid msg t prio rt ri parent db
  = Raise (ReminderLimitError "Maximum number of reminders reached").
Proof.
  intros Hu Hq. unfold save_reminder. rewrite Hu.
  by rewrite (proj2 (Z.leb_le _ _) Hq).
Qed.

(** Below the quota, with a fresh id and values the schema accepts,
    [save_reminder] inserts exactly the new pending row (no end date) and
    increments the owner's counter by one. *)
Theorem save_reminder_ok uid u rid msg t prio rt ri parent db :
  users db !! uid = Some u -> u_count u < u_max u -> rows db !! rid = None ->
  row_check (mkrow rid uid msg t Pending prio rt ri None parent) = true ->
  save_reminder uid rid msg t prio rt ri parent db
  = Ok (true, mkdb (<[uid := incr_count u]> (users db))
                   (<[rid := mkrow rid uid msg t Pending prio rt ri None parent]> (rows db))).
Proof.
  intros Hu Hq Hfree Hc. unfold save_reminder, insert_row, trigger_insert. rewrite Hu.
  rewrite (proj2 (Z.leb_gt _ _) Hq). cbn [r_id r_status r_user]. rewrite Hfree, Hc.
  rewrite decide_True by done. do 3 f_equal.
  apply map_eq. intros i. rewrite lookup_alter, lookup_insert.
  case_decide; subst; [by rewrite Hu | done].
Qed.

(** ** Terminal statuses *)

Lemma update_row_terminal rid cond f b db db' k r :
  (forall r, cond r = true -> r_status r = Pending) ->
  update_row rid cond f db = Ok (b, db') ->
  rows db !! k = Some r -> r_status r <> Pending -> rows db' !! k = Some r.
Proof.
  intros Hc. unfold update_row.
  destruct (rows db !! rid) as [r0|] eqn:Hk; [| by intros [= _ <-]].
  destruct (cond r0) eqn:Hcr; [| by intros [= _ <-]].
  destruct (row_check (f r0)); [| done]. intros [= _ <-] Hr Hs; cbn.
  rewrite lookup_insert. case_decide; [subst; pose proof (Hc r0 Hcr); congruence | done].
Qed.

Lemma pending_cond uid r : owner_filter uid r && is_pending r = true -> r_status r = Pending.
Proof. intros [_ H]%andb_true_iff. by apply bool_decide_eq_true in H. Qed.

Lemma is_pending_cond r : is_pending r = true -> r_status r = Pending.
Proof. by intros H%bool_decide_eq_true. Qed.

(** Completed and cancelled rows are never modified by any database
    operation of the code: status changes only go from pending to a
    terminal status, so a racing fire ([mark_reminder_complete]) and
    cancel ([delete_reminder]) cannot both change the same row. *)
Theorem run_call_terminal c b db db' k r :
  run_call c db = Ok (b, db') ->
  rows db !! k = Some r -> r_status r <> Pending -> rows db' !! k = Some r.
Proof.
  destruct c; cbn.
  - destruct (set_user_timezone user_id timezone db) as [[[] db1]|] eqn:E; [| done].
    intros [= _ <-]. unfold set_user_timezone in E. by injection E as <-.
  - unfold save_reminder, insert_row.
    destruct (users db !! user_id); [| done]. destruct (_ <=? _); [done |]. cbn [r_id].
    destruct (rows db !! reminder_id) eqn:Hk; [intros ?; discriminate |].
    destruct (row_check _); [| intros ?; discriminate].
    intros [= _ <-] Hr _. cbn [rows r_id]. rewrite lookup_insert. case_decide; [subst; congruence | done].
  - apply update_row_terminal, pending_cond.
  - apply update_row_terminal, is_pending_cond.
  - unfold update_reminder. case_bool_decide; [by intros [= _ <-] |].
    destruct (negb _); [by intros [= _ <-] |].
    apply update_row_terminal, pending_cond.
Qed.

(** ** Retries *)

(** C36 An [sqlite3.Error] of the operation is retried, three attempts
    in all (busy attempts included), after which the distinguishable
    [DatabaseError] is raised: retries are bounded and the failure is
    surfaced to the caller. *)
Theorem safe_db_operation_exhausted {A} busy (op : Db -> exc (A * Db)) db e :
  op db = Raise e -> is_sqlite_error e = true ->
  safe_db_operation busy op db = (Raise (DatabaseError "Database operation failed"), drop 3 busy).
Proof.
  intros Hop He. unfold safe_db_operation.
  destruct busy as [|[] [|[] [|[] rest]]]; cbn; rewrite ?Hop, ?He; cbn; rewrite ?Hop, ?He; cbn;
    rewrite ?Hop, ?He; done.
Qed.

Example safe_db_operation_exhausted_witness :
  safe_db_operation [true; false; false; false] (fun _ : Db => @Raise (unit * Db) IntegrityError)
    (mkdb ∅ ∅)
  = (Raise (DatabaseError "Database operation failed"), drop 3 [true; false; false; false]).
Proof. by apply (safe_db_operation_exhausted _ _ _ IntegrityError). Defined.

(** When one of the first three attempts gets a connection, the
    operation runs once there: its result, or an exception that is not an
    sqlite error (such as [ReminderLimitError]), is returned at once. *)
Theorem safe_db_operation_first_free {A} i rest (op : Db -> exc (A * Db)) db :
  (i < 3)%nat -> (forall e, op db = Raise e -> is_sqlite_error e = false) ->
  safe_db_operation (replicate i true ++ false :: rest) op db = (op db, rest).
Proof.
  intros Hi He. unfold safe_db_operation.
  destruct i as [|[|[|i]]]; [| | | lia]; cbn;
    destruct (op db) as [v|e] eqn:Hop; try done; by rewrite (He e).
Qed.

Example safe_db_operation_first_free_witness :
  safe_db_operation (replicate 2 true ++ [false])
    (fun db : Db => @Raise (unit * Db) (ReminderLimitError "full")) (mkdb ∅ ∅)
  = (Raise (ReminderLimitError "full"), []).
Proof.
  apply (safe_db_operation_first_free 2 []
           (fun _ : Db => @Raise (unit * Db) (ReminderLimitError "full")) (mkdb ∅ ∅));
    [lia | by intros e [= <-]].
Defined.

(** A committed result of the decorator is the function's own result. *)
Lemma safe_db_operation_ok {A} busy (op : Db -> exc (A * Db)) db a db' rest :
  safe_db_operation busy op db = (Ok (a, db'), rest) -> op db = Ok (a, db').
Proof.
  unfold safe_db_operation. generalize 3%nat as n. intros n. revert busy.
  induction n as [|n IH]; intros busy; cbn; [done |].
  destruct (match busy with [] => (false, []) | b :: r => (b, r) end) as [[] r].
  - apply IH.
  - destruct (op db) as [v|e] eqn:Hop.
    + by intros [= -> _].
    + destruct (is_sqlite_error e); [apply IH | done].
Qed.

(** ** [update_reminder] *)

Lemma update_row_hit rid cond f db r :
  rows db !! rid = Some r -> cond r = true -> row_check (f r) = true ->
  update_row rid cond f db
  = Ok (true, mkdb (trigger_update r (f r) (users db)) (<[rid := f r]> (rows db))).
Proof. intros Hr Hc Hk. unfold update_row. by rewrite Hr, Hc, Hk. Qed.

Lemma is_pending_true r : r_status r = Pending -> is_pending r = true.
Proof. intros. by apply bool_decide_eq_true. Qed.

(** On a pending row the caller may change, [update_reminder] applies
    the keyword arguments that are not [None], in order, to that row
    only; the counter is untouched, since the status stays pending. *)
Theorem update_reminder_ok rid uid ups db r :
  rows db !! rid = Some r -> owner_filter uid r = true -> r_status r = Pending ->
  existsb update_present ups = true -> row_check (foldl apply_update r ups) = true ->
  update_reminder rid uid ups db
  = Ok (true, mkdb (users db) (<[rid := foldl apply_update r ups]> (rows db))).
Proof.
  intros Hr Ho Hp Hex Hk. unfold update_reminder.
  rewrite bool_decide_false by (intros ->; discriminate). rewrite Hex. cbn.
  rewrite (update_row_hit _ _ _ _ r Hr); [| by rewrite Ho, is_pending_true | done].
  unfold trigger_update. destruct (apply_updates_fields r ups) as (_ & _ & ->).
  by rewrite decide_False by tauto.
Qed.

(** C35 When every keyword value is [None], [update_reminder] returns
    [False] and changes nothing: the "No Recurrence" button, which passes
    [recurrence_type=None, recurrence_interval=None], cannot clear a
    recurrence. *)
Theorem update_reminder_all_none rid uid ups db :
  Forall (fun u => update_present u = false) ups ->
  update_reminder rid uid ups db = Ok (false, db).
Proof.
  intros Hn. unfold update_reminder. case_bool_decide; [done |].
  replace (existsb update_present ups) with false; [done |].
  symmetry. apply Is_true_false. intros Hex%Is_true_true%existsb_exists.
  destruct Hex as (u & Hu & Hp). rewrite Forall_forall in Hn.
  rewrite (Hn u) in Hp; [discriminate | by apply list_elem_of_In].
Qed.

(** ** Witnesses *)

Definition t1 : datetime := mkdt (mknaive (mkdate 2024 2 25) 9 0 0) (Some 19800).
Definition row1 : reminder_row :=
  mkrow "a1b2c3d4" 7 "Take medicine" t1 Pending "medium" (Some "day") (Some 1) None None.
Definition db1 : Db := mkdb {[ 7 := mkuser (Some "Asia/Kolkata") 50 1 ]} {[ "a1b2c3d4" := row1 ]}.

Example update_reminder_ok_witness :
  update_reminder "a1b2c3d4" (Some 7) [UMessage (Some "Take vitamins"); UPriority None] db1
  = Ok (true, mkdb (users db1)
          (<["a1b2c3d4" := foldl apply_update row1 [UMessage (Some "Take vitamins"); UPriority None]]>
             (rows db1))).
Proof. apply (update_reminder_ok _ _ _ _ row1); reflexivity. Defined.

Example update_reminder_all_none_witness :
  update_reminder "a1b2c3d4" (Some 7) [URecType None; URecInterval None] db1 = Ok (false, db1).
Proof. apply update_reminder_all_none. repeat constructor. Defined.

End Store.
