(* ===== verification/StoreSpec.v ===== *)
(** * The contract of the reminder store and its refinement

    [Module StoreSpec] states the contract of the store as the
    specification gives it (§3 and §4.3): the state is the users (time
    zone and quota) and the reminder rows, with no cached counter; [create]
    refuses when the number of pending rows of the owner reaches the
    quota; a status change or an update touches only a pending row the
    caller may change, and returns whether it did.  The theorem
    [run_call_refines] shows that every database function of bot.py, on a
    well-formed database, computes what the contract computes on the
    abstraction of the database (the tables without [reminder_count]):
    the counter the triggers maintain is a correct cache of the count the
    contract scans. *)

From S2P Require Import Spec2Rocq Calendar Store.

Module StoreSpec.
Import Store.

(** ** The abstract store *)

Record astore := mkastore {
  a_users : gmap Z (option string * Z);     (** time zone and [max_reminders] *)
  a_rows : gmap string reminder_row;
}.

Definition user_abs (u : user_row) : option string * Z := (u_timezone u, u_max u).

(** The abstraction: forget [reminder_count]. *)
Definition abs (db : Db) : astore := mkastore (user_abs <$> users db) (rows db).

(** [create(reminder)]: [QuotaExceeded] when the owner's pending rows
    reach the quota, counted by scanning the rows. *)
Definition a_create (r : reminder_row) (s : astore) : exc (bool * astore) :=
  match a_users s !! r_user r with
  | None => Raise (DatabaseError "User not found")
  | Some (_, mx) =>
      if mx <=? pending_count (r_user r) (a_rows s)
      then Raise (ReminderLimitError "Maximum number of reminders reached")
      else if bool_decide (is_Some (a_rows s !! r_id r)) || negb (row_check r)
      then Raise IntegrityError
      else Ok (true, mkastore (a_users s) (<[r_id r := r]> (a_rows s)))
  end.

(** [setStatus] and [update]: only a pending row the caller may change is
    changed, and the result says whether one was; the row must still
    satisfy the data model. *)
Definition a_change (rid : string) (owner : option Z) (f : reminder_row -> reminder_row)
    (s : astore) : exc (bool * astore) :=
  match a_rows s !! rid with
  | Some r =>
      if owner_filter owner r && is_pending r then
        if row_check (f r) then Ok (true, mkastore (a_users s) (<[rid := f r]> (a_rows s)))
        else Raise IntegrityError
      else Ok (false, s)
  | None => Ok (false, s)
  end.

Definition a_set_timezone (uid : Z) (tz : string) (s : astore) : astore :=
  let mx := match a_users s !! uid with Some (_, mx) => mx | None => 50 end in
  mkastore (<[uid := (Some tz, mx)]> (a_users s)) (a_rows s).

(** The contract of each call of the code. *)
Definition acall (c : store_call) (s : astore) : exc (bool * astore) :=
  match c with
  | CallSetTimezone u tz => Ok (true, a_set_timezone u tz s)
  | CallSave u rid m t p rt ri par => a_create (mkrow rid u m t Pending p rt ri None par) s
  | CallDelete rid u => a_change rid u (set_status Cancelled) s
  | CallComplete rid => a_change rid None (set_status Completed) s
  | CallUpdate rid u ups =>
      if bool_decide (ups = []) || negb (existsb update_present ups) then Ok (false, s)
      else a_change rid u (fun r => foldl apply_update r ups) s
  end.

(** The result of a concrete call seen through the abstraction. *)
Definition lift_abs (r : exc (bool * Db)) : exc (bool * astore) :=
  match r with Ok (b, db) => Ok (b, abs db) | Raise e => Raise e end.

(** ** Lemmas *)

Lemma user_abs_incr u : user_abs (incr_count u) = user_abs u.
Proof. reflexivity. Qed.

Lemma user_abs_decr u : user_abs (decr_count u) = user_abs u.
Proof. reflexivity. Qed.

(** Changing a counter is invisible to the abstraction. *)
Lemma fmap_alter_invisible (g : user_row -> user_row) k (us : gmap Z user_row) :
  (forall u, user_abs (g u) = user_abs u) -> user_abs <$> alter g k us = user_abs <$> us.
Proof.
  intros Hg. apply map_eq. intros i. rewrite !lookup_fmap.
  rewrite lookup_alter. case_decide; [subst | done].
  destruct (us !! i) as [u|]; [| done]. change (Some (user_abs (g u)) = Some (user_abs u)). by rewrite Hg.
Qed.

Lemma abs_trigger_insert r db :
  user_abs <$> trigger_insert r (users db) = user_abs <$> users db.
Proof. unfold trigger_insert. case_decide; [apply fmap_alter_invisible, user_abs_incr | done]. Qed.

Lemma abs_trigger_update r r' db :
  user_abs <$> trigger_update r r' (users db) = user_abs <$> users db.
Proof. unfold trigger_update. case_decide; [apply fmap_alter_invisible, user_abs_decr | done]. Qed.

Lemma update_row_refines rid cond f db :
  lift_abs (update_row rid cond f db)
  = match rows db !! rid with
    | Some r =>
        if cond r then
          if row_check (f r) then Ok (true, mkastore (user_abs <$> users db) (<[rid := f r]> (rows db)))
          else Raise IntegrityError
        else Ok (false, abs db)
    | None => Ok (false, abs db)
    end.
Proof.
  unfold update_row. destruct (rows db !! rid) as [r|]; [| done].
  destruct (cond r); [| done]. destruct (row_check (f r)); [| done].
  cbn. unfold abs; cbn. by rewrite abs_trigger_update.
Qed.

Lemma a_change_abs rid owner f db :
  a_change rid owner f (abs db)
  = lift_abs (update_row rid (fun r => owner_filter owner r && is_pending r) f db).
Proof. rewrite update_row_refines. reflexivity. Qed.

(** ** Refinement *)

(** C8 Every database function of bot.py implements the store contract
    of the specification (§4.3): on a well-formed database, the result
    and the database it leaves, without their [reminder_count], are what
    the contract computes on the tables without the counter; in
    particular [save_reminder]'s quota test on the cached counter is the
    contract's test on the number of pending rows. *)
Theorem run_call_refines c db :
  db_wf db -> lift_abs (run_call c db) = acall c (abs db).
Proof.
  intros Hwf. destruct c as [u tz | u rid m t p rt ri par | rid u | rid | rid u ups]; cbn.
  - unfold set_user_timezone, a_set_timezone, abs; cbn. rewrite lookup_fmap.
    destruct (users db !! u) as [ur|]; cbn; do 3 f_equal; by rewrite fmap_insert.
  - unfold save_reminder, a_create, abs; cbn. rewrite lookup_fmap.
    destruct (users db !! u) as [ur|] eqn:Hu; [| done]. cbn.
    rewrite <- (wf_count _ Hwf _ _ Hu). destruct (u_max ur <=? u_count ur); [done |].
    unfold insert_row; cbn. destruct (rows db !! rid); [done |]. cbn.
    destruct (row_check _); [| done]. cbn. unfold abs; cbn. by rewrite abs_trigger_insert.
  - by rewrite a_change_abs.
  - by rewrite a_change_abs.
  - unfold update_reminder. case_bool_decide; [done |]. cbn.
    destruct (negb _); [done |]. by rewrite a_change_abs.
Qed.

Example run_call_refines_witness :
  lift_abs (run_call (CallSave 7 "b2" "Water plants" t1 "low" None None None) db1)
  = acall (CallSave 7 "b2" "Water plants" t1 "low" None None None) (abs db1).
Proof. apply run_call_refines. apply db_wfb_spec. vm_compute. reflexivity. Defined.

End StoreSpec.
