(* ===== verification/Migrations.v ===== *)
(** * The schema migrations and [init_db]

    [Module Migrations] models [migrate] (src/migrations.py 5-125) and
    [init_db] (bot.py 296-323) at the level of the schema: the tables
    with their columns in creation order, the names of the indexes and
    triggers, and the [migrations] history table.  Each SQL statement of
    the scripts is a constructor of [stmt] with SQLite's behaviour
    ([IF NOT EXISTS], the errors of [ALTER TABLE ... ADD COLUMN] and
    [CREATE INDEX]); [executescript] runs the statements in order and
    keeps the effects of those before a failure (DDL commits statement by
    statement); [migrate] reads the history once, applies every script
    not in it and records its name, and exits with status 1 on the first
    exception.  The columns the SQL of bot.py names are [columns_used].

    The theorems show that [migrate] is idempotent, that no run of it
    adds [users.last_active_at] to a [users] table created without it (by
    [init_db], which is what [main] runs), and that a run interrupted
    between a script and the insertion of its name can never be
    completed. *)

From S2P Require Import Spec2Rocq Store.

Module Migrations.

(** ** Schemas and statements *)

Record schema := mkschema {
  s_tables : list (string * list string);   (** name and columns, in creation order *)
  s_indexes : list string;
  s_triggers : list string;
  s_migrations : option (list string);      (** the [migrations] table and its names *)
}.

Definition empty_schema : schema := mkschema [] [] [] None.

Definition mem (x : string) (l : list string) : bool := existsb (String.eqb x) l.

Definition table_cols (s : schema) (t : string) : option (list string) :=
  snd <$> List.find (fun p => String.eqb (fst p) t) (s_tables s).

Definition set_cols (t : string) (cols : list string) (s : schema) : schema :=
  mkschema (map (fun p => if String.eqb (fst p) t then (t, cols) else p) (s_tables s))
           (s_indexes s) (s_triggers s) (s_migrations s).

(** The statements of the scripts. *)
Inductive stmt :=
| CreateTable (name : string) (cols : list string)      (** [CREATE TABLE IF NOT EXISTS] *)
| CreateIndex (name table : string) (cols : list string) (** [CREATE INDEX IF NOT EXISTS] *)
| AddColumn (table col : string)                        (** [ALTER TABLE ... ADD COLUMN] *)
| CreateTrigger (name table : string).                  (** [CREATE TRIGGER IF NOT EXISTS] *)

Definition exec_stmt (st : stmt) (s : schema) : exc schema :=
  match st with
  | CreateTable t cols =>
      match table_cols s t with
      | Some _ => Ok s
      | None => Ok (mkschema ((s_tables s ++ [(t, cols)])%list) (s_indexes s) (s_triggers s) (s_migrations s))
      end
  | CreateIndex i t cols =>
      if mem i (s_indexes s) then Ok s else
      match table_cols s t with
      | None => Raise (OperationalError ("no such table: main." +:+ t))
      | Some tc =>
          match List.find (fun c => negb (mem c tc)) cols with
          | Some c => Raise (OperationalError ("no such column: " +:+ c))
          | None => Ok (mkschema (s_tables s) ((s_indexes s ++ [i])%list) (s_triggers s) (s_migrations s))
          end
      end
  | AddColumn t c =>
      match table_cols s t with
      | None => Raise (OperationalError ("no such table: " +:+ t))
      | Some tc =>
          if mem c tc then Raise (OperationalError ("duplicate column name: " +:+ c))
          else Ok (set_cols t ((tc ++ [c])%list) s)
      end
  | CreateTrigger n t =>
      if mem n (s_triggers s) then Ok s else
      match table_cols s t with
      | None => Raise (OperationalError ("no such table: main." +:+ t))
      | Some _ => Ok (mkschema (s_tables s) (s_indexes s) ((s_triggers s ++ [n])%list) (s_migrations s))
      end
  end.

(** [c.executescript(sql)]: the statements before a failure stay. *)
Fixpoint executescript (sql : list stmt) (s : schema) : exc unit * schema :=
  match sql with
  | [] => (Ok tt, s)
  | st :: rest =>
      match exec_stmt st s with
      | Ok s' => executescript rest s'
      | Raise e => (Raise e, s)
      end
  end.

(** ** The scripts (migrations.py 26-106) *)

Definition MIGRATIONS : list (string * list stmt) :=
  [("001_initial",
    [CreateTable "users" ["user_id"; "timezone"; "created_at"; "last_active_at"];
     CreateTable "reminders" ["id"; "user_id"; "message"; "reminder_time"; "created_at"; "status"]]);
   ("002_indexes",
    [CreateIndex "idx_reminders_status_time" "reminders" ["status"; "reminder_time"];
     CreateIndex "idx_reminders_user_status" "reminders" ["user_id"; "status"];
     CreateIndex "idx_users_timezone" "users" ["timezone"]]);
   ("003_recurring_and_priority",
    [AddColumn "reminders" "priority"; AddColumn "reminders" "recurrence_type";
     AddColumn "reminders" "recurrence_interval"; AddColumn "reminders" "recurrence_end_date";
     AddColumn "reminders" "parent_reminder_id";
     CreateIndex "idx_reminders_priority" "reminders" ["priority"];
     CreateIndex "idx_reminders_recurrence" "reminders" ["recurrence_type"; "recurrence_interval"];
     CreateIndex "idx_reminders_parent" "reminders" ["parent_reminder_id"]]);
   ("004_cleanup_and_limits",
    [AddColumn "users" "max_reminders"; AddColumn "users" "reminder_count";
     CreateTrigger "update_reminder_count_insert" "reminders";
     CreateTrigger "update_reminder_count_delete" "reminders"])].

(** [INSERT INTO migrations (name) VALUES (?)]: [name] is [UNIQUE]. *)
Definition record_migration (name : string) (s : schema) : exc schema :=
  match s_migrations s with
  | None => Raise (OperationalError "no such table: migrations")
  | Some ns =>
      if mem name ns then Raise IntegrityError
      else Ok (mkschema (s_tables s) (s_indexes s) (s_triggers s) (Some (ns ++ [name])%list))
  end.

(** migrations.py 109-115: [applied] is the set read before the loop. *)
Fixpoint apply_migrations (applied : list string) (ms : list (string * list stmt)) (s : schema)
    : exc unit * schema :=
  match ms with
  | [] => (Ok tt, s)
  | (name, sql) :: rest =>
      if mem name applied then apply_migrations applied rest s else
      match executescript sql s with
      | (Ok _, s1) =>
          match record_migration name s1 with
          | Ok s2 => apply_migrations applied rest s2
          | Raise e => (Raise e, s1)
          end
      | (Raise e, s1) => (Raise e, s1)
      end
  end.

Inductive exit_status := Completed | Exited (code : Z) (e : py_exn).

(** migrations.py 13-19: [CREATE TABLE IF NOT EXISTS migrations]. *)
Definition create_history (s : schema) : schema :=
  match s_migrations s with
  | Some _ => s
  | None => mkschema (s_tables s) (s_indexes s) (s_triggers s) (Some [])
  end.

(** migrations.py 22-23 *)
Definition applied_names (s : schema) : list string := default [] (s_migrations s).

(** [migrate()]: [sys.exit(1)] after printing the exception. *)
Definition migrate (s : schema) : exit_status * schema :=
  let s0 := create_history s in
  match apply_migrations (applied_names s0) MIGRATIONS s0 with
  | (Ok _, s') => (Completed, s')
  | (Raise e, s') => (Exited 1 e, s')
  end.

(** bot.py 296-323 *)
Definition INIT_DB : list stmt :=
  [CreateTable "users" ["user_id"; "timezone"; "created_at"];
   CreateTable "reminders" ["id"; "user_id"; "message"; "reminder_time"; "created_at"; "status"]].

Definition init_db (s : schema) : schema := snd (executescript INIT_DB s).

(** ** The columns the SQL of bot.py names *)

(** The calls of the [@safe_db_operation] functions of bot.py, with the
    arguments that change the text of their SQL: [if user_id:] and the
    keywords of [update_reminder]. *)
Inductive sql_fn :=
| FGetUserTimezone
| FSetUserTimezone
| FSaveReminder
| FGetUserReminders
| FDeleteReminder (user_id : option Z)
| FMarkComplete
| FGetAllPending
| FCleanup
| FGetReminderById (user_id : option Z)
| FUpdateReminder (user_id : option Z) (updates : list Store.field_update)
| FShouldCreateNext.

(** [if user_id:] on an [int] or [None]. *)
Definition truthy_int (o : option Z) : bool :=
  match o with Some n => negb (n =? 0) | None => false end.

(** The [AND user_id = ?] of the owner-filtered queries. *)
Definition by_user (user_id : option Z) : list (string * string) :=
  if truthy_int user_id then [("reminders", "user_id")] else [].

(** The column of a keyword of [update_reminder]. *)
Definition update_column (u : Store.field_update) : string :=
  match u with
  | Store.UMessage _ => "message"
  | Store.UTime _ => "reminder_time"
  | Store.UPriority _ => "priority"
  | Store.URecType _ => "recurrence_type"
  | Store.URecInterval _ => "recurrence_interval"
  end.

(** bot.py 228-262: no statement when no keyword has a value other than
    [None]; otherwise one [SET] clause per such keyword, then the
    [WHERE] clause. *)
Definition update_reminder_columns (user_id : option Z) (updates : list Store.field_update)
    : list (string * string) :=
  if negb (existsb Store.update_present updates) then []
  else (map (fun u => ("reminders", update_column u)) (List.filter Store.update_present updates)
        ++ [("reminders", "id")] ++ by_user user_id ++ [("reminders", "status")])%list.

(** The table columns the statements of one call name. *)
Definition sql_columns (f : sql_fn) : list (string * string) :=
  match f with
  | FGetUserTimezone => [("users", "timezone"); ("users", "user_id")]
  | FSetUserTimezone => [("users", "user_id"); ("users", "timezone"); ("users", "last_active_at")]
  | FSaveReminder =>
      [("users", "reminder_count"); ("users", "max_reminders"); ("users", "user_id");
       ("reminders", "id"); ("reminders", "user_id"); ("reminders", "message");
       ("reminders", "reminder_time"); ("reminders", "priority"); ("reminders", "recurrence_type");
       ("reminders", "recurrence_interval"); ("reminders", "parent_reminder_id")]
  | FGetUserReminders =>
      [("reminders", "id"); ("reminders", "message"); ("reminders", "reminder_time");
       ("reminders", "status"); ("reminders", "priority"); ("reminders", "recurrence_type");
       ("reminders", "recurrence_interval"); ("reminders", "user_id")]
  | FDeleteReminder u => ([("reminders", "status"); ("reminders", "id")] ++ by_user u)%list
  | FMarkComplete => [("reminders", "status"); ("reminders", "id")]
  | FGetAllPending =>
      [("reminders", "id"); ("reminders", "user_id"); ("reminders", "message");
       ("reminders", "reminder_time"); ("users", "timezone"); ("reminders", "priority");
       ("reminders", "recurrence_type"); ("reminders", "recurrence_interval");
       ("users", "user_id"); ("reminders", "status")]
  | FCleanup => [("reminders", "status"); ("reminders", "reminder_time")]
  | FGetReminderById u =>
      ([("reminders", "id"); ("reminders", "message"); ("reminders", "reminder_time");
        ("reminders", "priority"); ("reminders", "recurrence_type");
        ("reminders", "recurrence_interval"); ("reminders", "status")] ++ by_user u)%list
  | FUpdateReminder u ups => update_reminder_columns u ups
  | FShouldCreateNext => [("reminders", "recurrence_end_date"); ("reminders", "id")]
  end.

(** The table of [tc] exists on [s] and has its column. *)
Definition has_col (s : schema) (tc : string * string) : bool :=
  match table_cols s (fst tc) with Some cs => mem (snd tc) cs | None => false end.

(** Every statement of call [f] can be prepared on schema [s]. *)
Definition supports (s : schema) (f : sql_fn) : bool := forallb (has_col s) (sql_columns f).

(** ** Lemmas *)

(** A name is in the history table. *)
Definition recorded (s : schema) (n : string) : bool :=
  match s_migrations s with Some ns => mem n ns | None => false end.

Lemma mem_In x l : mem x l = true <-> In x l.
Proof.
  unfold mem. rewrite existsb_exists. split.
  - intros (y & Hy & Heq). apply String.eqb_eq in Heq. by subst.
  - intros Hx. exists x. split; [done | apply String.eqb_refl].
Qed.

Lemma mem_app_single x l y : mem x (l ++ [y])%list = mem x l || String.eqb x y.
Proof. unfold mem. rewrite existsb_app. cbn. by rewrite orb_false_r. Qed.

Lemma find_app_some {A} (f : A -> bool) l1 l2 x :
  List.find f l1 = Some x -> List.find f (l1 ++ l2)%list = Some x.
Proof. induction l1 as [|a l1 IH]; cbn; [done |]. destruct (f a); auto. Qed.

Lemma find_set_other t cols t' (l : list (string * list string)) :
  t' <> t ->
  snd <$> List.find (fun p => String.eqb (fst p) t')
                    (map (fun p => if String.eqb (fst p) t then (t, cols) else p) l)
  = snd <$> List.find (fun p => String.eqb (fst p) t') l.
Proof.
  intros Hne. induction l as [|[a c] l IH]; cbn; [done |].
  destruct (String.eqb_spec a t) as [-> |]; cbn.
  - destruct (String.eqb_spec t t'); [congruence | done].
  - by destruct (String.eqb a t').
Qed.

Lemma find_set_same t cols (l : list (string * list string)) :
  is_Some (List.find (fun p => String.eqb (fst p) t) l) ->
  snd <$> List.find (fun p => String.eqb (fst p) t)
                    (map (fun p => if String.eqb (fst p) t then (t, cols) else p) l) = Some cols.
Proof.
  induction l as [|[a c] l IH]; cbn; intros Hs; [by destruct Hs |].
  destruct (String.eqb a t) eqn:E; cbn.
  - apply String.eqb_eq in E as ->. by rewrite String.eqb_refl.
  - rewrite E. by apply IH.
Qed.

Lemma table_cols_set_cols s t cols t' :
  is_Some (table_cols s t) ->
  table_cols (set_cols t cols s) t' = if String.eqb t' t then Some cols else table_cols s t'.
Proof.
  unfold table_cols, set_cols; cbn. intros Hs. destruct (String.eqb_spec t' t) as [-> |].
  - apply find_set_same. destruct (List.find _ _); [by eexists | by destruct Hs].
  - by apply find_set_other.
Qed.

(** The statements change only the tables, indexes and triggers, and a
    table keeps its columns, gaining only the one [ADD COLUMN] names. *)
Lemma exec_stmt_migrations st s s' : exec_stmt st s = Ok s' -> s_migrations s' = s_migrations s.
Proof. destruct st; cbn; repeat case_match; intros; simplify_eq; done. Qed.

Lemma exec_stmt_cols st s s' t cs :
  exec_stmt st s = Ok s' -> table_cols s t = Some cs ->
  exists cs', table_cols s' t = Some cs' /\ (forall c, In c cs -> In c cs')
             /\ forall c, In c cs' -> In c cs \/ st = AddColumn t c.
Proof.
  intros Hst Ht. destruct st as [n cols | i n cols | n c | n n']; cbn in Hst.
  - destruct (table_cols s n) eqn:Hn; simplify_eq; [eauto |].
    exists cs. split; [| eauto]. unfold table_cols in *; cbn.
    destruct (List.find (fun p => String.eqb (fst p) t) (s_tables s)) eqn:Hf; [| by cbn in Ht]. by rewrite (find_app_some _ _ _ _ Hf).
  - repeat case_match; simplify_eq; eauto.
  - destruct (table_cols s n) as [tc|] eqn:Hn; [| done]. destruct (mem c tc); [done |]. simplify_eq.
    rewrite table_cols_set_cols by (rewrite Hn; by eexists).
    destruct (String.eqb_spec t n) as [-> |]; [| eauto].
    rewrite Hn in Ht. simplify_eq. eexists; split; [done |]. split; [intros; apply in_or_app; auto |].
    intros x Hx. apply in_app_or in Hx as [Hx | [<- | []]]; auto.
  - repeat case_match; simplify_eq; eauto.
Qed.

Lemma executescript_migrations sql s r s' :
  executescript sql s = (r, s') -> s_migrations s' = s_migrations s.
Proof.
  revert s. induction sql as [|st sql IH]; cbn; intros s Hr; [by simplify_eq |].
  destruct (exec_stmt st s) as [s1|e] eqn:Hst; [| by simplify_eq].
  rewrite (IH _ Hr). by apply exec_stmt_migrations in Hst.
Qed.

Lemma executescript_cols sql s r s' t cs :
  executescript sql s = (r, s') -> table_cols s t = Some cs ->
  exists cs', table_cols s' t = Some cs' /\ (forall c, In c cs -> In c cs')
             /\ forall c, In c cs' -> In c cs \/ In (AddColumn t c) sql.
Proof.
  revert s cs. induction sql as [|st sql IH]; cbn; intros s cs Hr Ht.
  - simplify_eq. eauto.
  - destruct (exec_stmt st s) as [s1|e] eqn:Hst; [| simplify_eq; eauto 6].
    destruct (exec_stmt_cols _ _ _ _ _ Hst Ht) as (cs1 & Ht1 & Hm1 & Hc1).
    destruct (IH _ _ Hr Ht1) as (cs' & Ht' & Hm' & Hc'). exists cs'. split; [done |]. split; [auto |].
    intros c Hc. destruct (Hc' c Hc) as [H1 | H1]; [| auto].
    destruct (Hc1 c H1) as [H2 | ->]; auto.
Qed.

Lemma record_migration_tables name s s' :
  record_migration name s = Ok s' -> s_tables s' = s_tables s
  /\ forall n, recorded s' n = recorded s n || String.eqb n name.
Proof.
  unfold record_migration, recorded. destruct (s_migrations s) as [ns|]; [| done].
  destruct (mem name ns); [done |]. intros; simplify_eq; cbn. split; [done |].
  intros n. apply mem_app_single.
Qed.

Lemma table_cols_tables s s' t : s_tables s' = s_tables s -> table_cols s' t = table_cols s t.
Proof. unfold table_cols. by intros ->. Qed.

Lemma recorded_applied s n : mem n (applied_names s) = recorded s n.
Proof. unfold applied_names, recorded. by destruct (s_migrations s). Qed.

Lemma recorded_create_history s n : recorded (create_history s) n = recorded s n.
Proof. unfold create_history, recorded. destruct (s_migrations s) eqn:E; cbn; [by rewrite E | done]. Qed.

Lemma table_cols_create_history s t : table_cols (create_history s) t = table_cols s t.
Proof. unfold create_history. by destruct (s_migrations s). Qed.

Lemma create_history_id s n : recorded s n = true -> create_history s = s.
Proof. unfold recorded, create_history. by destruct (s_migrations s). Qed.

(** A successful loop leaves every name of the list recorded or already
    applied, and forgets no recorded name. *)
Lemma apply_migrations_ok applied ms s s' :
  apply_migrations applied ms s = (Ok tt, s') ->
  (forall n, recorded s n = true -> recorded s' n = true)
  /\ (forall n, In n (map fst ms) -> mem n applied = true \/ recorded s' n = true).
Proof.
  revert s. induction ms as [|[name sql] ms IH]; cbn; intros s Hr.
  - simplify_eq. split; [done | by intros ? []].
  - destruct (mem name applied) eqn:Hm.
    + destruct (IH _ Hr) as [Hmono Hall]. split; [done |]. intros n [<- | Hn]; auto.
    + destruct (executescript sql s) as [[u|e] s1] eqn:Hx; [| done].
      destruct (record_migration name s1) as [s2|e] eqn:Hrec; [| done].
      destruct (IH _ Hr) as [Hmono Hall].
      apply record_migration_tables in Hrec as [_ Hrec].
      apply executescript_migrations in Hx.
      assert (Hrs : forall n, recorded s1 n = recorded s n) by (intros; unfold recorded; by rewrite Hx).
      split.
      * intros n Hn. apply Hmono. by rewrite Hrec, Hrs, Hn.
      * intros n [<- | Hn]; [| auto]. right. apply Hmono. by rewrite Hrec, String.eqb_refl, orb_true_r.
Qed.

Lemma apply_migrations_skip applied ms s :
  Forall (fun n => mem n applied = true) (map fst ms) -> apply_migrations applied ms s = (Ok tt, s).
Proof.
  revert s. induction ms as [|[name sql] ms IH]; cbn; intros s Hall; [done |].
  inversion_clear Hall as [|? ? Hn Hrest]. rewrite Hn. by apply IH.
Qed.

(** Whatever the loop does, a table keeps its columns and gains only
    the ones an [ADD COLUMN] of the scripts names. *)
Lemma apply_migrations_cols applied ms s t cs :
  table_cols s t = Some cs ->
  exists cs', table_cols (snd (apply_migrations applied ms s)) t = Some cs'
    /\ (forall c, In c cs -> In c cs')
    /\ forall c, In c cs' -> In c cs \/ In (AddColumn t c) (List.concat (map snd ms)).
Proof.
  revert s cs. induction ms as [|[name sql] ms IH]; cbn; intros s cs Ht; [eauto |].
  destruct (mem name applied).
  { destruct (IH _ _ Ht) as (cs' & Ht' & Hm' & Hc'). exists cs'. split; [done | split; [done |]].
    intros c Hc. destruct (Hc' c Hc); auto using in_or_app. }
  destruct (executescript sql s) as [r s1] eqn:Hx.
  destruct (executescript_cols _ _ _ _ _ _ Hx Ht) as (cs1 & Ht1 & Hm1 & Hc1).
  assert (Hs1 : exists cs', table_cols s1 t = Some cs' /\ (forall c, In c cs -> In c cs')
                 /\ forall c, In c cs' -> In c cs \/ In (AddColumn t c) (sql ++ List.concat (map snd ms))%list)
    by (exists cs1; split; [done | split; [done |]]; intros c Hc; destruct (Hc1 c Hc); auto using in_or_app).
  destruct r as [u|e]; [| done]. destruct (record_migration name s1) as [s2|e] eqn:Hrec; [| done].
  apply record_migration_tables in Hrec as [Htab _].
  rewrite <- (table_cols_tables _ _ t Htab) in Ht1.
  destruct (IH _ _ Ht1) as (cs' & Ht' & Hm' & Hc'). exists cs'. split; [done | split; [auto |]].
  intros c Hc. destruct (Hc' c Hc) as [H1 | H1]; [| auto using in_or_app].
  destruct (Hc1 c H1); auto using in_or_app.
Qed.

(** A loop that reaches the script [N], whose first statement adds a
    column [c] the table [t] already has, fails there; the failure leaves
    [N] unrecorded and the column in place. *)
Lemma apply_migrations_stuck N t c applied ms s :
  Forall (fun m => fst m = N -> head (snd m) = Some (AddColumn t c)) ms ->
  In N (map fst ms) -> mem N applied = false -> recorded s N = false ->
  (exists cs, table_cols s t = Some cs /\ In c cs) ->
  let r := apply_migrations applied ms s in
  (exists e, fst r = Raise e) /\ recorded (snd r) N = false
  /\ exists cs, table_cols (snd r) t = Some cs /\ In c cs.
Proof.
  revert s. induction ms as [|[name sql] ms IH]; cbn; intros s Hall HN HmN HrN (cs & Ht & Hc); [done |].
  inversion_clear Hall as [|? ? Hhd Hrest]; cbn in Hhd.
  destruct (String.eqb_spec name N) as [-> | Hne].
  { rewrite HmN. destruct sql as [|st sql]; [by specialize (Hhd eq_refl) |].
    injection (Hhd eq_refl) as ->. cbn. rewrite Ht.
    replace (mem c cs) with true by (symmetry; by apply mem_In). cbn.
    split; [by eexists | split; [done | by exists cs]]. }
  destruct HN as [HN | HN]; [done |].
  destruct (mem name applied); [by apply IH; eauto |].
  destruct (executescript sql s) as [r s1] eqn:Hx.
  destruct (executescript_cols _ _ _ _ _ _ Hx Ht) as (cs1 & Ht1 & Hm1 & _).
  assert (Hr1 : recorded s1 N = false)
    by (apply executescript_migrations in Hx; unfold recorded in *; by rewrite Hx).
  assert (Hfail : forall e, (exists e', fst (@Raise unit e, s1) = Raise e') /\ recorded s1 N = false
                            /\ exists cs, table_cols s1 t = Some cs /\ In c cs)
    by (intros e; split; [by eexists | split; [done | exists cs1; auto]]).
  destruct r as [u|e]; [| apply Hfail]. destruct (record_migration name s1) as [s2|e] eqn:Hrec; [| apply Hfail].
  apply record_migration_tables in Hrec as [Htab Hrec].
  apply IH; [done | done | done | |].
  - rewrite Hrec, Hr1. cbn. by apply String.eqb_neq.
  - exists cs1. rewrite (table_cols_tables _ _ t Htab). auto.
Qed.

(** ** Properties *)

(** C20 [migrate] is idempotent: after a run that completes, every
    script name is in the history table, so a second run applies nothing
    and leaves the schema as it is. *)
Theorem migrate_idempotent s s' : migrate s = (Completed, s') -> migrate s' = (Completed, s').
Proof.
  unfold migrate. intros Hm.
  destruct (apply_migrations _ MIGRATIONS (create_history s)) as [[[]|e] s1] eqn:Ha; [| done].
  injection Hm as <-.
  destruct (apply_migrations_ok _ _ _ _ Ha) as [Hmono Hall].
  assert (Hrec : forall n, In n (map fst MIGRATIONS) -> recorded s1 n = true).
  { intros n Hn. destruct (Hall n Hn) as [H | H]; [| done].
    apply Hmono. by rewrite <- recorded_applied. }
  rewrite (create_history_id s1 "001_initial") by (apply Hrec; by left).
  rewrite apply_migrations_skip; [done |].
  apply List.Forall_forall. intros n Hn. rewrite recorded_applied. by apply Hrec.
Qed.

(** C17 No run of [migrate] adds [users.last_active_at] to a [users]
    table that lacks it: [001_initial] creates [users] only if it does not
    exist, and no later script adds the column.  On the schema [init_db]
    creates (which is what [main] runs), [set_user_timezone], whose
    [ON CONFLICT ... SET last_active_at] names it, can then never be
    prepared. *)
Theorem migrate_never_adds_last_active_at s cs :
  table_cols s "users" = Some cs -> ~ In "last_active_at" cs ->
  exists cs', table_cols (snd (migrate s)) "users" = Some cs' /\ ~ In "last_active_at" cs'
              /\ supports (snd (migrate s)) FSetUserTimezone = false.
Proof.
  intros Ht Hn. rewrite <- (table_cols_create_history s) in Ht.
  destruct (apply_migrations_cols (applied_names (create_history s)) MIGRATIONS _ _ _ Ht)
    as (cs' & Ht' & _ & Hc').
  assert (Hcs' : ~ In "last_active_at" cs').
  { intros Hin. destruct (Hc' _ Hin) as [H | H]; [done |].
    cbn in H. repeat (destruct H as [H | H]; [discriminate |]). done. }
  assert (Hmem : mem "last_active_at" cs' = false) by (apply not_true_iff_false; by rewrite mem_In).
  unfold migrate. destruct (apply_migrations _ MIGRATIONS _) as [[u|e] s1]; cbn in Ht' |- *;
    (exists cs'; split; [done | split; [done |]]);
    unfold supports, has_col; cbn -[mem]; rewrite Ht', Hmem; cbn; by rewrite !andb_false_r.
Qed.

(** C18 A run of [migrate] stopped after the script of
    [003_recurring_and_priority] added [reminders.priority] but before its
    name was recorded (a crash between migrations.py 112 and 114, or a
    later statement of that script failing: [executescript] keeps the
    statements before the failure) can never be completed: every later
    run exits with status 1 (at the latest on [ADD COLUMN priority],
    "duplicate column name"), and leaves the history and the column as
    they were. *)
Theorem migrate_interrupted_stuck s cs :
  table_cols s "reminders" = Some cs -> In "priority" cs ->
  recorded s "003_recurring_and_priority" = false ->
  (exists e, fst (migrate s) = Exited 1 e)
  /\ recorded (snd (migrate s)) "003_recurring_and_priority" = false
  /\ exists cs', table_cols (snd (migrate s)) "reminders" = Some cs' /\ In "priority" cs'.
Proof.
  intros Ht Hp Hr.
  destruct (apply_migrations_stuck "003_recurring_and_priority" "reminders" "priority"
              (applied_names (create_history s)) MIGRATIONS (create_history s))
    as ((e & He) & Hr' & Hc').
  - repeat constructor; cbn; by intros.
  - cbn; tauto.
  - by rewrite recorded_applied, recorded_create_history.
  - by rewrite recorded_create_history.
  - exists cs. by rewrite table_cols_create_history.
  - unfold migrate. destruct (apply_migrations _ MIGRATIONS _) as [r s1]; cbn in *. subst r.
    split; [by eexists | done].
Qed.

(** ** Which calls each schema supports *)

(** The keywords of a message or time edit. *)
Definition message_or_time (u : Store.field_update) : bool :=
  match u with Store.UMessage _ | Store.UTime _ => true | _ => false end.

(** The calls that the tables of [init_db] can serve. *)
Definition init_db_preparable (f : sql_fn) : bool :=
  match f with
  | FGetUserTimezone | FDeleteReminder _ | FMarkComplete | FCleanup => true
  | FUpdateReminder _ ups => forallb (fun u => negb (Store.update_present u) || message_or_time u) ups
  | _ => false
  end.

Definition is_set_timezone (f : sql_fn) : bool :=
  match f with FSetUserTimezone => true | _ => false end.

Lemma forallb_map_filter {A B} (P : A -> bool) (g : A -> B) (Q : B -> bool) l :
  forallb Q (map g (List.filter P l)) = forallb (fun x => negb (P x) || Q (g x)) l.
Proof. induction l as [|x l IH]; [done |]. cbn. destruct (P x); cbn; by rewrite IH. Qed.

Lemma forallb_absent {A} (P Q : A -> bool) l :
  existsb P l = false -> forallb (fun x => negb (P x) || Q x) l = true.
Proof. induction l as [|x l IH]; [done |]. cbn. intros [Hx Hl]%orb_false_iff. by rewrite Hx, IH. Qed.

Lemma forallb_ext_fun {A} (f g : A -> bool) l : (forall x, f x = g x) -> forallb f l = forallb g l.
Proof. intros Hfg. induction l as [|x l IH]; [done |]. cbn. by rewrite Hfg, IH. Qed.

(** On a schema whose [reminders] has [id], [user_id] and [status], an
    update is served when the columns of its keywords are there. *)
Lemma supports_update s u ups :
  has_col s ("reminders", "id") = true -> has_col s ("reminders", "user_id") = true ->
  has_col s ("reminders", "status") = true ->
  supports s (FUpdateReminder u ups)
  = forallb (fun x => negb (Store.update_present x) || has_col s ("reminders", update_column x)) ups.
Proof.
  intros Hid Hu Hst. unfold supports; cbn [sql_columns]. unfold update_reminder_columns.
  destruct (existsb _ _) eqn:He; cbn [negb]; [| by rewrite forallb_absent].
  rewrite !forallb_app, forallb_map_filter. cbn. rewrite Hid, Hst.
  unfold by_user. destruct (truthy_int u); cbn; rewrite ?Hu; by rewrite ?andb_true_r.
Qed.

Ltac supports_tac :=
  lazymatch goal with
  | |- supports ?s (FUpdateReminder _ _) = _ =>
      rewrite supports_update by (vm_compute; reflexivity); cbn [is_set_timezone negb];
      first [ apply forallb_ext_fun; intros []; vm_compute; reflexivity
            | apply forallb_forall; intros [] _; apply orb_true_intro; right; vm_compute; reflexivity ]
  | |- supports ?s ?f = _ =>
      unfold supports; cbn [sql_columns]; unfold by_user;
      repeat match goal with |- context [truthy_int ?u] => destruct (truthy_int u) end;
      vm_compute; reflexivity
  end.

(** C16 How the two ways of creating the schema serve the calls of
    bot.py.  On the tables [init_db] creates (what [main] runs) a call
    can be prepared exactly when it is [get_user_timezone],
    [delete_reminder], [mark_reminder_complete], [cleanup_old_reminders],
    or an [update_reminder] whose keywords with a value are only
    [message] and [reminder_time] (the message and time edits): every
    [save_reminder], [set_user_timezone], [get_user_reminders],
    [get_reminder_by_id], [get_all_pending_reminders] and
    [should_create_next_occurrence] fails.  [migrate] after [init_db]
    completes and then serves every call but [set_user_timezone];
    [migrate] on an empty database completes with a schema that serves
    every call and that a later [init_db] leaves unchanged. *)
Theorem schema_deployments f :
  supports (init_db empty_schema) f = init_db_preparable f
  /\ fst (migrate (init_db empty_schema)) = Completed
  /\ supports (snd (migrate (init_db empty_schema))) f = negb (is_set_timezone f)
  /\ fst (migrate empty_schema) = Completed
  /\ supports (snd (migrate empty_schema)) f = true
  /\ init_db (snd (migrate empty_schema)) = snd (migrate empty_schema).
Proof.
  split; [destruct f; supports_tac |].
  split; [vm_compute; reflexivity |].
  split; [destruct f; supports_tac |].
  split; [vm_compute; reflexivity |].
  split; [destruct f; supports_tac | vm_compute; reflexivity].
Qed.

(** ** Witnesses *)

Example migrate_idempotent_witness :
  migrate (snd (migrate empty_schema)) = (Completed, snd (migrate empty_schema)).
Proof. apply (migrate_idempotent empty_schema). vm_compute. reflexivity. Defined.

Example migrate_never_adds_last_active_at_witness :
  exists cs', table_cols (snd (migrate (init_db empty_schema))) "users" = Some cs'
              /\ ~ In "last_active_at" cs'
              /\ supports (snd (migrate (init_db empty_schema))) FSetUserTimezone = false.
Proof.
  apply (migrate_never_adds_last_active_at _ ["user_id"; "timezone"; "created_at"]).
  - vm_compute. reflexivity.
  - cbn. intros H. repeat (destruct H as [H | H]; [discriminate |]). done.
Defined.

(** The schema of a run that recorded [001_initial] and [002_indexes]
    and stopped after the script of [003_recurring_and_priority]. *)
Definition interrupted_schema : schema :=
  let s12 := snd (apply_migrations [] (firstn 2 MIGRATIONS) (create_history empty_schema)) in
  snd (executescript (List.concat (map snd (firstn 1 (skipn 2 MIGRATIONS)))) s12).

Example migrate_interrupted_stuck_witness :
  (exists e, fst (migrate interrupted_schema) = Exited 1 e)
  /\ recorded (snd (migrate interrupted_schema)) "003_recurring_and_priority" = false
  /\ exists cs', table_cols (snd (migrate interrupted_schema)) "reminders" = Some cs' /\ In "priority" cs'.
Proof.
  apply (migrate_interrupted_stuck _ ["id"; "user_id"; "message"; "reminder_time"; "created_at"; "status";
                                      "priority"; "recurrence_type"; "recurrence_interval";
                                      "recurrence_end_date"; "parent_reminder_id"]).
  - vm_compute. reflexivity.
  - repeat (first [left; reflexivity | right]).
  - vm_compute. reflexivity.
Defined.

End Migrations.
