(* ===== verification/Scheduler.v ===== *)
(** * The scheduler: timers, [active_reminders] and the firing path

    [Module Scheduler] models the process state of [src/bot.py] as a
    record [World]: the database, the global dictionary
    [active_reminders] (bot.py 265), the [threading.Timer] threads that
    are started and not yet run, the messages the bot sent, the clock, and
    the oracles for [uuid.uuid4()] and for busy database connections.
    The Python functions [schedule_reminder] (736-771),
    [reschedule_reminder] (773-799) and [send_reminder] (801-856) are
    computations of the monad [pyst World].  The Python dictionary
    [active_reminders] and the timer threads are separate objects:
    overwriting a dictionary entry does not stop its thread, so the two
    are separate fields.  The class [Respects] states what a relation on
    worlds must satisfy on the primitives (database calls, delivery) so
    that every computation built from them respects it; the evolution of
    the database and the growth of the outbox are its two instances.
    The theorems give the behaviour of a firing (one-shot, recurring,
    at the quota) and of scheduling an armed id again. *)

From S2P Require Import Spec2Rocq Calendar Recurrence Store.

Module Scheduler.
Import Store Recurrence.

(** ** State *)

(** The arguments a timer passes to [send_reminder] (bot.py 754-755). *)
Record fire_args := mkargs {
  a_chat : Z; a_user : Z; a_id : string; a_message : string; a_priority : string;
  a_rtype : option string; a_rinterval : option Z; a_last : datetime;
}.

(** The metadata dictionary stored in [active_reminders] (bot.py 759-768). *)
Record entry := mkentry {
  e_timer : nat; e_scheduled : datetime; e_user : Z; e_chat : Z; e_message : string;
  e_priority : string; e_rtype : option string; e_rinterval : option Z;
}.

(** A started [threading.Timer]: its handle, due instant and arguments. *)
Record timer := mktimer { t_handle : nat; t_due : Z; t_args : fire_args }.

(** The dictionary [context.user_data[user_id]] of the edit and quick-time
    flows: its keys ['editing_reminder'], ['edit_action'] and
    ['quick_time'] (a time of day and a date). *)
Record user_state := mkustate {
  us_editing : option string;
  us_action : option string;
  us_quick : option ((Z * Z * Z) * date);
}.

Record World := mkworld {
  w_db : Db;
  w_busy : list bool;
  w_active : gmap string entry;
  w_timers : list timer;
  w_next_timer : nat;
  w_outbox : list (Z * string);
  w_sink_up : bool;
  w_uuid : nat -> string;
  w_uuid_next : nat;
  w_now : Z;
  w_user_data : gmap Z user_state;
}.

Definition set_db (db : Db) (busy : list bool) (w : World) : World :=
  mkworld db busy (w_active w) (w_timers w) (w_next_timer w) (w_outbox w) (w_sink_up w)
          (w_uuid w) (w_uuid_next w) (w_now w) (w_user_data w).

Definition set_busy (busy : list bool) (w : World) : World := set_db (w_db w) busy w.

Definition set_active (a : gmap string entry) (w : World) : World :=
  mkworld (w_db w) (w_busy w) a (w_timers w) (w_next_timer w) (w_outbox w) (w_sink_up w)
          (w_uuid w) (w_uuid_next w) (w_now w) (w_user_data w).

Definition set_timers (ts : list timer) (n : nat) (w : World) : World :=
  mkworld (w_db w) (w_busy w) (w_active w) ts n (w_outbox w) (w_sink_up w)
          (w_uuid w) (w_uuid_next w) (w_now w) (w_user_data w).

Definition set_outbox (o : list (Z * string)) (w : World) : World :=
  mkworld (w_db w) (w_busy w) (w_active w) (w_timers w) (w_next_timer w) o (w_sink_up w)
          (w_uuid w) (w_uuid_next w) (w_now w) (w_user_data w).

Definition set_uuid_next (n : nat) (w : World) : World :=
  mkworld (w_db w) (w_busy w) (w_active w) (w_timers w) (w_next_timer w) (w_outbox w)
          (w_sink_up w) (w_uuid w) n (w_now w) (w_user_data w).

Definition set_now (t : Z) (w : World) : World :=
  mkworld (w_db w) (w_busy w) (w_active w) (w_timers w) (w_next_timer w) (w_outbox w)
          (w_sink_up w) (w_uuid w) (w_uuid_next w) t (w_user_data w).

Definition set_user_data (ud : gmap Z user_state) (w : World) : World :=
  mkworld (w_db w) (w_busy w) (w_active w) (w_timers w) (w_next_timer w) (w_outbox w)
          (w_sink_up w) (w_uuid w) (w_uuid_next w) (w_now w) ud.

Abbreviation M := (pyst World).

(** ** Primitive effects *)

(** A call of a [@safe_db_operation] function that writes. *)
Definition db_call (c : store_call) : M bool := fun w =>
  match safe_db_operation (w_busy w) (run_call c) (w_db w) with
  | (Ok (b, db'), busy') => (Ok b, set_db db' busy' w)
  | (Raise e, busy') => (Raise e, set_busy busy' w)
  end.

(** A call of a [@safe_db_operation] function that only reads. *)
Definition db_read {A} (f : Db -> exc A) : M A := fun w =>
  match safe_db_operation (w_busy w) (fun db => match f db with
                                              | Ok a => Ok (a, db)
                                              | Raise e => Raise e
                                              end) (w_db w) with
  | (Ok (a, _), busy') => (Ok a, set_busy busy' w)
  | (Raise e, busy') => (Raise e, set_busy busy' w)
  end.

(** [context.bot.send_message(chat_id=..., text=...)] *)
Definition send_message (chat : Z) (text : string) : M unit := fun w =>
  if w_sink_up w then (Ok tt, set_outbox (w_outbox w ++ [(chat, text)]) w)
  else (Raise NetworkError, w).

(** [context.user_data.get(user_id)] *)
Definition get_user_state (uid : Z) : M (option user_state) := fun w => (Ok (w_user_data w !! uid), w).

(** [context.user_data[user_id] = st] *)
Definition put_user_state (uid : Z) (st : user_state) : M unit :=
  py_modify (fun w => set_user_data (<[uid := st]> (w_user_data w)) w).

(** [context.user_data.pop(user_id, None)] *)
Definition pop_user_state (uid : Z) : M unit :=
  py_modify (fun w => set_user_data (delete uid (w_user_data w)) w).

(** [str(uuid.uuid4())[:8]] *)
Definition fresh_uuid : M string := fun w =>
  (Ok (w_uuid w (w_uuid_next w)), set_uuid_next (S (w_uuid_next w)) w).

Definition now : M Z := fun w => (Ok (w_now w), w).

(** [del active_reminders[rid]] when present. *)
Definition remove_active (rid : string) : M unit := py_modify (fun w => set_active (delete rid (w_active w)) w).

Definition is_active (rid : string) : M bool := fun w => (Ok (bool_decide (is_Some (w_active w !! rid))), w).

(** [Timer(delay, send_reminder, args)]; [active_reminders[rid] = {...}];
    [timer.start()]. *)
Definition arm (due : Z) (args : fire_args) (e : nat -> entry) : M unit := fun w =>
  let h := w_next_timer w in
  (Ok tt, set_active (<[a_id args := e h]> (w_active w))
            (set_timers (w_timers w ++ [mktimer h due args]) (S h) w)).

(** [timer.cancel()] of the thread with handle [h]. *)
Definition cancel_timer (h : nat) : M unit := py_modify (fun w =>
  set_timers (filter (fun t => t_handle t <> h) (w_timers w)) (w_next_timer w) w).

(** [PRIORITY_EMOJIS.get(priority, '')] *)
Definition priority_emoji (p : string) : string :=
  if String.eqb p "high" then "🔴"
  else if String.eqb p "medium" then "🟡"
  else if String.eqb p "low" then "🟢" else "".

(** Lift [get_user_timezone] through the decorator. *)
Definition get_user_timezone_call (user_id : Z) : M (option string) :=
  db_read (fun db => Ok (get_user_timezone user_id db)).

(** ** The scheduler functions *)

Section WithZones.

Context `{TzDatabase}.

(** bot.py 741-743: a naive time is localized in the user's zone
    ([pytz.timezone(None)] raises [UnknownTimeZoneError]). *)
Definition ensure_aware (user_id : Z) (t : datetime) : M datetime :=
  match tzoff t with
  | Some _ => mret t
  | None =>
      tz ← get_user_timezone_call user_id;
      match tz with
      | None => py_raise UnknownTimeZoneError
      | Some name => py_lift (fun w => match localize name (wall t) with
                                       | Ok d => Ok (d, w)
                                       | Raise e => Raise e
                                       end)
      end
  end.

(** bot.py 736-771: a reminder is armed only if its instant is in the
    future; the dictionary entry is overwritten without cancelling a
    previous timer of the same id. *)
Definition schedule_reminder (chat_id user_id : Z) (reminder_id : string)
    (reminder_time : datetime) (message priority : string)
    (recurrence_type : option string) (recurrence_interval : option Z) : M unit :=
  t ← ensure_aware user_id reminder_time;
  n ← now;
  let delay := instant t - n in
  py_when (0 <? delay)
    (arm (instant t)
         (mkargs chat_id user_id reminder_id message priority recurrence_type
                 recurrence_interval t)
         (fun h => mkentry h t user_id chat_id message priority recurrence_type
                           recurrence_interval)).

(** bot.py 773-799 *)
Definition reschedule_reminder (reminder_id : string) (new_time : option datetime) : M bool :=
  fun w =>
  match w_active w !! reminder_id with
  | None => (Ok false, w)
  | Some e =>
      (cancel_timer (e_timer e);;
       schedule_reminder (e_chat e) (e_user e) reminder_id
         (from_option id (e_scheduled e) new_time) (e_message e) (e_priority e)
         (e_rtype e) (e_rinterval e);;
       mret true) w
  end.

(** [calculate_next_occurrence(last_time, recurrence_type, recurrence_interval)].
    A [None] interval raises [TypeError] where the function reads it
    ([timedelta(days=None)], [month + None]); for any other type the
    function returns [None] without reading it. *)
Definition next_occurrence_call (last : datetime) (rt : string) (ri : option Z)
    : M (option datetime) :=
  match ri with
  | Some k => fun w => (calculate_next_occurrence last rt k, w)
  | None =>
      if String.eqb rt "day" || String.eqb rt "week" || String.eqb rt "month"
      then py_raise TypeError else mret None
  end.

(** bot.py 830-849: save and schedule the successor; any failure is
    reported to the chat. *)
Definition create_successor (a : fire_args) (rt : string) (next : option datetime) : M unit :=
  next_reminder_id ← fresh_uuid;
  py_try
    (match next with
     | None => py_raise (AttributeError "'NoneType' object has no attribute 'isoformat'")
     | Some nt =>
         db_call (CallSave (a_user a) next_reminder_id (a_message a) nt (a_priority a)
                           (Some rt) (a_rinterval a) (Some (a_id a)));;
         schedule_reminder (a_chat a) (a_user a) next_reminder_id nt (a_message a)
                           (a_priority a) (Some rt) (a_rinterval a)
     end)
    (fun _ => send_message (a_chat a)
       "⚠️ Failed to schedule next occurrence of recurring reminder. Please check /list").

(** The text of bot.py 810: [f"{priority_emoji} Reminder: {message}"]. *)
Definition reminder_text (a : fire_args) : string :=
  priority_emoji (a_priority a) +:+ " Reminder: " +:+ a_message a.

(** bot.py 813-851, the part of the [try] block after the delivery:
    forget the entry, create the next occurrence of a recurring reminder,
    complete the row. *)
Definition send_reminder_body (a : fire_args) : M unit :=
  remove_active (a_id a);;
  match a_rtype a with
  | Some rt =>
      if truthy_str (Some rt) then
        (next ← next_occurrence_call (a_last a) rt (a_rinterval a);
         ok ← db_read (should_create_next_occurrence (a_id a) next);
         if negb ok then (db_call (CallComplete (a_id a));; mret tt)
         else (create_successor a rt next;; db_call (CallComplete (a_id a));; mret tt))
      else (db_call (CallComplete (a_id a));; mret tt)
  | None => db_call (CallComplete (a_id a));; mret tt
  end.

(** bot.py 801-856: deliver, then the body; any exception only drops the
    dictionary entry. *)
Definition send_reminder (a : fire_args) : M unit :=
  py_try (send_message (a_chat a) (reminder_text a);; send_reminder_body a)
         (fun _ => remove_active (a_id a)).

End WithZones.


(** ** Rendering of dates ([strftime]) *)

Definition digit (n : Z) : string := String (Ascii.ascii_of_nat (48 + Z.to_nat n)) EmptyString.

(** Decimal digits of a number below 10000, without leading zeros. *)
Definition decimal (n : Z) : string :=
  if n <? 10 then digit n
  else if n <? 100 then digit (n / 10) +:+ digit (n mod 10)
  else if n <? 1000 then digit (n / 100) +:+ digit (n / 10 mod 10) +:+ digit (n mod 10)
  else digit (n / 1000) +:+ digit (n / 100 mod 10) +:+ digit (n / 10 mod 10) +:+ digit (n mod 10).

Definition two_digits (n : Z) : string := digit (n / 10) +:+ digit (n mod 10).

Definition month_abbr (m : Z) : string :=
  nth (Z.to_nat (m - 1))
    ["Jan"; "Feb"; "Mar"; "Apr"; "May"; "Jun"; "Jul"; "Aug"; "Sep"; "Oct"; "Nov"; "Dec"] "".

(** [strftime('%d %b %Y')] *)
Definition fmt_date (t : naive) : string :=
  two_digits (day (ndate t)) +:+ " " +:+ month_abbr (month (ndate t)) +:+ " "
  +:+ decimal (year (ndate t)).

(** [strftime('%I:%M %p')] *)
Definition fmt_time (t : naive) : string :=
  let h12 := if hour t mod 12 =? 0 then 12 else hour t mod 12 in
  two_digits h12 +:+ ":" +:+ two_digits (minute t) +:+ " "
  +:+ (if hour t <? 12 then "AM" else "PM").


(** ** Relations every computation respects

    A computation [preserves R] when its final state is [R]-related to
    its initial one.  A relation [Respects] the primitives when database
    calls and deliveries preserve it and it holds between worlds with the
    same database and outbox; then, for a preorder, every computation
    built with the monad preserves it ([preserves_tac_with]). *)

Definition preserves (R : World -> World -> Prop) {A} (m : M A) : Prop := forall w, R w (snd (m w)).

Class Respects (R : World -> World -> Prop) := {
  respects_db_call c : preserves R (db_call c);
  respects_db_read A (f : Db -> exc A) : preserves R (db_read f);
  respects_send chat text : preserves R (send_message chat text);
  respects_shape w w' : w_db w' = w_db w -> w_outbox w' = w_outbox w -> R w w';
}.

Section Preserves.
Context (R : World -> World -> Prop) `{!PreOrder R} `{!Respects R}.

Lemma preserves_ret {A} (a : A) : preserves R (mret a).
Proof. intros w. reflexivity. Qed.

Lemma preserves_raise {A} e : preserves R (@py_raise World A e).
Proof. intros w. reflexivity. Qed.

Lemma preserves_bind {A B} (m : M A) (k : A -> M B) :
  preserves R m -> (forall a, preserves R (k a)) -> preserves R (m ≫= k).
Proof.
  intros Hm Hk w. unfold mbind, pyst_bind, py_bind.
  specialize (Hm w). destruct (m w) as [[a|e] w1]; cbn in *; [| done].
  etrans; [exact Hm | apply Hk].
Qed.

Lemma preserves_try {A} (m : M A) h :
  preserves R m -> (forall e, preserves R (h e)) -> preserves R (py_try m h).
Proof.
  intros Hm Hh w. unfold py_try.
  specialize (Hm w). destruct (m w) as [[a|e] w1]; cbn in *; [done |].
  etrans; [exact Hm | apply Hh].
Qed.

(** Computations that change neither the database nor the outbox. *)
Lemma preserves_shape {A} (m : M A) :
  (forall w, w_db (snd (m w)) = w_db w /\ w_outbox (snd (m w)) = w_outbox w) -> preserves R m.
Proof. intros Hm w. destruct (Hm w). by apply respects_shape. Qed.
End Preserves.

(** Decompose a computation into primitives; [t] closes the calls of
    functions already shown to preserve the relation. *)
Ltac papply L := apply L; try exact _.

Ltac preserves_tac_with t :=
  repeat first
    [ t
    | papply preserves_bind; [| intros ?]
    | papply preserves_try; [| intros ?]
    | papply respects_db_call | papply respects_db_read | papply respects_send
    | papply preserves_ret | papply preserves_raise
    | papply preserves_shape; intros ?; split; reflexivity
    | papply preserves_shape; intros ?; unfold py_lift; repeat case_match; simplify_eq; done
    | match goal with
      | |- preserves _ (if ?b then _ else _) => destruct b
      | |- preserves _ (match ?x with _ => _ end) => destruct x
      | |- preserves _ (py_when ?b _) => destruct b; cbn [py_when]
      | |- preserves _ (let _ := _ in _) => cbv zeta
      end ].

Section PreservesScheduler.
Context (R : World -> World -> Prop) `{!PreOrder R} `{!Respects R} `{TzDatabase}.

Lemma preserves_schedule_reminder chat user rid t msg prio rt ri :
  preserves R (schedule_reminder chat user rid t msg prio rt ri).
Proof.
  unfold schedule_reminder, ensure_aware, get_user_timezone_call, now, arm.
  preserves_tac_with fail.
Qed.

Lemma preserves_send_reminder a : preserves R (send_reminder a).
Proof.
  unfold send_reminder, send_reminder_body, create_successor, next_occurrence_call,
    remove_active, fresh_uuid.
  preserves_tac_with ltac:(papply preserves_schedule_reminder).
Qed.

Lemma preserves_send_reminder_body a : preserves R (send_reminder_body a).
Proof.
  unfold send_reminder_body, create_successor, next_occurrence_call, remove_active, fresh_uuid.
  preserves_tac_with ltac:(papply preserves_schedule_reminder).
Qed.

Lemma preserves_reschedule rid nt : preserves R (reschedule_reminder rid nt).
Proof.
  intros w. unfold reschedule_reminder.
  destruct (w_active w !! rid) as [e|]; [| reflexivity].
  revert w. change (preserves R (cancel_timer (e_timer e);;
     schedule_reminder (e_chat e) (e_user e) rid
       (from_option id (e_scheduled e) nt) (e_message e) (e_priority e)
       (e_rtype e) (e_rinterval e);; mret true)).
  unfold cancel_timer. preserves_tac_with ltac:(papply preserves_schedule_reminder).
Qed.

End PreservesScheduler.

(** ** The database along a run *)

(** A database may evolve from [db] to [db'] if well-formedness is kept
    and completed or cancelled rows are untouched. *)
Definition db_evolves (db db' : Db) : Prop :=
  (db_wf db -> db_wf db') /\
  (forall k r, rows db !! k = Some r -> r_status r <> Pending -> rows db' !! k = Some r).

Lemma db_evolves_refl db : db_evolves db db.
Proof. split; auto. Qed.

Definition db_rel (w w' : World) : Prop := db_evolves (w_db w) (w_db w').

#[export] Instance db_rel_preorder : PreOrder db_rel.
Proof.
  split.
  - intros w. split; auto.
  - intros w1 w2 w3 [Hw1 Ht1] [Hw2 Ht2]. split; [auto |]. intros k r Hk Hs. auto.
Qed.

Lemma db_rel_db_call c : preserves db_rel (db_call c).
Proof.
  intros w. unfold db_call, db_rel.
  destruct (safe_db_operation _ _ _) as [[[b db']|e] busy'] eqn:E; cbn; [| apply db_evolves_refl].
  apply safe_db_operation_ok in E. split.
  - intros Hwf. by eapply run_call_wf.
  - intros k r Hk Hs. by eapply run_call_terminal.
Qed.

Lemma db_rel_db_read A (f : Db -> exc A) : preserves db_rel (db_read f).
Proof. intros w. unfold db_read, db_rel. repeat case_match; apply db_evolves_refl. Qed.

Lemma db_rel_send chat text : preserves db_rel (send_message chat text).
Proof. intros w. unfold send_message, db_rel. case_match; apply db_evolves_refl. Qed.

Lemma db_rel_shape w w' : w_db w' = w_db w -> w_outbox w' = w_outbox w -> db_rel w w'.
Proof. intros Hdb _. unfold db_rel. rewrite Hdb. apply db_evolves_refl. Qed.



#[export] Instance db_rel_respects : Respects db_rel :=
  {| respects_db_call := db_rel_db_call; respects_db_read := db_rel_db_read;
     respects_send := db_rel_send; respects_shape := db_rel_shape |}.

(** ** The outbox along a run: sent messages are never taken back *)

Definition out_rel (w w' : World) : Prop := w_outbox w `prefix_of` w_outbox w'.

#[export] Instance out_rel_preorder : PreOrder out_rel.
Proof.
  split; [intros w; unfold out_rel; reflexivity |].
  intros w1 w2 w3; unfold out_rel. apply transitivity.
Qed.

Lemma out_rel_db_call c : preserves out_rel (db_call c).
Proof. intros w. unfold db_call, out_rel. repeat case_match; cbn; reflexivity. Qed.

Lemma out_rel_db_read A (f : Db -> exc A) : preserves out_rel (db_read f).
Proof. intros w. unfold db_read, out_rel. repeat case_match; cbn; reflexivity. Qed.

Lemma out_rel_send chat text : preserves out_rel (send_message chat text).
Proof.
  intros w. unfold send_message, out_rel. case_match; cbn; [by apply prefix_app_r | reflexivity].
Qed.

Lemma out_rel_shape w w' : w_db w' = w_db w -> w_outbox w' = w_outbox w -> out_rel w w'.
Proof. intros _ Ho. unfold out_rel. rewrite Ho. reflexivity. Qed.



#[export] Instance out_rel_respects : Respects out_rel :=
  {| respects_db_call := out_rel_db_call; respects_db_read := out_rel_db_read;
     respects_send := out_rel_send; respects_shape := out_rel_shape |}.

(** ** Functional behaviour of a firing *)


Lemma safe_db_operation_nil {A} (op : Db -> exc (A * Db)) db :
  safe_db_operation [] op db =
  (match op db with
   | Ok r => Ok r
   | Raise e => if is_sqlite_error e then Raise (DatabaseError "Database operation failed") else Raise e
   end, []).
Proof.
  unfold safe_db_operation; cbn.
  destruct (op db) as [v|e]; [done |]. by destruct (is_sqlite_error e).
Qed.

Lemma db_call_nil c w :
  w_busy w = [] ->
  db_call c w = match run_call c (w_db w) with
                | Ok (b, db') => (Ok b, set_db db' [] w)
                | Raise e => (Raise (if is_sqlite_error e then DatabaseError "Database operation failed" else e), set_busy [] w)
                end.
Proof.
  intros Hb. unfold db_call. rewrite Hb, safe_db_operation_nil.
  destruct (run_call c (w_db w)) as [[b db']|e]; [done |]. by destruct (is_sqlite_error e).
Qed.

Lemma db_read_nil {A} (f : Db -> exc A) a w :
  w_busy w = [] -> f (w_db w) = Ok a -> db_read f w = (Ok a, w).
Proof.
  intros Hb Hf. destruct w; cbn in *; subst. unfold db_read; cbn [w_busy w_db].
  rewrite safe_db_operation_nil, Hf. reflexivity.
Qed.

(** The fire arguments were taken from the row (as every caller does). *)
Definition args_match (a : fire_args) (r : reminder_row) : Prop :=
  r_user r = a_user a /\ r_message r = a_message a /\ r_priority r = a_priority a
  /\ r_rtype r = a_rtype a /\ r_rinterval r = a_rinterval a.

Definition successor_row (a : fire_args) (nid : string) (rt : string) (nt : datetime) : reminder_row :=
  mkrow nid (a_user a) (a_message a) nt Pending (a_priority a) (Some rt) (a_rinterval a)
        None (Some (a_id a)).

Lemma successor_row_check a r nid rt nt :
  args_match a r -> a_rtype a = Some rt -> row_check r = true ->
  row_check (successor_row a nid rt nt) = true.
Proof. intros (_ & _ & Hp & Ht & Hi) Hrt Hc. unfold row_check in *; cbn. by rewrite Hp, Ht, Hrt, Hi in Hc. Qed.

Definition warning_text : string :=
  "⚠️ Failed to schedule next occurrence of recurring reminder. Please check /list".

Definition timers_for (rid : string) (ts : list timer) : list timer :=
  filter (fun t => a_id (t_args t) = rid) ts.

Definition utc_db : TzDatabase := {| tz_localize _ _ := Some 0; tz_offset_at _ _ := Some 0 |}.

Lemma timers_for_app rid l1 l2 : timers_for rid (l1 ++ l2) = (timers_for rid l1 ++ timers_for rid l2)%list.
Proof. apply filter_app. Qed.

Section Firing.
Context `{TzDatabase}.

Lemma send_reminder_body_out_rel a : preserves out_rel (send_reminder_body a).
Proof.
  papply preserves_send_reminder_body.
Qed.
Lemma send_reminder_delivers a w :
  w_sink_up w = true -> (a_chat a, reminder_text a) ∈ w_outbox (snd (send_reminder a w)).
Proof.
  intros Hs. unfold send_reminder, py_try, mbind, pyst_bind, py_bind, send_message, remove_active, py_modify. rewrite Hs.
  pose proof (send_reminder_body_out_rel a
                (set_outbox (w_outbox w ++ [(a_chat a, reminder_text a)]) w)) as Hp.
  unfold out_rel in Hp.
  destruct (send_reminder_body a _) as [[[]|e] w2]; cbn in *;
    destruct Hp as [k ->]; apply elem_of_app; left; apply elem_of_app; right; by left.
Qed.

Lemma send_reminder_db_rel a : preserves db_rel (send_reminder a).
Proof.
  papply preserves_send_reminder.
Qed.
(** C6 Firing a pending one-shot reminder delivers its text once, removes
    its dictionary entry, completes its row (and nothing else), and arms
    no timer. *)
Theorem send_reminder_one_shot a w r :
  db_wf (w_db w) -> a_rtype a = None -> w_sink_up w = true -> w_busy w = [] ->
  rows (w_db w) !! a_id a = Some r -> r_status r = Pending ->
  let w' := snd (send_reminder a w) in
  w_outbox w' = (w_outbox w ++ [(a_chat a, reminder_text a)])%list
  /\ rows (w_db w') = <[a_id a := set_status Completed r]> (rows (w_db w))
  /\ w_active w' = delete (a_id a) (w_active w)
  /\ w_timers w' = w_timers w.
Proof.
  intros Hwf Hrt Hsink Hbusy Hr Hp.
  pose proof (wf_check _ Hwf _ _ Hr) as Hck.
  destruct w as [db busy act timers nt out sink uuid un nw ud]; cbn in *; subst.
  destruct a as [chat user rid msg prio rt ri last]; cbn in *; subst.
  unfold send_reminder, send_reminder_body, db_call, send_message, remove_active, safe_db_operation.
  unfold mbind, mret, pyst_bind, pyst_ret, py_bind, py_ret, py_try, py_modify; cbn.
  unfold mark_reminder_complete. rewrite (update_row_hit _ _ _ _ r); [| done | by apply is_pending_true | done].
  cbn. repeat split.
Qed.

(** C4 Firing a pending recurring reminder below the quota delivers it,
    saves exactly one successor row (same user, message, priority and
    recurrence, [parent_reminder_id] the fired id, the next occurrence
    as its time), completes the fired row, and arms a timer for the
    successor when it is in the future. *)
Theorem send_reminder_recurring a w r u rt k nt :
  db_wf (w_db w) -> args_match a r -> a_rtype a = Some rt -> rt <> "" -> a_rinterval a = Some k ->
  w_sink_up w = true -> w_busy w = [] ->
  rows (w_db w) !! a_id a = Some r -> r_status r = Pending -> r_end r = None ->
  users (w_db w) !! a_user a = Some u -> u_count u < u_max u ->
  rows (w_db w) !! w_uuid w (w_uuid_next w) = None ->
  calculate_next_occurrence (a_last a) rt k = Ok (Some nt) -> is_Some (tzoff (a_last a)) ->
  let nid := w_uuid w (w_uuid_next w) in
  let w' := snd (send_reminder a w) in
  w_outbox w' = (w_outbox w ++ [(a_chat a, reminder_text a)])%list
  /\ rows (w_db w') = <[a_id a := set_status Completed r]>
                        (<[nid := successor_row a nid rt nt]> (rows (w_db w)))
  /\ (w_now w < instant nt -> exists t, t ∈ w_timers w' /\ a_id (t_args t) = nid /\ t_due t = instant nt).
Proof.
  intros Hwf Hm Hrt Hne Hri Hsink Hbusy Hr Hp Hend Hu Hq Hfresh Hnext [o Ho].
  pose proof (wf_check _ Hwf _ _ Hr) as Hck.
  pose proof (successor_row_check a r (w_uuid w (w_uuid_next w)) rt nt Hm Hrt Hck) as Hsk.
  pose proof (calculate_next_occurrence_tzoff _ _ _ _ Hnext) as Hnz. rewrite Ho in Hnz.
  destruct w as [db busy act timers nx out sink uuid un nw ud]; cbn in *; subst.
  destruct a as [chat user rid msg prio rt0 ri last]; cbn in *; subst.
  unfold send_reminder, send_reminder_body, create_successor, next_occurrence_call, schedule_reminder, ensure_aware,
    db_call, db_read, send_message, remove_active, fresh_uuid, now, arm.
  apply String.eqb_neq in Hne.
  py_run. rewrite Hne, Hnext. cbn. rewrite Hnz. cbn.
  unfold should_create_next_occurrence. rewrite Hr, Hend. cbn.
  erewrite save_reminder_ok; [| exact Hu | exact Hq | exact Hfresh | exact Hsk]. cbn.
  destruct (Z.ltb_spec 0 (instant nt - nw)) as [Hlt | Hge]; cbn;
    (unfold mark_reminder_complete;
     rewrite (update_row_hit _ _ _ _ r);
       [| cbn [rows]; rewrite lookup_insert_ne; [exact Hr | intros Heq; rewrite Heq in Hfresh; congruence]
        | by apply is_pending_true | done]; cbn).
  - split; [done | split; [done |]]. intros _.
    eexists; split; [apply list_elem_of_In, in_or_app; right; left; reflexivity | done].
  - split; [done | split; [done |]]. intros Hlt. lia.
Qed.

(** C5 Firing a recurring reminder whose owner is at the quota: the
    successor is saved before the fired row is completed, so
    [save_reminder] raises [ReminderLimitError]; the user gets the
    warning, the fired row is completed, and the series ends with no
    successor although completing it frees a slot. *)
Theorem send_reminder_at_quota a w r u rt k nt :
  db_wf (w_db w) -> args_match a r -> a_rtype a = Some rt -> rt <> "" -> a_rinterval a = Some k ->
  w_sink_up w = true -> w_busy w = [] ->
  rows (w_db w) !! a_id a = Some r -> r_status r = Pending -> r_end r = None ->
  users (w_db w) !! a_user a = Some u -> u_max u <= u_count u ->
  calculate_next_occurrence (a_last a) rt k = Ok (Some nt) ->
  let w' := snd (send_reminder a w) in
  w_outbox w' = (w_outbox w ++ [(a_chat a, reminder_text a); (a_chat a, warning_text)])%list
  /\ rows (w_db w') = <[a_id a := set_status Completed r]> (rows (w_db w))
  /\ users (w_db w') !! a_user a = Some (decr_count u).
Proof.
  intros Hwf Hm Hrt Hne Hri Hsink Hbusy Hr Hp Hend Hu Hq Hnext.
  pose proof (wf_check _ Hwf _ _ Hr) as Hck.
  destruct Hm as (Huser & _).
  destruct w as [db busy act timers nx out sink uuid un nw ud]; cbn in *; subst.
  destruct a as [chat user rid msg prio rt0 ri last]; cbn in *; subst.
  unfold send_reminder, send_reminder_body, create_successor, next_occurrence_call, db_call, db_read, send_message,
    remove_active, fresh_uuid.
  apply String.eqb_neq in Hne.
  py_run. rewrite Hne, Hnext. cbn.
  unfold should_create_next_occurrence. rewrite Hr, Hend. cbn.
  rewrite (save_reminder_at_quota _ u); [| done | done]. cbn.
  unfold mark_reminder_complete.
  rewrite (update_row_hit _ _ _ _ r); [| done | by apply is_pending_true | done]. cbn.
  rewrite <- app_assoc. split; [done | split; [done |]].
  unfold trigger_update. rewrite decide_True by (cbn; split; [discriminate | done]).
  cbn. by rewrite lookup_alter_eq, Hu.
Qed.

(** [schedule_reminder] of an aware datetime: arms one new timer and
    overwrites the dictionary entry when the instant is in the future,
    does nothing otherwise. *)
Theorem schedule_reminder_spec chat user rid t msg prio rt ri w o :
  tzoff t = Some o ->
  schedule_reminder chat user rid t msg prio rt ri w =
  (Ok tt, if w_now w <? instant t then
            set_active (<[rid := mkentry (w_next_timer w) t user chat msg prio rt ri]> (w_active w))
              (set_timers (w_timers w ++ [mktimer (w_next_timer w) (instant t)
                                            (mkargs chat user rid msg prio rt ri t)])
                          (S (w_next_timer w)) w)
          else w).
Proof.
  intros Ho. unfold schedule_reminder, ensure_aware, now, arm. rewrite Ho. py_run.
  destruct (Z.ltb_spec 0 (instant t - w_now w)), (Z.ltb_spec (w_now w) (instant t)); done || lia.
Qed.

(** C33 Scheduling an id that is already armed starts a second timer for
    it: nothing cancels the first one, so the reminder fires twice. *)
Theorem schedule_reminder_twice chat user rid t msg prio rt ri w o :
  tzoff t = Some o -> w_now w < instant t ->
  let w1 := snd (schedule_reminder chat user rid t msg prio rt ri w) in
  let w2 := snd (schedule_reminder chat user rid t msg prio rt ri w1) in
  List.length (timers_for rid (w_timers w2)) = (List.length (timers_for rid (w_timers w)) + 2)%nat.
Proof.
  intros Ho Hlt. cbv zeta. rewrite (schedule_reminder_spec _ _ _ _ _ _ _ _ w o Ho).
  destruct (Z.ltb_spec (w_now w) (instant t)); [| lia]. cbn [snd].
  rewrite (schedule_reminder_spec _ _ _ _ _ _ _ _ _ o Ho). cbn [snd w_now set_active set_timers].
  destruct (Z.ltb_spec (w_now w) (instant t)); [| lia]. cbn [snd w_timers set_active set_timers].
  rewrite <- app_assoc, !timers_for_app, !length_app. unfold timers_for; cbn.
  rewrite !decide_True by done. cbn. lia.
Qed.

End Firing.

(** ** Witnesses *)

#[local] Existing Instance utc_db.

Definition dt0 : datetime := mkdt (mknaive (mkdate 2024 3 1) 9 0 0) (Some 0).

Definition dt1 : datetime := mkdt (mknaive (mkdate 2024 3 2) 9 0 0) (Some 0).

Definition args0 : fire_args := mkargs 42 7 "r1" "Call mom" "high" None None dt0.

Definition row0 : reminder_row := mkrow "r1" 7 "Call mom" dt0 Pending "high" None None None None.

Definition argsR : fire_args := mkargs 42 7 "r1" "Standup" "medium" (Some "day") (Some 1) dt0.

Definition rowR : reminder_row :=
  mkrow "r1" 7 "Standup" dt0 Pending "medium" (Some "day") (Some 1) None None.

Definition user0 : user_row := mkuser (Some "UTC") 50 1.

Definition entry0 : entry := mkentry 0 dt0 7 42 "Call mom" "high" None None.

Definition world_of (r : reminder_row) (a : fire_args) (u : user_row) : World :=
  mkworld (mkdb {[ 7 := u ]} {[ "r1" := r ]}) [] {[ "r1" := entry0 ]}
          [mktimer 0 (instant dt0) a] 1 [] true (fun _ => "n1") 0 (instant dt0) ∅.

Ltac close_hyp :=
  first [ reflexivity | discriminate | lia
        | apply db_wfb_spec; vm_compute; reflexivity
        | vm_compute; reflexivity
        | eexists; reflexivity | by left
        | unfold args_match; repeat split ].

Example send_reminder_one_shot_witness :
  let w := world_of row0 args0 user0 in
  let w' := snd (send_reminder args0 w) in
  w_outbox w' = (w_outbox w ++ [(a_chat args0, reminder_text args0)])%list
  /\ rows (w_db w') = <[a_id args0 := set_status Completed row0]> (rows (w_db w))
  /\ w_active w' = delete (a_id args0) (w_active w)
  /\ w_timers w' = w_timers w.
Proof. apply (send_reminder_one_shot args0 _ row0); close_hyp. Defined.

Example send_reminder_recurring_witness :
  let w := world_of rowR argsR user0 in
  let w' := snd (send_reminder argsR w) in
  w_outbox w' = (w_outbox w ++ [(a_chat argsR, reminder_text argsR)])%list
  /\ rows (w_db w') = <["r1" := set_status Completed rowR]>
                        (<["n1" := successor_row argsR "n1" "day" dt1]> (rows (w_db w)))
  /\ (w_now w < instant dt1 -> exists t, t ∈ w_timers w' /\ a_id (t_args t) = "n1" /\ t_due t = instant dt1).
Proof.
  apply (send_reminder_recurring argsR (world_of rowR argsR user0) rowR user0 "day" 1 dt1);
    close_hyp.
Defined.

Example send_reminder_at_quota_witness :
  let w := world_of rowR argsR (mkuser (Some "UTC") 1 1) in
  let w' := snd (send_reminder argsR w) in
  w_outbox w' = (w_outbox w ++ [(a_chat argsR, reminder_text argsR); (a_chat argsR, warning_text)])%list
  /\ rows (w_db w') = <[a_id argsR := set_status Completed rowR]> (rows (w_db w))
  /\ users (w_db w') !! a_user argsR = Some (decr_count (mkuser (Some "UTC") 1 1)).
Proof.
  apply (send_reminder_at_quota argsR (world_of rowR argsR (mkuser (Some "UTC") 1 1)) rowR (mkuser (Some "UTC") 1 1) "day" 1 dt1);
    close_hyp.
Defined.

Example schedule_reminder_twice_witness :
  let w := world_of row0 args0 user0 in
  let w1 := snd (schedule_reminder 42 7 "r1" dt1 "Call mom" "high" None None w) in
  let w2 := snd (schedule_reminder 42 7 "r1" dt1 "Call mom" "high" None None w1) in
  List.length (timers_for "r1" (w_timers w2)) = (List.length (timers_for "r1" (w_timers w)) + 2)%nat.
Proof. apply (schedule_reminder_twice _ _ _ _ _ _ _ _ _ 0); close_hyp. Defined.

End Scheduler.
