(* ===== verification/Isoformat.v ===== *)
(** * The stored text of a datetime and its reading back

    [reminder_time] is stored as the text of [datetime.isoformat()]
    (bot.py 107, 245) and read back with [datetime.fromisoformat]
    (bot.py 125, 176, 222, 871).  [Module Isoformat] models both:
    [isoformat] as CPython writes an aware or naive datetime without
    microseconds, and [fromisoformat] as CPython reads that form (the
    date, a [T], the time to the second, an optional offset with or
    without seconds; any other text raises [ValueError]).  The theorem
    [fromisoformat_isoformat] shows that every valid datetime the code
    stores is read back unchanged, which is why the store of [Store.v]
    keeps the datetime itself. *)

From Stdlib Require Import Ascii.
From S2P Require Import Spec2Rocq Calendar Text Scheduler.

Module Isoformat.
Import Text Scheduler.

(** ** Writing *)

Definition four_digits (n : Z) : string := two_digits (n / 100) +:+ two_digits (n mod 100).

(** [datetime._format_offset]: sign, hours and minutes, seconds only
    when not zero. *)
Definition isoformat_offset (o : Z) : string :=
  let a := Z.abs o in
  (if o <? 0 then "-" else "+") +:+ two_digits (a / 3600) +:+ ":" +:+ two_digits (a / 60 mod 60)
  +:+ (if a mod 60 =? 0 then "" else ":" +:+ two_digits (a mod 60)).

(** [datetime.isoformat()] with zero microseconds. *)
Definition isoformat (d : datetime) : string :=
  let t := wall d in
  four_digits (year (ndate t)) +:+ "-" +:+ two_digits (month (ndate t)) +:+ "-"
  +:+ two_digits (day (ndate t)) +:+ "T" +:+ two_digits (hour t) +:+ ":"
  +:+ two_digits (minute t) +:+ ":" +:+ two_digits (second t)
  +:+ match tzoff d with Some o => isoformat_offset o | None => "" end.

(** [datetime.isoformat()] of a naive datetime whose microsecond is
    [us] (0..999999): the fraction [.ffffff] is written when [us] is not
    zero. *)
Definition isoformat_naive_us (t : naive) (us : Z) : string :=
  isoformat (mkdt t None)
  +:+ (if us =? 0 then ""
       else "." +:+ two_digits (us / 10000) +:+ two_digits (us / 100 mod 100) +:+ two_digits (us mod 100)).

(** ** Reading: [datetime.fromisoformat] on the texts [isoformat] writes *)

(** A decimal digit. *)
Definition digit_val (c : ascii) : option Z :=
  let n := nat_of_ascii c in
  if (48 <=? n)%nat && (n <=? 57)%nat then Some (Z.of_nat n - 48) else None.

(** [k] digits, read into the accumulator [acc]. *)
Fixpoint read_digits (k : nat) (acc : Z) (s : string) : option (Z * string) :=
  match k with
  | O => Some (acc, s)
  | S k' =>
      match s with
      | String c s' => v ← digit_val c; read_digits k' (acc * 10 + v) s'
      | EmptyString => None
      end
  end.

Definition read_char (c : ascii) (s : string) : option string :=
  match s with
  | String c' s' => if Ascii.eqb c c' then Some s' else None
  | EmptyString => None
  end.

(** The offset: none, [+HH:MM] or [+HH:MM:SS] (and [-]). *)
Definition parse_offset (s : string) : option (option Z) :=
  match s with
  | EmptyString => Some None
  | String c s1 =>
      sg ← (if Ascii.eqb c "+"%char then Some 1 else if Ascii.eqb c "-"%char then Some (-1) else None);
      '(oh, s2) ← read_digits 2 0 s1; s3 ← read_char ":"%char s2; '(om, s4) ← read_digits 2 0 s3;
      match s4 with
      | EmptyString => Some (Some (sg * (oh * 3600 + om * 60)))
      | _ =>
          s5 ← read_char ":"%char s4; '(os, s6) ← read_digits 2 0 s5;
          match s6 with
          | EmptyString => Some (Some (sg * (oh * 3600 + om * 60 + os)))
          | _ => None
          end
      end
  end.

Definition parse_iso (s : string) : option (naive * option Z) :=
  '(y, s) ← read_digits 4 0 s; s ← read_char "-"%char s;
  '(mo, s) ← read_digits 2 0 s; s ← read_char "-"%char s;
  '(d, s) ← read_digits 2 0 s; s ← read_char "T"%char s;
  '(h, s) ← read_digits 2 0 s; s ← read_char ":"%char s;
  '(mi, s) ← read_digits 2 0 s; s ← read_char ":"%char s;
  '(se, s) ← read_digits 2 0 s;
  o ← parse_offset s;
  Some (mknaive (mkdate y mo d) h mi se, o).

(** The fields must form a valid datetime and the offset be less than a
    day; the messages of the range errors are not modelled. *)
Definition fromisoformat (s : string) : exc datetime :=
  match parse_iso s with
  | Some (t, o) =>
      if valid_naive t && match o with Some o => (-86400 <? o) && (o <? 86400) | None => true end
      then Ok (mkdt t o)
      else Raise (ValueError ("Invalid isoformat string: '" +:+ s +:+ "'"))
  | None => Raise (ValueError ("Invalid isoformat string: '" +:+ s +:+ "'"))
  end.

(** ** Lemmas *)

Lemma digit_val_digit n : 0 <= n < 10 -> digit_val (ascii_of_nat (48 + Z.to_nat n)) = Some n.
Proof.
  intros Hn. unfold digit_val. rewrite nat_ascii_embedding by lia.
  rewrite (proj2 (Nat.leb_le _ _)), (proj2 (Nat.leb_le _ _)) by lia. cbn. f_equal. lia.
Qed.

Lemma read_digits_O acc s : read_digits 0 acc s = Some (acc, s).
Proof. done. Qed.

Lemma read_two_digits k acc n s :
  0 <= n < 100 -> read_digits (S (S k)) acc (two_digits n +:+ s) = read_digits k (acc * 100 + n) s.
Proof.
  intros Hn. unfold two_digits. rewrite string_app_assoc. unfold digit.
  rewrite !string_app_cons, !string_app_nil. cbn [read_digits].
  rewrite (digit_val_digit (n / 10)) by (split; [apply Z.div_pos | apply Z.div_lt_upper_bound]; lia).
  cbn [mbind option_bind]. rewrite (digit_val_digit (n mod 10)) by (apply Z.mod_pos_bound; lia).
  cbn [mbind option_bind]. f_equal. pose proof (Z.div_mod n 10). lia.
Qed.

Lemma read_four_digits acc n s :
  0 <= n < 10000 -> read_digits 4 acc (four_digits n +:+ s) = read_digits 0 (acc * 10000 + n) s.
Proof.
  intros Hn. unfold four_digits. rewrite string_app_assoc, read_two_digits, read_two_digits.
  - f_equal. pose proof (Z.div_mod n 100). lia.
  - apply Z.mod_pos_bound. lia.
  - split; [apply Z.div_pos | apply Z.div_lt_upper_bound]; lia.
Qed.


Lemma parse_offset_isoformat o :
  -86400 < o < 86400 -> parse_offset (isoformat_offset o) = Some (Some o).
Proof.
  intros Ho. unfold isoformat_offset. set (a := Z.abs o).
  assert (Ha : 0 <= a < 86400) by (unfold a; lia).
  assert (Hh : 0 <= a / 3600 < 100) by (split; [apply Z.div_pos | apply Z.div_lt_upper_bound]; lia).
  assert (Hm : 0 <= a / 60 mod 60 < 100) by (pose proof (Z.mod_pos_bound (a / 60) 60); lia).
  assert (Hs : 0 <= a mod 60 < 100) by (pose proof (Z.mod_pos_bound a 60); lia).
  assert (Hsplit : a = a / 3600 * 3600 + a / 60 mod 60 * 60 + a mod 60).
  { replace (a / 3600) with (a / 60 / 60) by (rewrite Z.div_div by lia; reflexivity). pose proof (Z.div_mod a 60). pose proof (Z.div_mod (a / 60) 60). lia. }
  assert (Hsign : (if o <? 0 then -1 else 1) * a = o) by (unfold a; destruct (Z.ltb_spec o 0); lia).
  destruct (o <? 0); rewrite string_app_cons, string_app_nil; unfold parse_offset; cbn [Ascii.eqb Bool.eqb mbind option_bind].
  all: rewrite read_two_digits, read_digits_O by done; cbn [mbind option_bind];
    rewrite string_app_cons, string_app_nil; cbn [read_char Ascii.eqb Bool.eqb mbind option_bind];
    rewrite read_two_digits, read_digits_O by done; cbn [mbind option_bind];
    destruct (Z.eqb_spec (a mod 60) 0) as [H0 | H0];
    [ cbn; do 2 f_equal; lia
    | rewrite string_app_cons, string_app_nil; cbn [read_char Ascii.eqb Bool.eqb mbind option_bind];
      rewrite <- (string_app_nil_r (two_digits (a mod 60))), read_two_digits, read_digits_O by done;
      cbn; do 2 f_equal; lia ].
Qed.

(** One step of the reading: two digits, or a separator. *)
Ltac read_two := rewrite read_two_digits, read_digits_O by lia; cbn [mbind option_bind].
Ltac read_sep := rewrite string_app_cons, string_app_nil; cbn [read_char Ascii.eqb Bool.eqb mbind option_bind].

(** ** Round trip *)

(** Every valid datetime the code stores is read back unchanged:
    [datetime.fromisoformat(d.isoformat())] is [d] for a valid date and
    time of day (years 1 to 9999) and an offset of less than a day, with
    or without seconds, or no offset at all. *)
Theorem fromisoformat_isoformat d :
  valid_naive (wall d) = true -> (forall o, tzoff d = Some o -> -86400 < o < 86400) ->
  fromisoformat (isoformat d) = Ok d.
Proof.
  destruct d as [[[y m dd] h mi se] off]. intros Hv Ho. cbn [wall] in Hv.
  pose proof Hv as Hv'. unfold valid_naive, valid_date in Hv'; cbn in Hv'.
  rewrite !andb_true_iff, !Z.leb_le, !Z.ltb_lt in Hv'.
  destruct Hv' as [[[[[[[[[[[Hy1 Hy2] Hm1] Hm2] Hd1] Hd2] Hh1] Hh2] Hi1] Hi2] Hs1] Hs2].
  pose proof (days_in_month_bounds y m).
  unfold fromisoformat, parse_iso, isoformat; cbn [wall ndate year month day hour minute second tzoff].
  rewrite read_four_digits, read_digits_O by lia; cbn [mbind option_bind].
  read_sep. read_two. read_sep. read_two. read_sep. read_two. read_sep. read_two. read_sep. read_two.
  rewrite !Z.mul_0_l, !Z.add_0_l.
  destruct off as [o|].
  - rewrite parse_offset_isoformat by (by apply Ho). cbn [mbind option_bind].
    rewrite Hv. destruct (Ho o eq_refl). rewrite (proj2 (Z.ltb_lt _ _)), (proj2 (Z.ltb_lt o _)) by lia.
    reflexivity.
  - cbn [parse_offset mbind option_bind]. by rewrite Hv.
Qed.
(** ** Witnesses *)

Example fromisoformat_isoformat_witness :
  fromisoformat (isoformat (mkdt (mknaive (mkdate 2024 3 1) 10 0 0) (Some 19800)))
  = Ok (mkdt (mknaive (mkdate 2024 3 1) 10 0 0) (Some 19800)).
Proof. apply fromisoformat_isoformat; [reflexivity | intros o [= <-]; lia]. Defined.

End Isoformat.
