(* ===== verification/Recovery.v ===== *)
(** * Start-up recovery: [handle_missed_reminders]

    [Module Recovery] models what [main] (bot.py 1221-1252) runs before
    polling: [get_all_pending_reminders] (bot.py 160-181), the join of
    pending rows with their owners ordered by the text of
    [reminder_time], and [handle_missed_reminders] (bot.py 875-945),
    which reports each missed reminder, creates the next occurrence of a
    missed recurring one, and arms a timer for each future one, all
    inside one [try] whose handler only logs.  [reminder_time] is stored
    as [datetime.isoformat()] text and read back with
    [datetime.fromisoformat]; the model keeps the datetime and renders
    the text ([isoformat]) only where SQLite compares it. *)

From stdpp Require Import sorting.
From S2P Require Import Spec2Rocq Calendar Recurrence Store Scheduler Isoformat.

Module Recovery.
Import Store Recurrence Scheduler Isoformat.

(** ** [get_all_pending_reminders] *)

(** One dictionary of the list (bot.py 171-180). *)
Record pending_item := mkpend {
  p_id : string; p_user : Z; p_message : string; p_time : datetime;
  p_timezone : option string; p_priority : string;
  p_rtype : option string; p_rinterval : option Z;
}.

(** [ORDER BY r.reminder_time ASC]: SQLite's binary collation on the
    stored text. *)
Definition iso_le (a b : pending_item) : Prop :=
  String.compare (isoformat (p_time a)) (isoformat (p_time b)) <> Gt.

#[export] Instance iso_le_dec : RelDecision iso_le.
Proof. intros a b. unfold iso_le. apply _. Defined.

(** The inner join of pending rows with [users] (bot.py 162-169). *)
Definition pending_join (db : Db) (kr : string * reminder_row) : option pending_item :=
  let r := kr.2 in
  if is_pending r then
    u ← users db !! r_user r;
    Some (mkpend (r_id r) (r_user r) (r_message r) (r_time r) (u_timezone u) (r_priority r)
                 (r_rtype r) (r_rinterval r))
  else None.

Definition get_all_pending_reminders (db : Db) : exc (list pending_item) :=
  Ok (merge_sort iso_le (omap (pending_join db) (map_to_list (rows db)))).

(** ** [handle_missed_reminders] *)

(** [strftime('%d %b %Y %I:%M %p')] in the missed-reminder text
    (bot.py 891-894). *)
Definition missed_text (t : datetime) (message : string) : string :=
  "⚠️ Missed Reminder from " +:+ fmt_date (wall t) +:+ " " +:+ fmt_time (wall t) +:+ ":" +:+ newline
  +:+ message.

Section WithZones.
Context `{TzDatabase}.

(** bot.py 882-885: a naive time is localized in the owner's zone. *)
Definition localize_item (it : pending_item) : M datetime :=
  match tzoff (p_time it) with
  | Some _ => mret (p_time it)
  | None =>
      match p_timezone it with
      | None => py_raise UnknownTimeZoneError
      | Some name => py_lift (fun w => match localize name (wall (p_time it)) with
                                       | Ok d => Ok (d, w)
                                       | Raise e => Raise e
                                       end)
      end
  end.

(** bot.py 897-928: the next occurrence of a missed recurring reminder,
    created only if it is in the future; [None > now] raises [TypeError]. *)
Definition missed_successor (n : Z) (it : pending_item) (reminder_time : datetime) (rt : string)
    : M unit :=
  next_time ← next_occurrence_call reminder_time rt (p_rinterval it);
  match next_time with
  | None => py_raise TypeError
  | Some nt =>
      if n <? instant nt then
        (db_read (should_create_next_occurrence (p_id it) (Some nt)) ≫= fun (ok : bool) =>
         if ok then
           (next_reminder_id ← fresh_uuid;
            db_call (CallSave (p_user it) next_reminder_id (p_message it) nt (p_priority it)
                              (Some rt) (p_rinterval it) (Some (p_id it)));;
            schedule_reminder (p_user it) (p_user it) next_reminder_id nt (p_message it)
                              (p_priority it) (Some rt) (p_rinterval it))
         else mret tt)
      else mret tt
  end.

(** bot.py 882-943: the body of the loop, for one pending reminder. *)
Definition handle_one (n : Z) (it : pending_item) : M unit :=
  reminder_time ← localize_item it;
  if instant reminder_time <? n then
    (send_message (p_user it) (missed_text reminder_time (p_message it));;
     match p_rtype it with
     | Some rt => if truthy_str (Some rt) then missed_successor n it reminder_time rt else mret tt
     | None => mret tt
     end;;
     db_call (CallComplete (p_id it));; mret tt)
  else
    schedule_reminder (p_user it) (p_user it) (p_id it) reminder_time (p_message it)
                      (p_priority it) (p_rtype it) (p_rinterval it).

Fixpoint handle_all (n : Z) (items : list pending_item) : M unit :=
  match items with
  | [] => mret tt
  | it :: rest => handle_one n it;; handle_all n rest
  end.

(** bot.py 875-945 *)
Definition handle_missed_reminders : M unit :=
  n ← now;
  py_try (reminders ← db_read get_all_pending_reminders; handle_all n reminders)
         (fun _ => mret tt).

End WithZones.

(** ** The reminders a run arms *)

(** The arguments of the timer [schedule_reminder] arms for a pending
    reminder: [chat_id] is the owner's id (bot.py 933-943). *)
Definition item_args (it : pending_item) : fire_args :=
  mkargs (p_user it) (p_user it) (p_id it) (p_message it) (p_priority it) (p_rtype it)
         (p_rinterval it) (p_time it).

Fixpoint future_timers (h : nat) (items : list pending_item) : list timer :=
  match items with
  | [] => []
  | it :: rest => mktimer h (instant (p_time it)) (item_args it) :: future_timers (S h) rest
  end.

(** A stored time with its offset, after the instant [n]. *)
Definition is_future (n : Z) (it : pending_item) : Prop :=
  is_Some (tzoff (p_time it)) /\ n < instant (p_time it).

Lemma set_active_set_timers_twice a ts n a' ts' n' w :
  set_active a (set_timers ts n (set_active a' (set_timers ts' n' w))) = set_active a (set_timers ts n w).
Proof. by destruct w. Qed.

Lemma timers_for_future rid h items :
  List.length (timers_for rid (future_timers h items))
  = List.length (filter (fun it => p_id it = rid) items).
Proof.
  revert h. induction items as [|it rest IH]; intros h; [done |]. cbn [future_timers].
  unfold timers_for in *. rewrite !filter_cons; cbn [t_args a_id item_args].
  case_decide; cbn; by rewrite IH.
Qed.

Section PreservesRecovery.
Context (R : World -> World -> Prop) `{!PreOrder R} `{!Respects R} `{TzDatabase}.

Lemma preserves_handle_one n it : preserves R (handle_one n it).
Proof.
  unfold handle_one, localize_item, missed_successor, next_occurrence_call, fresh_uuid.
  preserves_tac_with ltac:(papply preserves_schedule_reminder).
Qed.

Lemma preserves_handle_missed_reminders : preserves R handle_missed_reminders.
Proof.
  unfold handle_missed_reminders, now. preserves_tac_with fail.
  match goal with |- preserves _ (handle_all _ ?l) => induction l as [|it l IH]; cbn [handle_all] end;
    preserves_tac_with ltac:(first [papply preserves_handle_one | exact IH]).
Qed.

End PreservesRecovery.

Section Runs.
Context `{TzDatabase}.

Lemma handle_one_future it w :
  is_future (w_now w) it ->
  handle_one (w_now w) it w
  = (Ok tt, set_active (<[p_id it := mkentry (w_next_timer w) (p_time it) (p_user it) (p_user it)
                                      (p_message it) (p_priority it) (p_rtype it) (p_rinterval it)]>
                         (w_active w))
              (set_timers (w_timers w ++ [mktimer (w_next_timer w) (instant (p_time it)) (item_args it)])
                          (S (w_next_timer w)) w)).
Proof.
  intros [[o Ho] Hlt]. unfold handle_one, localize_item. rewrite Ho. py_run.
  rewrite (proj2 (Z.ltb_ge _ _)) by lia.
  rewrite (schedule_reminder_spec _ _ _ _ _ _ _ _ w o Ho).
  by rewrite (proj2 (Z.ltb_lt _ _) Hlt).
Qed.

(** A run over reminders that are all in the future arms one timer per
    reminder, in order, and changes neither the database nor the chat. *)
Lemma handle_all_future items w :
  Forall (is_future (w_now w)) items ->
  exists act, handle_all (w_now w) items w
  = (Ok tt, set_active act (set_timers (w_timers w ++ future_timers (w_next_timer w) items)
                                       (w_next_timer w + List.length items) w)).
Proof.
  revert w. induction items as [|it rest IH]; intros w Hf.
  - exists (w_active w). rewrite app_nil_r, Nat.add_0_r. by destruct w.
  - apply Forall_cons in Hf as [Hit Hrest]. cbn [handle_all].
    erewrite py_bind_ok by (apply handle_one_future, Hit).
    match goal with
    | |- context [handle_all _ rest ?w1] =>
        destruct (IH w1 Hrest) as [act Hr];
        assert (Hn : w_now w1 = w_now w) by reflexivity; rewrite Hn in Hr
    end.
    exists act. rewrite Hr, set_active_set_timers_twice. cbn.
    by rewrite <- app_assoc, Nat.add_succ_r.
Qed.

(** The pending rows of a well-formed database are all in the list
    [get_all_pending_reminders] returns. *)
Lemma pending_listed db k r :
  db_wf db -> rows db !! k = Some r -> r_status r = Pending ->
  exists it, it ∈ merge_sort iso_le (omap (pending_join db) (map_to_list (rows db)))
             /\ p_id it = k /\ p_time it = r_time r.
Proof.
  intros Hwf Hk Hp. destruct (wf_owner _ Hwf _ _ Hk) as [u Hu].
  exists (mkpend (r_id r) (r_user r) (r_message r) (r_time r) (u_timezone u) (r_priority r)
                 (r_rtype r) (r_rinterval r)).
  split; [| split; [apply (wf_keys _ Hwf _ _ Hk) | reflexivity]].
  rewrite merge_sort_Permutation. apply list_elem_of_omap.
  exists (k, r). split; [by apply elem_of_map_to_list |].
  unfold pending_join; cbn. rewrite is_pending_true by done. by rewrite Hu.
Qed.

(** Every listed reminder comes from a pending row, with its time. *)
Lemma listed_pending db it :
  it ∈ merge_sort iso_le (omap (pending_join db) (map_to_list (rows db))) ->
  exists k r, rows db !! k = Some r /\ r_status r = Pending /\ p_time it = r_time r.
Proof.
  rewrite merge_sort_Permutation, list_elem_of_omap. intros [[k r] [Hin Hj]].
  apply elem_of_map_to_list in Hin. unfold pending_join in Hj; cbn in Hj.
  destruct (is_pending r) eqn:Hp; [| done].
  destruct (users db !! r_user r); simplify_eq/=.
  exists k, r. split; [done | split; [by apply bool_decide_eq_true in Hp | done]].
Qed.

(** A pending row of a well-formed database is listed exactly once. *)
Lemma listed_once db k r :
  db_wf db -> rows db !! k = Some r -> r_status r = Pending ->
  List.length (filter (fun it => p_id it = k)
                      (merge_sort iso_le (omap (pending_join db) (map_to_list (rows db))))) = 1%nat.
Proof.
  intros Hwf Hk Hp. rewrite merge_sort_Permutation.
  rewrite (filter_omap _ _ (fun kv => kv.1 = k)).
  - rewrite (filter_key_unique _ k r) by (apply NoDup_fst_map_to_list || by apply elem_of_map_to_list).
    destruct (wf_owner _ Hwf _ _ Hk) as [u Hu].
    cbn. unfold pending_join; cbn. by rewrite is_pending_true, Hu.
  - intros [k' r'] it Hin Hj. apply elem_of_map_to_list in Hin.
    unfold pending_join in Hj; cbn in Hj. destruct (is_pending r'); [| done].
    destruct (users db !! r_user r'); simplify_eq/=. by rewrite (wf_keys _ Hwf _ _ Hin).
Qed.

(** Every pending row is stored with an offset and is due after [n]. *)
Definition all_future (n : Z) (db : Db) : Prop :=
  forall k r, rows db !! k = Some r -> r_status r = Pending ->
              is_Some (tzoff (r_time r)) /\ n < instant (r_time r).

Lemma handle_missed_future w :
  w_busy w = [] -> all_future (w_now w) (w_db w) ->
  let items := merge_sort iso_le (omap (pending_join (w_db w)) (map_to_list (rows (w_db w)))) in
  exists act, handle_missed_reminders w
  = (Ok tt, set_active act (set_timers (w_timers w ++ future_timers (w_next_timer w) items)
                                       (w_next_timer w + List.length items) w)).
Proof.
  intros Hb Hall items.
  assert (Hf : Forall (is_future (w_now w)) items).
  { apply Forall_forall. intros it Hit.
    destruct (listed_pending _ _ Hit) as (k & r & Hk & Hp & Ht).
    unfold is_future. rewrite Ht. by apply (Hall k r). }
  destruct (handle_all_future items w Hf) as [act Hr].
  exists act. unfold handle_missed_reminders, now. py_run.
  by rewrite (db_read_nil _ items w Hb eq_refl), Hr.
Qed.

Lemma filter_length_pos {A} (P : A -> Prop) `{!forall x, Decision (P x)} (l : list A) x :
  x ∈ l -> P x -> (1 <= List.length (filter P l))%nat.
Proof.
  intros Hx Hp. assert (Hin : x ∈ filter P l) by (by apply list_elem_of_filter).
  destruct (filter P l); [by apply elem_of_nil in Hin | cbn; lia].
Qed.

(** C30 Running the recovery twice (a restart of the bot while its timers
    are alive, or a second call) arms every pending reminder twice more:
    [schedule_reminder] keeps the earlier timers, so the reminder is
    delivered once per run.  The database is unchanged. *)
Theorem handle_missed_twice w k r :
  db_wf (w_db w) -> w_busy w = [] -> all_future (w_now w) (w_db w) ->
  rows (w_db w) !! k = Some r -> r_status r = Pending ->
  let w2 := snd (handle_missed_reminders (snd (handle_missed_reminders w))) in
  (List.length (timers_for k (w_timers w)) + 2 <= List.length (timers_for k (w_timers w2)))%nat
  /\ w_db w2 = w_db w.
Proof.
  intros Hwf Hb Hall Hk Hp.
  destruct (handle_missed_future w Hb Hall) as [act1 H1].
  cbv zeta. rewrite H1. cbn [snd].
  match goal with |- context [handle_missed_reminders ?w1] =>
    destruct (handle_missed_future w1 Hb Hall) as [act2 H2]; rewrite H2 end.
  cbn [snd w_timers w_db w_next_timer set_active set_timers]. split; [| done].
  rewrite <- app_assoc, !timers_for_app, !length_app, !timers_for_future.
  destruct (pending_listed _ _ _ Hwf Hk Hp) as (it & Hit & Hid & _).
  pose proof (filter_length_pos (fun it => p_id it = k) _ it Hit Hid). lia.
Qed.

(** C31 A missed daily, weekly or monthly reminder whose next occurrence is
    also past (the bot was down for longer than the interval) is reported
    and completed, and no next occurrence is created: the recurring
    series ends. *)
Theorem handle_one_series_dies it w r rt k nt :
  db_wf (w_db w) -> w_busy w = [] -> w_sink_up w = true ->
  rows (w_db w) !! p_id it = Some r -> r_status r = Pending ->
  is_Some (tzoff (p_time it)) -> instant (p_time it) < w_now w ->
  p_rtype it = Some rt -> rt <> "" -> p_rinterval it = Some k ->
  calculate_next_occurrence (p_time it) rt k = Ok (Some nt) -> instant nt <= w_now w ->
  let w' := snd (handle_one (w_now w) it w) in
  rows (w_db w') = <[p_id it := set_status Completed r]> (rows (w_db w))
  /\ w_outbox w' = (w_outbox w ++ [(p_user it, missed_text (p_time it) (p_message it))])%list
  /\ w_timers w' = w_timers w.
Proof.
  intros Hwf Hbusy Hsink Hr Hp [o Ho] Hlt Hrt Hne Hri Hnext Hle.
  pose proof (wf_check _ Hwf _ _ Hr) as Hck.
  apply String.eqb_neq in Hne.
  destruct w as [db busy act timers nx out sink uuid un nw ud]; cbn in *; subst.
  destruct it as [id user msg t tz prio rt0 ri]; cbn in *; subst.
  unfold handle_one, localize_item, missed_successor, next_occurrence_call, send_message,
    db_call, safe_db_operation.
  py_run. rewrite Ho. cbn. rewrite (proj2 (Z.ltb_lt _ _) Hlt). cbn. rewrite Hne, Hnext. cbn.
  rewrite (proj2 (Z.ltb_ge _ _) Hle). cbn.
  unfold mark_reminder_complete.
  rewrite (update_row_hit _ _ _ _ r); [| done | by apply is_pending_true | done].
  cbn. repeat split.
Qed.

(** C32 A missed recurring reminder whose owner is at the quota: the next
    occurrence is due, [save_reminder] raises [ReminderLimitError], and
    the exception leaves the loop.  The row is not completed (the next
    start reports it again) and no later reminder of the list is armed. *)
Theorem handle_all_quota_abort it rest w r u rt k nt :
  db_wf (w_db w) -> w_busy w = [] -> w_sink_up w = true ->
  rows (w_db w) !! p_id it = Some r -> r_status r = Pending -> r_end r = None ->
  users (w_db w) !! p_user it = Some u -> u_max u <= u_count u ->
  is_Some (tzoff (p_time it)) -> instant (p_time it) < w_now w ->
  p_rtype it = Some rt -> rt <> "" -> p_rinterval it = Some k ->
  calculate_next_occurrence (p_time it) rt k = Ok (Some nt) -> w_now w < instant nt ->
  let '(res, w') := handle_all (w_now w) (it :: rest) w in
  res = Raise (ReminderLimitError "Maximum number of reminders reached")
  /\ w_db w' = w_db w /\ w_timers w' = w_timers w
  /\ w_outbox w' = (w_outbox w ++ [(p_user it, missed_text (p_time it) (p_message it))])%list.
Proof.
  intros Hwf Hbusy Hsink Hr Hp Hend Hu Hq [o Ho] Hlt Hrt Hne Hri Hnext Hgt.
  apply String.eqb_neq in Hne.
  destruct w as [db busy act timers nx out sink uuid un nw ud]; cbn in *; subst.
  destruct it as [id user msg t tz prio rt0 ri]; cbn in *; subst.
  unfold handle_all, handle_one, localize_item, missed_successor, next_occurrence_call,
    send_message, db_call, db_read, fresh_uuid, safe_db_operation.
  py_run. rewrite Ho. cbn. rewrite (proj2 (Z.ltb_lt _ _) Hlt). cbn. rewrite Hne, Hnext. cbn.
  rewrite (proj2 (Z.ltb_lt _ _) Hgt). cbn.
  unfold should_create_next_occurrence. rewrite Hr, Hend. cbn.
  unfold save_reminder. rewrite Hu, (proj2 (Z.leb_le _ _) Hq). cbn.
  repeat split.
Qed.

End Runs.

(** ** The order of the recovery *)

Definition dt_ist : datetime := mkdt (mknaive (mkdate 2024 3 1) 10 0 0) (Some 19800).
Definition dt_utc : datetime := mkdt (mknaive (mkdate 2024 3 1) 6 0 0) (Some 0).

Definition db_mixed : Db :=
  mkdb {[ 7 := mkuser (Some "Asia/Kolkata") 50 1; 8 := mkuser (Some "UTC") 50 1 ]}
       {[ "a" := mkrow "a" 7 "Pay rent" dt_ist Pending "high" None None None None;
          "b" := mkrow "b" 8 "Call home" dt_utc Pending "low" None None None None ]}.

(** [ORDER BY reminder_time] compares the stored text, not the
    instants: with owners in different zones, a reminder due at 06:00 UTC
    is listed before one due at 04:30 UTC (10:00 in India), so missed
    reminders are reported, and the loop reaches them, out of order. *)
Example get_all_pending_not_chronological :
  get_all_pending_reminders db_mixed
  = Ok [mkpend "b" 8 "Call home" dt_utc (Some "UTC") "low" None None;
        mkpend "a" 7 "Pay rent" dt_ist (Some "Asia/Kolkata") "high" None None]
  /\ instant dt_ist < instant dt_utc.
Proof. split; vm_compute; reflexivity. Qed.

(** ** Witnesses *)

#[local] Existing Instance utc_db.

Definition world_at (r : reminder_row) (u : user_row) (n : Z) : World :=
  mkworld (mkdb {[ 7 := u ]} {[ "r1" := r ]}) [] ∅ [] 0 [] true (fun _ => "n1") 0 n ∅.

Definition item_daily : pending_item :=
  mkpend "r1" 7 "Standup" dt0 (Some "UTC") "medium" (Some "day") (Some 1).

Lemma all_future_one r u n :
  is_Some (tzoff (r_time r)) -> n < instant (r_time r) -> all_future n (mkdb {[ 7 := u ]} {[ "r1" := r ]}).
Proof. intros Ho Hlt k r' Hk _. cbn in Hk. by apply lookup_singleton_Some in Hk as [_ <-]. Qed.

Example handle_missed_twice_witness :
  let w := world_at row0 user0 (instant dt0 - 3600) in
  let w2 := snd (handle_missed_reminders (snd (handle_missed_reminders w))) in
  (List.length (timers_for "r1" (w_timers w)) + 2 <= List.length (timers_for "r1" (w_timers w2)))%nat
  /\ w_db w2 = w_db w.
Proof.
  apply (handle_missed_twice (world_at row0 user0 (instant dt0 - 3600)) "r1" row0);
    [close_hyp | close_hyp | | close_hyp | close_hyp].
  apply all_future_one; [eexists; reflexivity | vm_compute; reflexivity].
Defined.

Example handle_one_series_dies_witness :
  let w := world_at rowR user0 (instant dt0 + 4 * 86400) in
  let w' := snd (handle_one (w_now w) item_daily w) in
  rows (w_db w') = <["r1" := set_status Completed rowR]> (rows (w_db w))
  /\ w_outbox w' = (w_outbox w ++ [(7, missed_text dt0 "Standup")])%list
  /\ w_timers w' = w_timers w.
Proof. apply (handle_one_series_dies item_daily _ rowR "day" 1 dt1); close_hyp. Defined.

Example handle_all_quota_abort_witness :
  let w := world_at rowR (mkuser (Some "UTC") 1 1) (instant dt0 + 3600) in
  let '(res, w') := handle_all (w_now w) [item_daily] w in
  res = Raise (ReminderLimitError "Maximum number of reminders reached")
  /\ w_db w' = w_db w /\ w_timers w' = w_timers w
  /\ w_outbox w' = (w_outbox w ++ [(7, missed_text dt0 "Standup")])%list.
Proof.
  apply (handle_all_quota_abort item_daily [] _ rowR (mkuser (Some "UTC") 1 1) "day" 1 dt1);
    close_hyp.
Defined.

End Recovery.
