(* ===== verification/Handlers.v ===== *)
(** * Handlers of chat updates

    [Module Handlers] models the handlers of [src/bot.py] that change
    the scheduler or the store: the [cancel_] branch of
    [button_callback] (558-567), [/cancel] ([cancel_reminder], 686-698)
    and the reminder-setting block of [handle_message] (1072-1174): the
    natural-language branch, [parse_reminder], the time and date fields
    read with [strptime], then save, schedule and reply.  Each
    is a computation of [pyst World]; every one of them preserves any
    relation that [Respects] the primitives.  The theorems give the
    behaviour of the cancel paths (the button leaves the timer, [/cancel]
    has no owner check) and of setting a reminder at the quota. *)

From S2P Require Import Spec2Rocq Calendar Text Strptime Parse Nlp Recurrence Store Scheduler.

Module Handlers.
Import Text Strptime Parse Nlp Store Recurrence Scheduler.

(** ** Handlers *)

(** [query.edit_message_text] / [update.message.reply_text] to the chat. *)
Definition reply (chat : Z) (text : string) : M unit := send_message chat text.

(** bot.py 558-567, the [cancel_] branch of [button_callback]: the
    dictionary value is the metadata dictionary, which has no [cancel]
    method. *)
Definition cancel_button (chat : Z) (reminder_id : string) : M unit :=
  db_call (CallDelete reminder_id None) ≫= fun (ok : bool) =>
  if ok then
    (is_active reminder_id ≫= fun (act : bool) =>
     if act then py_raise (AttributeError "'dict' object has no attribute 'cancel'")
     else reply chat "✅ Reminder cancelled.")
  else reply chat "❌ Reminder not found or already cancelled.".

(** bot.py 686-698, [/cancel <id>]: no owner filter, no timer touched. *)
Definition cancel_reminder (chat user_id : Z) (args : list string) : M unit :=
  match args with
  | [] => reply chat "Please provide a reminder ID. Use /list to see your reminders and their IDs."
  | reminder_id :: _ =>
      db_call (CallDelete reminder_id None) ≫= fun (ok : bool) =>
      if ok then reply chat ("✅ Reminder " +:+ reminder_id +:+ " cancelled.")
      else reply chat "❌ Reminder not found. Use /list to see your active reminders."
  end.

(** One reminder of [parse_reminder]'s result: its wall clock (the
    parsed [time:], with the [date:] or today's date), whether a [date:]
    was given, and its message. *)
Record parsed_item := mkitem { it_wall : naive; it_has_date : bool; it_message : string }.

Section WithZones2.

Context `{TzDatabase}.

(** bot.py 1115-1168: the body of the loop over the parsed reminders
    ([priority] is always [medium] and [recurrence_type] [None], since
    [parse_reminder] sets neither; [recurrence_interval] defaults to 1). *)
Definition set_one_reminder (chat user : Z) (tz : string) (n : Z) (item : parsed_item) : M unit :=
  reminder_time ← py_lift (fun w => match localize tz (it_wall item) with
                                    | Ok d => Ok (d, w)
                                    | Raise e => Raise e
                                    end);
  let reminder_time :=
    if instant reminder_time <? n
    then (if it_has_date item then reminder_time else dt_add reminder_time 86400)
    else reminder_time in
  if instant reminder_time <? n then
    reply chat ("❌ Cannot set reminder for past time: " +:+ it_message item)
  else
    (reminder_id ← fresh_uuid;
     db_call (CallSave user reminder_id (it_message item) reminder_time "medium" None (Some 1) None);;
     schedule_reminder chat user reminder_id reminder_time (it_message item) "medium" None (Some 1);;
     reply chat (priority_emoji "medium" +:+ " Reminder set for " +:+ fmt_date (wall reminder_time)
                 +:+ " at " +:+ fmt_time (wall reminder_time) +:+ ":" +:+ newline
                 +:+ it_message item +:+ newline +:+ "ID: `" +:+ reminder_id +:+ "`")).

(** A computation that does not touch the world. *)
Definition py_exc {A} (e : exc A) : M A := fun w => (e, w).

(** bot.py 1083-1090: the [time:] field is tried with [%I:%M%p], then
    [%I:%M %p], then [%H:%M]; only a [ValueError] moves to the next. *)
Definition parse_time_field (s : string) : exc stm :=
  match strptime s "%I:%M%p" with
  | Raise (ValueError _) =>
      match strptime s "%I:%M %p" with
      | Raise (ValueError _) => strptime s "%H:%M"
      | r => r
      end
  | r => r
  end.

(** bot.py 1081-1112: the clock time of the reminder on its [date:]
    (with [continue] after an invalid date) or on today's date of the
    user, then the rest of the loop body ([set_one_reminder]). *)
Definition set_one_parsed (chat user : Z) (tz : string) (n : Z) (local_now : naive)
    (pr : parsed_reminder) : M unit :=
  t ← py_exc (parse_time_field (pr_time pr));
  match pr_date pr with
  | Some ds =>
      match strptime ds "%d/%m/%Y" with
      | Ok dd => set_one_reminder chat user tz n
                   (mkitem (mknaive (st_date dd) (st_hour t) (st_minute t) 0) true (pr_message pr))
      | Raise (ValueError _) => reply chat ("❌ Invalid date format: " +:+ ds +:+ ". Use DD/MM/YYYY")
      | Raise e => py_raise e
      end
  | None => set_one_reminder chat user tz n
              (mkitem (mknaive (ndate local_now) (st_hour t) (st_minute t) 0) false (pr_message pr))
  end.

Fixpoint set_parsed (chat user : Z) (tz : string) (n : Z) (local_now : naive)
    (rs : list parsed_reminder) : M unit :=
  match rs with
  | [] => mret tt
  | pr :: rest => set_one_parsed chat user tz n local_now pr;; set_parsed chat user tz n local_now rest
  end.

(** bot.py 1077-1079: a text without [time:] and without [date:] goes
    through [ReminderParser]; [server_today n] is [datetime.now().date()]
    on the server's clock. *)
Definition structured_text (server_today : Z -> date) (n : Z) (local_now : naive) (message_text : string)
    : exc string :=
  if negb (contains "time:" message_text) && negb (contains "date:" message_text) then
    parsed ← parse_natural_time message_text local_now;
    format_reminder_text (server_today n) parsed
  else Ok message_text.

(** bot.py 1072-1174: the [try] block of [handle_message] that sets the
    reminders of a message, from the time-zone lookup to the error
    reply. *)
Definition handle_set_reminders (server_today : Z -> date) (chat user : Z) (message_text : string) : M unit :=
  py_try
    (tz ← get_user_timezone_call user;
     match tz with
     | None => py_raise UnknownTimeZoneError
     | Some name =>
         n ← now;
         match to_local name n with
         | None => py_raise UnknownTimeZoneError
         | Some local_now =>
             text ← py_exc (structured_text server_today n local_now message_text);
             rs ← py_exc (parse_reminder text);
             match rs with
             | [] => py_raise (ValueError "No valid reminders found")
             | _ => set_parsed chat user name n local_now rs
             end
         end
     end)
    (fun _ => reply chat "❌ Error setting reminder. Use /format to see the correct format.").

End WithZones2.

Section PreservesHandlers.
Context (R : World -> World -> Prop) `{!PreOrder R} `{!Respects R} `{TzDatabase}.

Lemma preserves_cancel_button chat rid : preserves R (cancel_button chat rid).
Proof. unfold cancel_button, is_active, reply. preserves_tac_with fail. Qed.

Lemma preserves_cancel_reminder chat uid args : preserves R (cancel_reminder chat uid args).
Proof. unfold cancel_reminder, reply. preserves_tac_with fail. Qed.

Lemma preserves_set_one_reminder chat user tz n item :
  preserves R (set_one_reminder chat user tz n item).
Proof.
  unfold set_one_reminder, fresh_uuid, reply.
  preserves_tac_with ltac:(papply preserves_schedule_reminder).
Qed.

Lemma preserves_set_parsed chat user tz n ln rs :
  preserves R (set_parsed chat user tz n ln rs).
Proof.
  induction rs as [|pr rest IH]; cbn; [papply preserves_ret |].
  papply preserves_bind; [| intros _; exact IH].
  unfold set_one_parsed, py_exc, reply.
  preserves_tac_with ltac:(papply preserves_set_one_reminder).
Qed.

Lemma preserves_handle_set_reminders st chat user text :
  preserves R (handle_set_reminders st chat user text).
Proof.
  unfold handle_set_reminders, get_user_timezone_call, now, reply, py_exc.
  preserves_tac_with ltac:(papply preserves_set_parsed).
Qed.

End PreservesHandlers.

(** ** Functional behaviour *)

Section Behaviour.
Context `{TzDatabase}.

Lemma cancel_button_spec chat rid w r e :
  db_wf (w_db w) -> w_busy w = [] ->
  rows (w_db w) !! rid = Some r -> r_status r = Pending -> w_active w !! rid = Some e ->
  cancel_button chat rid w =
  (Raise (AttributeError "'dict' object has no attribute 'cancel'"),
   set_db (mkdb (trigger_update r (set_status Cancelled r) (users (w_db w)))
                (<[rid := set_status Cancelled r]> (rows (w_db w)))) [] w).
Proof.
  intros Hwf Hbusy Hr Hp He.
  pose proof (wf_check _ Hwf _ _ Hr) as Hck.
  unfold cancel_button, is_active. py_run. rewrite db_call_nil by done. cbn.
  unfold delete_reminder.
  rewrite (update_row_hit _ _ _ _ r); [| done | cbn; by apply is_pending_true | done]. cbn.
  by rewrite bool_decide_true by (rewrite He; by eexists).
Qed.

(** C34 [/cancel <id>] cancels the pending reminder [id] whoever sends it
    (no owner filter), and leaves its timer and dictionary entry: the
    cancelled reminder is still delivered. *)
Theorem cancel_command_any_user chat uid rid rest w r :
  db_wf (w_db w) -> w_busy w = [] -> w_sink_up w = true ->
  rows (w_db w) !! rid = Some r -> r_status r = Pending ->
  let w' := snd (cancel_reminder chat uid (rid :: rest) w) in
  rows (w_db w') = <[rid := set_status Cancelled r]> (rows (w_db w))
  /\ w_timers w' = w_timers w /\ w_active w' = w_active w
  /\ w_outbox w' = (w_outbox w ++ [(chat, "✅ Reminder " +:+ rid +:+ " cancelled.")])%list.
Proof.
  intros Hwf Hbusy Hsink Hr Hp.
  pose proof (wf_check _ Hwf _ _ Hr) as Hck.
  unfold cancel_reminder, reply. py_run. rewrite db_call_nil by done. cbn.
  unfold delete_reminder.
  rewrite (update_row_hit _ _ _ _ r); [| done | cbn; by apply is_pending_true | done]. cbn.
  unfold send_message; cbn. rewrite Hsink. cbn. repeat split.
Qed.

Lemma set_one_reminder_at_quota chat user tz n item w u o :
  w_busy w = [] -> users (w_db w) !! user = Some u -> u_max u <= u_count u ->
  tz_localize tz (it_wall item) = Some o -> n <= instant (mkdt (it_wall item) (Some o)) ->
  exists w1, set_one_reminder chat user tz n item w
             = (Raise (ReminderLimitError "Maximum number of reminders reached"), w1)
    /\ w_db w1 = w_db w /\ w_busy w1 = w_busy w /\ w_timers w1 = w_timers w
    /\ w_active w1 = w_active w /\ w_outbox w1 = w_outbox w /\ w_sink_up w1 = w_sink_up w.
Proof.
  intros Hbusy Hu Hq Hloc Hle.
  assert (Hs : forall rid m t p rt ri par, save_reminder user rid m t p rt ri par (w_db w)
                 = Raise (ReminderLimitError "Maximum number of reminders reached"))
    by (intros; by apply (save_reminder_at_quota _ u)).
  destruct w as [db busy act timers nx out sink uuid un nw ud]; cbn in *; subst.
  unfold set_one_reminder, localize, fresh_uuid, db_call, run_call, safe_db_operation,
    mbind, mret, pyst_bind, pyst_ret, py_bind, py_ret, py_lift.
  cbn -[save_reminder]. rewrite Hloc. cbn -[save_reminder].
  repeat (rewrite (proj2 (Z.ltb_ge _ _) Hle); cbn -[save_reminder]).
  rewrite Hs. cbn. eexists. repeat split.
Qed.

(** C7 A reminder set by a user at the quota is refused: [save_reminder]
    raises [ReminderLimitError] inside the [try] of [handle_message], the
    user gets the generic error reply, and neither the database (counter
    included) nor the timers change. *)
Theorem handle_set_reminders_at_quota st chat user text pr t w tz o u local :
  w_busy w = [] -> w_sink_up w = true ->
  users (w_db w) !! user = Some u -> u_timezone u = Some tz -> u_max u <= u_count u ->
  to_local tz (w_now w) = Some local -> contains "time:" text = true ->
  parse_reminder text = Ok [pr] -> pr_date pr = None -> parse_time_field (pr_time pr) = Ok t ->
  let wall := mknaive (ndate local) (st_hour t) (st_minute t) 0 in
  tz_localize tz wall = Some o -> w_now w <= instant (mkdt wall (Some o)) ->
  let w' := snd (handle_set_reminders st chat user text w) in
  w_db w' = w_db w /\ w_timers w' = w_timers w /\ w_active w' = w_active w
  /\ w_outbox w' = (w_outbox w ++ [(chat, "❌ Error setting reminder. Use /format to see the correct format.")])%list.
Proof.
  intros Hbusy Hsink Hu Htz Hq Hlocal Htime Hparse Hdate Ht wall Hloc Hle.
  destruct (set_one_reminder_at_quota chat user tz (w_now w) (mkitem wall false (pr_message pr)) w u o)
    as (w1 & Hrun & Hdb & Hb & Htm & Ha & Ho & Hs); [done .. |].
  assert (Hg : get_user_timezone user (w_db w) = Some tz) by (unfold get_user_timezone; by rewrite Hu).
  unfold handle_set_reminders, get_user_timezone_call, db_read, now, reply, py_exc, structured_text.
  unfold mbind, mret, pyst_bind, pyst_ret, py_bind, py_ret, py_try, py_raise.
  cbn -[to_local contains parse_reminder parse_natural_time set_one_parsed get_user_timezone].
  rewrite Hbusy. cbn -[to_local contains parse_reminder parse_natural_time set_one_parsed get_user_timezone].
  assert (Hsb : set_busy [] w = w) by (destruct w; cbn in *; by subst). rewrite Hsb.
  rewrite Hg, Hlocal, Htime. cbn -[parse_reminder set_one_parsed]. rewrite Hparse. cbn -[set_one_parsed].
  unfold set_one_parsed, py_exc. py_run. rewrite Ht, Hdate. cbn -[set_one_reminder].
  fold wall. rewrite Hrun. unfold send_message. cbn. rewrite Hs, Hsink. cbn.
  rewrite Hdb, Htm, Ha, Ho. repeat split.
Qed.

End Behaviour.

(** ** Witnesses *)

#[local] Existing Instance utc_db.

Example cancel_command_any_user_witness :
  let w := world_of row0 args0 user0 in
  let w' := snd (cancel_reminder 99 13 ["r1"] w) in
  rows (w_db w') = <["r1" := set_status Cancelled row0]> (rows (w_db w))
  /\ w_timers w' = w_timers w /\ w_active w' = w_active w
  /\ w_outbox w' = (w_outbox w ++ [(99, "✅ Reminder " +:+ "r1" +:+ " cancelled.")])%list.
Proof. apply (cancel_command_any_user 99 13 "r1" [] _ row0); close_hyp. Defined.

Example handle_set_reminders_at_quota_witness :
  let w := world_of row0 args0 (mkuser (Some "UTC") 1 1) in
  let w' := snd (handle_set_reminders (fun _ => mkdate 2024 3 1) 42 7 (join newline ["time: 6:00pm"; "Buy milk"]) w) in
  w_db w' = w_db w /\ w_timers w' = w_timers w /\ w_active w' = w_active w
  /\ w_outbox w' = (w_outbox w ++ [(42, "❌ Error setting reminder. Use /format to see the correct format.")])%list.
Proof.
  apply (handle_set_reminders_at_quota _ 42 7 _ (mkparsed None "6:00pm" " Buy milk") (mkstm 1900 1 1 18 0)
           _ "UTC" 0 (mkuser (Some "UTC") 1 1) (mknaive (mkdate 2024 3 1) 9 0 0)); close_hyp.
Defined.

End Handlers.
