(* ===== verification/Callbacks.v ===== *)
(** * The inline-button handler [button_callback]

    [Module Callbacks] models [button_callback] (bot.py 415-567): the
    chain of [startswith] tests on the callback data, in the order of the
    code, and each branch as a computation of [pyst World]: the time-zone
    buttons, the edit menu and its sub-menus (which write the edit state
    in [context.user_data]), the [set_recur_] and [set_prio_] buttons,
    which unpack [query.data.split('_')], and the cancel button of
    [Handlers].  The theorems show the effect of the order of the tests
    (the [edit_] test comes first and catches every [edit_time_],
    [edit_msg_], ... button) and of the unpacking (the buttons the code
    itself builds always have too many fields). *)

From S2P Require Import Spec2Rocq.
From Stdlib Require Import Ascii.
From S2P Require Import Calendar Text Nlp Recurrence Store Scheduler Handlers.

Module Callbacks.
Import Text Nlp Store Recurrence Scheduler Handlers.

(** ** Tables *)

(** [TIMEZONE_SUGGESTIONS] (bot.py 285-294), in its order. *)
Definition TIMEZONE_SUGGESTIONS : list (string * string) :=
  [("Asia/Kolkata", "🇮🇳 India (IST)"); ("America/New_York", "🇺🇸 New York (EST/EDT)");
   ("Europe/London", "🇬🇧 London (GMT/BST)"); ("Asia/Dubai", "🇦🇪 Dubai (GST)");
   ("Asia/Singapore", "🇸🇬 Singapore (SGT)"); ("Australia/Sydney", "🇦🇺 Sydney (AEST)");
   ("Europe/Paris", "🇫🇷 Paris (CET/CEST)"); ("Asia/Tokyo", "🇯🇵 Tokyo (JST)")].

(** [d.get(k, '')] on an association list. *)
Definition assoc_get (d : list (string * string)) (k : string) : string :=
  match List.find (fun kv => String.eqb (fst kv) k) d with Some (_, v) => v | None => "" end.

(** [PRIORITY_EMOJIS[p]]: a missing key raises [KeyError]. *)
Definition priority_emoji_strict (p : string) : exc string :=
  if String.eqb p "high" || String.eqb p "medium" || String.eqb p "low" then Ok (priority_emoji p)
  else Raise (KeyError p).

(** ** Python helpers *)

(** The [ValueError] of [a, b, c = xs] when [xs] has [n] elements and
    [k] names are unpacked. *)
Definition unpack_error (k n : nat) : py_exn :=
  if (k <? n)%nat then ValueError ("too many values to unpack (expected " +:+ str_int (Z.of_nat k) +:+ ")")
  else ValueError ("not enough values to unpack (expected " +:+ str_int (Z.of_nat k) +:+ ", got "
                   +:+ str_int (Z.of_nat n) +:+ ")").

(** [int(s)] *)
Definition py_int (s : string) : exc Z :=
  match int_of_string s with
  | Some n => Ok n
  | None => Raise (ValueError ("invalid literal for int() with base 10: '" +:+ s +:+ "'"))
  end.

(** [get_reminder_by_id(reminder_id)] through the decorator. *)
Definition get_reminder_call (rid : string) : M (option reminder_view) :=
  db_read (fun db => Ok (get_reminder_by_id rid None db)).

(** ** The branches *)

Section Branches.
Context `{TzDatabase}.

(** bot.py 419-426 *)
Definition tz_button (chat user : Z) (timezone : string) : M unit :=
  db_call (CallSetTimezone user timezone);;
  reply chat ("✅ Time zone set to " +:+ timezone +:+ " (" +:+ assoc_get TIMEZONE_SUGGESTIONS timezone
              +:+ ")." +:+ newline +:+ newline
              +:+ "You can now set reminders! Use /format to see reminder formats.").

(** The text of the edit menu (bot.py 449-465). *)
Definition edit_text (r : reminder_view) : string :=
  "*Editing Reminder*" +:+ newline +:+ newline +:+ "Current settings:" +:+ newline
  +:+ "🕐 Time: " +:+ fmt_time (wall (v_time r)) +:+ newline
  +:+ "📅 Date: " +:+ fmt_date (wall (v_time r)) +:+ newline
  +:+ priority_emoji (v_priority r) +:+ " Priority: " +:+ v_priority r +:+ newline
  +:+ "📝 Message: " +:+ v_message r +:+ newline
  +:+ (if truthy_str (v_rtype r)
       then "🔄 Repeats: Every " +:+ str_interval (v_rinterval r) +:+ " " +:+ default "" (v_rtype r)
            +:+ "(s)" +:+ newline
       else "")
  +:+ newline +:+ "What would you like to change?".

(** bot.py 427-471: the edit state replaces the user's dictionary. *)
Definition edit_button (chat user : Z) (reminder_id : string) : M unit :=
  reminder ← get_reminder_call reminder_id;
  match reminder with
  | None => reply chat "❌ Reminder not found or already completed."
  | Some r => put_user_state user (mkustate (Some reminder_id) None None);; reply chat (edit_text r)
  end.

(** [context.user_data[user_id]['edit_action'] = action]: [KeyError]
    when the user has no dictionary. *)
Definition set_edit_action (user : Z) (action : string) : M unit :=
  st ← get_user_state user;
  match st with
  | None => py_raise (KeyError (str_int user))
  | Some s => put_user_state user (mkustate (us_editing s) (Some action) (us_quick s))
  end.

(** bot.py 473-483 *)
Definition edit_time_button (chat user : Z) : M unit :=
  set_edit_action user "time";;
  reply chat ("Please send the new time for this reminder in one of these formats:" +:+ newline
              +:+ "• 3:00pm" +:+ newline +:+ "• 15:00" +:+ newline +:+ "• tomorrow 3pm" +:+ newline
              +:+ "• 25/02/2024 3:00pm" +:+ newline +:+ newline +:+ "Or use the quick time buttons below:").

(** bot.py 485-490 *)
Definition edit_msg_button (chat user : Z) : M unit :=
  set_edit_action user "message";;
  reply chat "Please send the new message for this reminder.".

(** bot.py 514-538 *)
Definition set_recur_button (chat user : Z) (data : string) : M unit :=
  match split_on "_"%char data with
  | [_; reminder_id; rec_type; interval] =>
      (if String.eqb rec_type "none"
       then db_call (CallUpdate reminder_id None [URecType None; URecInterval None])
       else n ← py_exc (py_int interval);
            db_call (CallUpdate reminder_id None [URecType (Some rec_type); URecInterval (Some n)]))
      ≫= fun (success : bool) =>
      if success then
        (reminder ← get_reminder_call reminder_id;
         match reminder with
         | Some r =>
             (if String.eqb rec_type "none"
              then schedule_reminder chat user reminder_id (v_time r) (v_message r) (v_priority r) None None
              else n ← py_exc (py_int interval);
                   schedule_reminder chat user reminder_id (v_time r) (v_message r) (v_priority r)
                                     (Some rec_type) (Some n))
         | None => mret tt
         end;;
         reply chat "✅ Recurrence pattern updated! Use /list to see your reminders.")
      else reply chat "❌ Failed to update reminder. It might have been cancelled or completed."
  | parts => py_raise (unpack_error 4 (List.length parts))
  end.

(** bot.py 540-546 *)
Definition set_prio_button (chat : Z) (data : string) : M unit :=
  match split_on "_"%char data with
  | [_; reminder_id; priority] =>
      db_call (CallUpdate reminder_id None [UPriority (Some priority)]) ≫= fun (success : bool) =>
      if success then
        (emoji ← py_exc (priority_emoji_strict priority);
         reply chat ("✅ Priority updated to " +:+ emoji +:+ " " +:+ priority
                     +:+ "! Use /list to see your reminders."))
      else reply chat "❌ Failed to update reminder. It might have been cancelled or completed."
  | parts => py_raise (unpack_error 3 (List.length parts))
  end.

(** bot.py 548-552 *)
Definition edit_cancel_button (chat user : Z) : M unit :=
  pop_user_state user;;
  reply chat "✅ Edit cancelled. Use /list to see your reminders.".

(** bot.py 415-567: the first test that holds selects the branch. *)
Definition button_callback (chat user : Z) (data : string) : M unit :=
  if startswith data "tz_" then tz_button chat user (drop 3 data)
  else if startswith data "edit_" then edit_button chat user (drop 5 data)
  else if startswith data "edit_time_" then edit_time_button chat user
  else if startswith data "edit_msg_" then edit_msg_button chat user
  else if startswith data "edit_recur_" then reply chat "Choose the recurrence pattern:"
  else if startswith data "edit_prio_" then reply chat "Choose the priority level:"
  else if startswith data "set_recur_" then set_recur_button chat user data
  else if startswith data "set_prio_" then set_prio_button chat data
  else if startswith data "edit_cancel_" then edit_cancel_button chat user
  else if startswith data "cancel_" then cancel_button chat (drop 7 data)
  else mret tt.

End Branches.

Section PreservesCallbacks.
Context (R : World -> World -> Prop) `{!PreOrder R} `{!Respects R} `{TzDatabase}.

Lemma preserves_button_callback chat user data : preserves R (button_callback chat user data).
Proof.
  unfold button_callback, tz_button, edit_button, edit_time_button, edit_msg_button, set_edit_action,
    set_recur_button, set_prio_button, edit_cancel_button, get_reminder_call, get_user_state,
    put_user_state, pop_user_state, py_modify, py_exc, reply.
  preserves_tac_with ltac:(first [papply preserves_schedule_reminder | papply preserves_cancel_button]).
Qed.

End PreservesCallbacks.

(** ** Dispatch *)

Section Dispatch.
Context `{TzDatabase}.

Lemma startswith_lit_ne p q s :
  String.prefix q p = false -> String.prefix p q = false -> startswith (p +:+ s) q = false.
Proof.
  revert q. induction p as [|c p IH]; intros q Hqp Hpq; [by rewrite prefix_empty in Hpq |].
  destruct q as [|c' q]; [done |]. unfold startswith. str_simpl.
  cbn in Hqp, Hpq. destruct (Ascii.ascii_dec c' c) as [<- |]; [| done].
  destruct (Ascii.ascii_dec c' c'); [| done]. by apply IH.
Qed.

(** Every [edit_...] button runs the edit-menu branch. *)
Lemma button_callback_edit chat user s :
  button_callback chat user ("edit_" +:+ s) = edit_button chat user s.
Proof.
  unfold button_callback. rewrite startswith_lit_ne by reflexivity.
  rewrite startswith_app. change 5%nat with (String.length "edit_"). by rewrite drop_app.
Qed.

Lemma get_reminder_call_nil rid w :
  w_busy w = [] -> get_reminder_call rid w = (Ok (get_reminder_by_id rid None (w_db w)), w).
Proof. intros Hb. by apply db_read_nil. Qed.

Lemma reply_up chat text w :
  w_sink_up w = true -> reply chat text w = (Ok tt, set_outbox (w_outbox w ++ [(chat, text)]) w).
Proof. intros Hs. unfold reply, send_message. by rewrite Hs. Qed.

(** The edit-menu branch on a pending reminder: the user's dictionary
    becomes [{'editing_reminder': rid}], and the menu is shown. *)
Lemma edit_button_found chat user rid w v :
  w_busy w = [] -> w_sink_up w = true -> get_reminder_by_id rid None (w_db w) = Some v ->
  edit_button chat user rid w
  = (Ok tt, set_outbox (w_outbox w ++ [(chat, edit_text v)])
              (set_user_data (<[user := mkustate (Some rid) None None]> (w_user_data w)) w)).
Proof.
  intros Hb Hs Hv. unfold edit_button, put_user_state. py_run.
  rewrite get_reminder_call_nil, Hv by done. cbn. rewrite reply_up by (destruct w; done).
  by destruct w.
Qed.

Lemma edit_button_missing chat user rid w :
  w_busy w = [] -> w_sink_up w = true -> get_reminder_by_id rid None (w_db w) = None ->
  edit_button chat user rid w
  = (Ok tt, set_outbox (w_outbox w ++ [(chat, "❌ Reminder not found or already completed.")]) w).
Proof.
  intros Hb Hs Hv. unfold edit_button. py_run. rewrite get_reminder_call_nil, Hv by done.
  by apply reply_up.
Qed.

Lemma button_callback_cancel chat user rid :
  button_callback chat user ("cancel_" +:+ rid) = cancel_button chat rid.
Proof.
  unfold button_callback. rewrite !startswith_lit_ne by reflexivity.
  rewrite startswith_app. change 7%nat with (String.length "cancel_"). by rewrite drop_app.
Qed.

Lemma button_callback_set_recur chat user s :
  button_callback chat user ("set_recur_" +:+ s) = set_recur_button chat user ("set_recur_" +:+ s).
Proof. unfold button_callback. rewrite !startswith_lit_ne by reflexivity. by rewrite startswith_app. Qed.

Lemma button_callback_set_prio chat user s :
  button_callback chat user ("set_prio_" +:+ s) = set_prio_button chat ("set_prio_" +:+ s).
Proof. unfold button_callback. rewrite !startswith_lit_ne by reflexivity. by rewrite startswith_app. Qed.

Lemma no_underscore_lit s : contains "_" s = false -> contains (String "_"%char "") s = false.
Proof. done. Qed.

(** The fields of the data the code writes into its recurrence and
    priority buttons. *)
Lemma split_button_data (pieces : list string) :
  pieces <> [] -> Forall (fun x => contains "_" x = false) pieces ->
  split_on "_"%char (String.concat "_" pieces) = pieces.
Proof. intros Hne Hp. apply split_on_concat; [done | exact Hp]. Qed.

End Dispatch.

(** ** Properties *)

Section Properties.
Context `{TzDatabase}.

(** C13 The buttons of the edit menu ("Change Time", "Change Message",
    "Change Recurrence", "Change Priority", "Cancel Editing", data
    [edit_time_<id>] and so on) never reach their branches: the test
    [startswith("edit_")] comes first and runs the edit-menu branch with
    the id ["time_<id>"], ...; no reminder has such an id, so the user is
    told the reminder is not found and nothing else changes. *)
Theorem edit_menu_buttons_shadowed chat user sub rid w :
  In sub ["time_"; "msg_"; "recur_"; "prio_"; "cancel_"] ->
  rows (w_db w) !! (sub +:+ rid) = None -> w_busy w = [] -> w_sink_up w = true ->
  button_callback chat user ("edit_" +:+ sub +:+ rid) w
  = (Ok tt, set_outbox (w_outbox w ++ [(chat, "❌ Reminder not found or already completed.")]) w).
Proof.
  intros _ Hr Hb Hs. rewrite button_callback_edit. apply edit_button_missing; [done | done |].
  by unfold get_reminder_by_id; rewrite Hr.
Qed.

(** C14 The recurrence and priority buttons the code builds
    ([set_recur_<id>_day_1], ..., [set_prio_<id>_high], ...) always have
    one field too many for the unpacking of [query.data.split('_')] (the
    prefix itself contains an underscore): [button_callback] raises
    [ValueError] before touching anything, so a recurrence or a priority
    can never be changed. *)
Theorem set_buttons_fail chat user rid w :
  contains "_" rid = false ->
  (forall unit iv, In (unit, iv) [("day", "1"); ("week", "1"); ("month", "1"); ("none", "0")] ->
     button_callback chat user ("set_recur_" +:+ rid +:+ "_" +:+ unit +:+ "_" +:+ iv) w
     = (Raise (ValueError "too many values to unpack (expected 4)"), w))
  /\ (forall p, In p ["high"; "medium"; "low"] ->
     button_callback chat user ("set_prio_" +:+ rid +:+ "_" +:+ p) w
     = (Raise (ValueError "too many values to unpack (expected 3)"), w)).
Proof.
  intros Hrid. split.
  - intros u iv Hc. rewrite button_callback_set_recur. unfold set_recur_button.
    replace ("set_recur_" +:+ rid +:+ "_" +:+ u +:+ "_" +:+ iv)
      with (String.concat "_" ["set"; "recur"; rid; u; iv]) by (cbn; by str_simpl).
    rewrite split_button_data; [reflexivity | done |].
    repeat constructor; try done; repeat destruct Hc as [[= <- <-] | Hc]; done.
  - intros p Hp. rewrite button_callback_set_prio. unfold set_prio_button.
    replace ("set_prio_" +:+ rid +:+ "_" +:+ p) with (String.concat "_" ["set"; "prio"; rid; p])
      by (cbn; by str_simpl).
    rewrite split_button_data; [reflexivity | done |].
    repeat constructor; try done; repeat destruct Hp as [<- | Hp]; done.
Qed.

End Properties.

(** ** Witnesses *)

#[local] Existing Instance utc_db.

Example edit_menu_buttons_shadowed_witness :
  let w := world_of row0 args0 user0 in
  button_callback 42 7 ("edit_" +:+ "time_" +:+ "r1") w
  = (Ok tt, set_outbox (w_outbox w ++ [(42, "❌ Reminder not found or already completed.")]) w).
Proof. apply edit_menu_buttons_shadowed; close_hyp. Defined.

Example set_buttons_fail_witness :
  let w := world_of row0 args0 user0 in
  (forall unit iv, In (unit, iv) [("day", "1"); ("week", "1"); ("month", "1"); ("none", "0")] ->
     button_callback 42 7 ("set_recur_" +:+ "r1" +:+ "_" +:+ unit +:+ "_" +:+ iv) w
     = (Raise (ValueError "too many values to unpack (expected 4)"), w))
  /\ (forall p, In p ["high"; "medium"; "low"] ->
     button_callback 42 7 ("set_prio_" +:+ "r1" +:+ "_" +:+ p) w
     = (Raise (ValueError "too many values to unpack (expected 3)"), w)).
Proof. apply set_buttons_fail. reflexivity. Defined.

End Callbacks.
