(* ===== verification/Messages.v ===== *)
(** * The text-message handler [handle_message]

    [Module Messages] models [handle_message] (bot.py 976-1174) as the
    code runs it: the edit flow when [context.user_data] holds an
    [editing_reminder] (981-1052: a new message or a new time, which is
    parsed by [ReminderParser] and re-armed), the quick-time buttons
    (1055-1065, with [process_quick_time], 955-974), the early return for
    messages that start with "remind" (1067-1070), and the
    reminder-setting block of [Handlers].  The [elif] chain after the
    [except] of that block (1176-1219), a syntax error as written, is
    modelled branch by branch (the quick-time message, the time-zone
    name, the fallback with its suggestions) with its own dispatch
    [message_chain].  The theorems show that the edit flow is never
    entered with an action (so a message after the Edit button sets a
    new reminder), what editing the time of an armed reminder does, and
    that the quick-time branch never sets a reminder. *)

From S2P Require Import Spec2Rocq.
From Stdlib Require Import Ascii.
From S2P Require Import Calendar Text Strptime Nlp Recurrence Store Scheduler Handlers Callbacks.

Module Messages.
Import Text Strptime Nlp Store Recurrence Scheduler Handlers Callbacks.

(** [QUICK_TIMES] (bot.py 275-282), in its order. *)
Definition QUICK_TIMES : list (string * string) :=
  [("in_1_hour", "⏰ In 1 hour"); ("in_2_hours", "⏰ In 2 hours");
   ("tonight", "🌙 Tonight (8 PM)"); ("tomorrow_morning", "🌅 Tomorrow Morning (9 AM)");
   ("tomorrow_afternoon", "☀️ Tomorrow Afternoon (2 PM)"); ("this_weekend", "🎉 This Weekend")].

(** [message_text in QUICK_TIMES.values()] *)
Definition is_quick_time (text : string) : bool :=
  existsb (fun kv => String.eqb (snd kv) text) QUICK_TIMES.

(** The time of day of a [strptime] result ([.time()]). *)
Definition clock_at (s : string) : exc clock := clock_of <$> strptime s "%I:%M%p".

(** bot.py 955-974: [now] is the wall clock of [datetime.now(user_timezone)]. *)
Definition process_quick_time (text : string) (now : naive) : exc (option (clock * date)) :=
  let later k := add_seconds now (k * 3600) in
  if String.eqb text (assoc_get QUICK_TIMES "in_1_hour") then
    Ok (Some ((hour (later 1), minute (later 1), second (later 1)), ndate now))
  else if String.eqb text (assoc_get QUICK_TIMES "in_2_hours") then
    Ok (Some ((hour (later 2), minute (later 2), second (later 2)), ndate now))
  else if String.eqb text (assoc_get QUICK_TIMES "tonight") then
    c ← clock_at "8:00PM"; Ok (Some (c, ndate now))
  else if String.eqb text (assoc_get QUICK_TIMES "tomorrow_morning") then
    c ← clock_at "9:00AM"; Ok (Some (c, date_add (ndate now) 1))
  else if String.eqb text (assoc_get QUICK_TIMES "tomorrow_afternoon") then
    c ← clock_at "2:00PM"; Ok (Some (c, date_add (ndate now) 1))
  else if String.eqb text (assoc_get QUICK_TIMES "this_weekend") then
    c ← clock_at "10:00AM"; Ok (Some (c, date_add (ndate now) ((5 - weekday (ndate now)) mod 7)))
  else Ok None.

(** bot.py 1068 *)
Definition remind_prefix (message_text : string) : bool :=
  startswith (lower message_text) "reminder" || startswith (lower message_text) "remind".

(** The result dictionary of [parse_natural_time] always has the key
    ['date'] (nlp_parser.py 54-61), so [['date' not in parsed]] is false. *)
Definition parsed_lacks_date (p : nlp_result) : bool := false.

Section Messages.
Context `{TzDatabase}.

(** bot.py 1055-1065: [true] when the handler returned. *)
Definition quick_button (chat user : Z) (message_text : string) : M bool :=
  tz ← get_user_timezone_call user;
  match tz with
  | None => py_raise UnknownTimeZoneError
  | Some name =>
      n ← now;
      match to_local name n with
      | None => py_raise UnknownTimeZoneError
      | Some local_now =>
          qt ← py_exc (process_quick_time message_text local_now);
          match qt with
          | Some q =>
              put_user_state user (mkustate None None (Some q));;
              reply chat "Great! Now send me the reminder message.";;
              mret true
          | None => mret false
          end
      end
  end.

(** bot.py 999-1040, the [try] block of the time edit: [true] when it
    returns from [handle_message] (a past time), before the pop. *)
Definition edit_time_body (chat user : Z) (message_text rid : string) (r : reminder_view) : M bool :=
  tz ← get_user_timezone_call user;
  match tz with
  | None => py_raise UnknownTimeZoneError
  | Some name =>
      n ← now;
      match to_local name n with
      | None => py_raise UnknownTimeZoneError
      | Some local_now =>
          parsed ← py_exc (parse_natural_time message_text local_now);
          match Nlp.r_date parsed, Nlp.r_time parsed with
          | Some d, Some (h, m, sec) =>
              new_time ← py_exc (localize name (mknaive d h m sec));
              let new_time :=
                if instant new_time <? n
                then (if parsed_lacks_date parsed then dt_add new_time 86400 else new_time)
                else new_time in
              if instant new_time <? n then
                reply chat "❌ Cannot set reminder for past time.";; mret true
              else
                (db_call (CallUpdate rid None [UTime (Some new_time)]) ≫= fun (ok : bool) =>
                 if ok then
                   (is_active rid ≫= fun (act : bool) =>
                    (if act then py_raise (AttributeError "'dict' object has no attribute 'cancel'")
                     else mret tt);;
                    schedule_reminder chat user rid new_time (v_message r) (v_priority r)
                                      (v_rtype r) (v_rinterval r);;
                    reply chat ("✅ Time updated to " +:+ fmt_time (wall new_time) +:+ " on "
                                +:+ fmt_date (wall new_time) +:+ "!" +:+ newline
                                +:+ "Use /list to see your reminders.");;
                    mret false)
                 else reply chat "❌ Failed to update reminder.";; mret false)
          | _, _ => py_raise TypeError
          end
      end
  end.

Definition invalid_time_text : string :=
  "❌ Invalid time format. Please use formats like:" +:+ newline +:+ "• 3:00pm" +:+ newline
  +:+ "• 15:00" +:+ newline +:+ "• tomorrow 3pm" +:+ newline +:+ "• 25/02/2024 3:00pm".

(** bot.py 981-1052: [true] when the handler returned; without an
    action it falls through to the rest of [handle_message]. *)
Definition edit_flow (chat user : Z) (message_text rid : string) (action : option string) : M bool :=
  reminder ← get_reminder_call rid;
  match reminder with
  | None => reply chat "❌ Reminder not found or already completed.";; pop_user_state user;; mret true
  | Some r =>
      if bool_decide (action = Some "message") then
        (db_call (CallUpdate rid None [UMessage (Some message_text)]) ≫= fun (ok : bool) =>
         (if ok then reply chat "✅ Message updated! Use /list to see your reminders."
          else reply chat "❌ Failed to update reminder.");;
         pop_user_state user;; mret true)
      else if bool_decide (action = Some "time") then
        (py_try (edit_time_body chat user message_text rid r)
                (fun _ => reply chat invalid_time_text;; mret false) ≫= fun (early : bool) =>
         if early then mret true else (pop_user_state user;; mret true))
      else mret false
  end.

(** bot.py 976-1174 up to the [except] of the reminder-setting block. *)
Definition handle_message (server_today : Z -> date) (chat user : Z) (text : string) : M unit :=
  let message_text := strip text in
  st ← get_user_state user;
  (match st with
              | Some s => match us_editing s with
                          | Some rid => edit_flow chat user message_text rid (us_action s)
                          | None => mret false
                          end
              | None => mret false
              end) ≫= fun (returned : bool) =>
  if returned then mret tt else
  (if is_quick_time message_text then quick_button chat user message_text else mret false)
  ≫= fun (quick : bool) =>
  if quick then mret tt else
  if remind_prefix message_text then
    (tz ← get_user_timezone_call user;
     if truthy_str tz then mret tt else reply chat "Please set your time zone first using /timezone")
  else handle_set_reminders server_today chat user message_text.

End Messages.

(** ** The [elif] chain after the reminder-setting block (bot.py 1176-1219)

    The chain cannot run as written (an [elif] after an [except]); its
    three branches are modelled as they read, with [message_chain] the
    chain's own dispatch.  The quick-time branch re-enters
    [handle_message] (1189), whose prefix up to the return at 1070 is the
    [handle_message] above. *)

(** [strftime('%I:%M%p')] *)
Definition fmt_IMp (c : clock) : string :=
  let '(h, m, _) := c in
  let h12 := if h mod 12 =? 0 then 12 else h mod 12 in
  pad2 h12 +:+ ":" +:+ pad2 m +:+ (if h <? 12 then "AM" else "PM").

(** bot.py 1203-1204: the first four zones of [TIMEZONE_SUGGESTIONS]
    whose lower-cased name starts with the text before the first '/'. *)
Definition similar_timezones (message_text : string) : list string :=
  let area := lower (default "" (head (split_on "/"%char message_text))) in
  filter (fun tz => startswith (lower tz) area) (map fst (firstn 4 TIMEZONE_SUGGESTIONS)).

(** bot.py 1207-1209: one button per suggestion, its label and data. *)
Definition similar_keyboard (message_text : string) : list (list (string * string)) :=
  map (fun tz => [(assoc_get TIMEZONE_SUGGESTIONS tz, "tz_" +:+ tz)]) (similar_timezones message_text).

Definition invalid_message_text : string :=
  "❌ Invalid message. Use /help to see available commands.".

Section Chain.
Context `{TzDatabase} (all_timezones : list string).

(** bot.py 1177-1190: [q] is [context.user_data[user_id]['quick_time']];
    [server_today] gives [datetime.now().date()] on the server. *)
Definition quick_time_branch (server_today : Z -> date) (chat user : Z) (message_text : string)
    (s : user_state) (q : clock * date) : M unit :=
  n ← now;
  let '(c, d) := q in
  let reminder_text :=
    "reminder" +:+ newline +:+ "time: " +:+ fmt_IMp c +:+ newline
    +:+ (if bool_decide (d = server_today n) then "" else "date: " +:+ fmt_dmY d +:+ newline)
    +:+ message_text in
  put_user_state user (mkustate (us_editing s) (us_action s) None);;
  handle_message server_today chat user reminder_text.

(** bot.py 1192-1198 *)
Definition timezone_branch (chat user : Z) (message_text : string) : M unit :=
  db_call (CallSetTimezone user message_text);;
  reply chat ("✅ Time zone set to " +:+ message_text +:+ "." +:+ newline +:+ newline
              +:+ "You can now set reminders! Use /format to see reminder formats.").

(** bot.py 1199-1219 *)
Definition fallback_branch (chat : Z) (message_text : string) : M unit :=
  if contains "/" message_text then
    match similar_timezones message_text with
    | _ :: _ => reply chat "Did you mean one of these timezones?"
    | [] => reply chat invalid_message_text
    end
  else reply chat invalid_message_text.

(** bot.py 1176-1219: the dispatch of the chain on the user's dictionary
    and on [pytz.all_timezones]. *)
Definition message_chain (server_today : Z -> date) (chat user : Z) (message_text : string) : M unit :=
  st ← get_user_state user;
  let otherwise :=
    if existsb (String.eqb message_text) all_timezones
    then timezone_branch chat user message_text else fallback_branch chat message_text in
  match st with
  | Some s => match us_quick s with
              | Some q => quick_time_branch server_today chat user message_text s q
              | None => otherwise
              end
  | None => otherwise
  end.

End Chain.

Section PreservesMessages.
Context (R : World -> World -> Prop) `{!PreOrder R} `{!Respects R} `{TzDatabase}.

Lemma preserves_handle_message st chat user text : preserves R (handle_message st chat user text).
Proof.
  unfold handle_message, edit_flow, edit_time_body, quick_button, get_reminder_call, get_user_state,
    put_user_state, pop_user_state, get_user_timezone_call, is_active, now, py_modify, py_exc, reply.
  preserves_tac_with ltac:(first [papply preserves_schedule_reminder | papply preserves_handle_set_reminders]).
Qed.

End PreservesMessages.

(** ** Behaviour *)

Section Behaviour.
Context `{TzDatabase}.

(** A user whose dictionary names a pending reminder but no action: the
    edit flow falls through, and the message is read as new reminders. *)
Lemma handle_message_no_action st chat user text w rid q v :
  w_user_data w !! user = Some (mkustate (Some rid) None q) -> w_busy w = [] ->
  get_reminder_by_id rid None (w_db w) = Some v ->
  is_quick_time (strip text) = false -> remind_prefix (strip text) = false ->
  handle_message st chat user text w = handle_set_reminders st chat user (strip text) w.
Proof.
  intros Hu Hb Hv Hq Hr.
  unfold handle_message, get_user_state, edit_flow, mbind, mret, pyst_bind, pyst_ret, py_bind, py_ret.
  cbn -[get_reminder_call handle_set_reminders is_quick_time strip remind_prefix].
  rewrite Hu. cbn -[get_reminder_call handle_set_reminders is_quick_time strip remind_prefix].
  rewrite get_reminder_call_nil, Hv by done. cbn -[handle_set_reminders is_quick_time strip remind_prefix].
  rewrite !bool_decide_eq_false_2 by done. cbn -[handle_set_reminders is_quick_time strip remind_prefix].
  by rewrite Hq, Hr.
Qed.

Lemma strip_reminder s : strip ("reminder" +:+ s) = "reminder" +:+ rstrip s.
Proof. unfold strip. by str_simpl. Qed.

Lemma reminder_text_not_quick s : is_quick_time (strip ("reminder" +:+ s)) = false.
Proof. rewrite strip_reminder. by str_simpl. Qed.

Lemma reminder_text_remind_prefix s : remind_prefix (strip ("reminder" +:+ s)) = true.
Proof. rewrite strip_reminder. unfold remind_prefix. rewrite lower_app. by rewrite startswith_app. Qed.

(** A message that starts with "reminder" from a user with a time zone
    and outside the edit flow returns at bot.py 1070 with no effect. *)
Lemma handle_message_remind st chat user text w s :
  w_user_data w !! user = Some s -> us_editing s = None -> w_busy w = [] ->
  is_quick_time (strip text) = false -> remind_prefix (strip text) = true ->
  truthy_str (get_user_timezone user (w_db w)) = true ->
  handle_message st chat user text w = (Ok tt, w).
Proof.
  intros Hu He Hb Hq Hr Ht.
  unfold handle_message, get_user_state, mbind, mret, pyst_bind, pyst_ret, py_bind, py_ret.
  cbn -[get_user_timezone_call is_quick_time strip remind_prefix].
  rewrite Hu, He. cbn -[get_user_timezone_call is_quick_time strip remind_prefix].
  rewrite Hq, Hr. unfold get_user_timezone_call. rewrite (db_read_nil _ (get_user_timezone user (w_db w))) by done.
  cbn. by rewrite Ht.
Qed.

Lemma trigger_update_same_status r r' us : r_status r' = r_status r -> trigger_update r r' us = us.
Proof. intros He. unfold trigger_update. case_decide as Hd; [rewrite He in Hd; tauto | done]. Qed.

(** The time edit of an armed reminder: the row gets the new time, then
    [active_reminders[rid].cancel()] raises on the dictionary the code
    keeps there, after the commit and before the old timer is touched. *)
Lemma edit_time_body_armed chat user text rid v w r name local p d h mi sec nt :
  w_busy w = [] -> rows (w_db w) !! rid = Some r -> is_pending r = true -> row_check r = true ->
  get_user_timezone user (w_db w) = Some name -> to_local name (w_now w) = Some local ->
  parse_natural_time text local = Ok p -> Nlp.r_date p = Some d -> Nlp.r_time p = Some (h, mi, sec) ->
  localize name (mknaive d h mi sec) = Ok nt -> w_now w <= instant nt -> is_Some (w_active w !! rid) ->
  edit_time_body chat user text rid v w
  = (Raise (AttributeError "'dict' object has no attribute 'cancel'"),
     set_db (mkdb (users (w_db w)) (<[rid := apply_update r (UTime (Some nt))]> (rows (w_db w)))) [] w).
Proof.
  intros Hb Hr Hp Hk Hg Hl Hn Hd Ht Hz Hle Ha.
  unfold edit_time_body, get_user_timezone_call, now, py_exc, is_active.
  unfold mbind, mret, pyst_bind, pyst_ret, py_bind, py_ret, py_raise, py_lift.
  rewrite (db_read_nil _ (get_user_timezone user (w_db w))) by done.
  cbn -[parse_natural_time localize to_local get_user_timezone db_call].
  rewrite Hg, Hl, Hn. cbn -[localize db_call]. rewrite Hd, Ht, Hz. cbn -[db_call].
  repeat (rewrite (proj2 (Z.ltb_ge _ _) Hle); cbn -[db_call]).
  rewrite db_call_nil by done. cbn -[update_row].
  rewrite (update_row_hit _ _ _ _ r); [| done | by rewrite Hp | by destruct r].
  rewrite trigger_update_same_status by (by destruct r). cbn. rewrite bool_decide_eq_true_2 by (destruct w; done).
  by destruct w.
Qed.

(** C11 Editing the time of a reminder from the menu sets a new reminder
    instead: the Edit button stores [{'editing_reminder': rid}], the
    "Change Time" button ([edit_time_<rid>]) runs the edit-menu branch
    again with the id ["time_<rid>"] and changes no state, so no
    [edit_action] is ever stored, and the user's next message (the new
    time) skips the edit flow and is handed to the reminder-setting
    block, while the old reminder is left as it was. *)
Theorem edit_time_flow_sets_new_reminder st chat user rid text w v :
  w_busy w = [] -> w_sink_up w = true ->
  get_reminder_by_id rid None (w_db w) = Some v -> rows (w_db w) !! ("time_" +:+ rid) = None ->
  is_quick_time (strip text) = false -> remind_prefix (strip text) = false ->
  let w1 := snd (button_callback chat user ("edit_" +:+ rid) w) in
  let w2 := snd (button_callback chat user ("edit_" +:+ "time_" +:+ rid) w1) in
  w_db w2 = w_db w /\ w_user_data w2 !! user = Some (mkustate (Some rid) None None)
  /\ handle_message st chat user text w2 = handle_set_reminders st chat user (strip text) w2.
Proof.
  intros Hb Hs Hv Hr Hq Hp w1 w2.
  assert (Hw1 : w1 = set_outbox (w_outbox w ++ [(chat, edit_text v)])
                       (set_user_data (<[user := mkustate (Some rid) None None]> (w_user_data w)) w))
    by (unfold w1; by rewrite button_callback_edit, (edit_button_found _ _ _ _ v)).
  assert (Hw2 : w2 = set_outbox (w_outbox w1 ++ [(chat, "❌ Reminder not found or already completed.")]) w1).
  { unfold w2. rewrite button_callback_edit, edit_button_missing; [done | by rewrite Hw1; destruct w ..|].
    rewrite Hw1. destruct w; cbn in *. by unfold get_reminder_by_id; rewrite Hr. }
  assert (Hdb : w_db w2 = w_db w) by (rewrite Hw2, Hw1; by destruct w).
  assert (Hud : w_user_data w2 !! user = Some (mkustate (Some rid) None None))
    by (rewrite Hw2, Hw1; destruct w; cbn; by simplify_map_eq).
  split; [done | split; [done |]].
  apply (handle_message_no_action _ _ _ _ _ rid None v); [done | | by rewrite Hdb | done | done].
  rewrite Hw2, Hw1. by destruct w.
Qed.

(** C12 Changing the time of an armed reminder updates the row and then
    fails: [active_reminders[rid]] is the dictionary [schedule_reminder]
    stores, [.cancel()] raises [AttributeError] after [update_reminder]
    has committed, and the [except] tells the user the time format is
    invalid.  The row has the new time, the old timer is still armed and
    still in [active_reminders], no timer is set for the new time, and
    the edit state is dropped. *)
Theorem edit_time_armed_keeps_timer st chat user text rid q w r name local p d h mi sec nt :
  w_user_data w !! user = Some (mkustate (Some rid) (Some "time") q) ->
  w_busy w = [] -> w_sink_up w = true ->
  rows (w_db w) !! rid = Some r -> is_pending r = true -> row_check r = true ->
  get_user_timezone user (w_db w) = Some name -> to_local name (w_now w) = Some local ->
  parse_natural_time (strip text) local = Ok p -> Nlp.r_date p = Some d -> Nlp.r_time p = Some (h, mi, sec) ->
  localize name (mknaive d h mi sec) = Ok nt -> w_now w <= instant nt -> is_Some (w_active w !! rid) ->
  let w' := snd (handle_message st chat user text w) in
  rows (w_db w') = <[rid := apply_update r (UTime (Some nt))]> (rows (w_db w))
  /\ w_active w' = w_active w /\ w_timers w' = w_timers w
  /\ w_outbox w' = (w_outbox w ++ [(chat, invalid_time_text)])%list
  /\ w_user_data w' !! user = None.
Proof.
  intros Hu Hb Hs Hr Hp Hk Hg Hl Hn Hd Ht Hz Hle Ha w'.
  assert (Hv : is_Some (get_reminder_by_id rid None (w_db w)))
    by (unfold get_reminder_by_id; rewrite Hr; cbn; rewrite Hp; by eexists).
  destruct Hv as [v Hv].
  unfold w', handle_message, get_user_state, edit_flow, mbind, mret, pyst_bind, pyst_ret, py_bind, py_ret.
  cbn -[get_reminder_call edit_time_body pop_user_state strip].
  rewrite Hu. cbn -[get_reminder_call edit_time_body pop_user_state strip].
  rewrite get_reminder_call_nil, Hv by done. cbn -[edit_time_body pop_user_state strip].
  rewrite bool_decide_eq_false_2, bool_decide_eq_true_2 by done. unfold py_try.
  cbn -[edit_time_body pop_user_state strip].
  rewrite (edit_time_body_armed _ _ _ _ _ _ r name local p d h mi sec nt) by done.
  rewrite reply_up by (by destruct w). unfold pop_user_state, py_modify; cbn.
  destruct w; cbn in *. split; [done |]. split; [done |]. split; [done |]. split; [done |].
  by simplify_map_eq.
Qed.

(** C15 The quick-time branch of the [elif] chain never sets a reminder:
    for a user outside the edit flow who has a time zone, it clears the
    stored quick time and re-enters [handle_message] with a text that
    starts with "reminder", which returns at the time-zone check of
    bot.py 1068-1070; the database, the timers and the replies are
    unchanged. *)
Theorem quick_time_message_sets_nothing all_tz st chat user text w s q :
  w_user_data w !! user = Some s -> us_quick s = Some q -> us_editing s = None -> w_busy w = [] ->
  truthy_str (get_user_timezone user (w_db w)) = true ->
  message_chain all_tz st chat user text w
  = (Ok tt, set_user_data (<[user := mkustate None (us_action s) None]> (w_user_data w)) w).
Proof.
  intros Hu Hq He Hb Ht.
  unfold message_chain, get_user_state, mbind, pyst_bind, py_bind. cbn -[quick_time_branch].
  rewrite Hu, Hq. destruct q as [c d].
  unfold quick_time_branch, now, put_user_state, py_modify, mbind, pyst_bind, py_bind.
  cbn -[handle_message]. rewrite He.
  apply handle_message_remind with (s := mkustate None (us_action s) None);
    [by simplify_map_eq | done | done | apply reminder_text_not_quick
    | apply reminder_text_remind_prefix | done].
Qed.

End Behaviour.

(** ** Witnesses *)

#[local] Existing Instance utc_db.

Example edit_time_flow_sets_new_reminder_witness :
  let w := world_of row0 args0 user0 in
  let text := join newline ["time: 6:00pm"; "Buy milk"] in
  let w1 := snd (button_callback 42 7 ("edit_" +:+ "r1") w) in
  let w2 := snd (button_callback 42 7 ("edit_" +:+ "time_" +:+ "r1") w1) in
  w_db w2 = w_db w /\ w_user_data w2 !! 7 = Some (mkustate (Some "r1") None None)
  /\ handle_message (fun _ => mkdate 2024 3 1) 42 7 text w2
     = handle_set_reminders (fun _ => mkdate 2024 3 1) 42 7 (strip text) w2.
Proof.
  apply (edit_time_flow_sets_new_reminder _ _ _ _ _ _ (mkview "r1" "Call mom" dt0 "high" None None Pending));
    close_hyp.
Defined.

Example edit_time_armed_keeps_timer_witness :
  let w := set_user_data {[ 7 := mkustate (Some "r1") (Some "time") None ]} (world_of row0 args0 user0) in
  let nt := mkdt (mknaive (mkdate 2024 3 1) 23 0 0) (Some 0) in
  let w' := snd (handle_message (fun _ => mkdate 2024 3 1) 42 7 "11:00pm" w) in
  rows (w_db w') = <["r1" := apply_update row0 (UTime (Some nt))]> (rows (w_db w))
  /\ w_active w' = w_active w /\ w_timers w' = w_timers w
  /\ w_outbox w' = (w_outbox w ++ [(42, invalid_time_text)])%list
  /\ w_user_data w' !! 7 = None.
Proof.
  apply (edit_time_armed_keeps_timer _ 42 7 "11:00pm" "r1" None _ row0 "UTC" (mknaive (mkdate 2024 3 1) 9 0 0)
           (mkresult (Some (23, 0, 0)) (Some (mkdate 2024 3 1)) None None "medium" "11:00pm")
           (mkdate 2024 3 1) 23 0 0); close_hyp.
Defined.

Example quick_time_message_sets_nothing_witness :
  let w := set_user_data {[ 7 := mkustate None None (Some ((20, 0, 0), mkdate 2024 3 2)) ]}
                         (world_of row0 args0 user0) in
  message_chain ["UTC"] (fun _ => mkdate 2024 3 1) 42 7 "Buy milk" w
  = (Ok tt, set_user_data (<[7 := mkustate None None None]> (w_user_data w)) w).
Proof. apply (quick_time_message_sets_nothing _ _ _ _ _ _ (mkustate None None (Some ((20, 0, 0), mkdate 2024 3 2))) ((20, 0, 0), mkdate 2024 3 2)); close_hyp. Defined.

End Messages.
