(* ===== verification/Listing.v ===== *)
(** * The command handlers and the keyboards

    [Module Listing] models the handlers of [src/bot.py] that only read
    the store and reply: [/start] (325-343), [/format] (345-402), [/help]
    (569-624), [/timezone] (404-413) and [/list] (655-684) with the
    store function it calls, [get_user_reminders] (111-130), and the
    store function no handler calls, [cleanup_old_reminders] (182-194).
    The keyboards the replies carry are modelled by the data of their
    buttons ([list_keyboard], [timezone_keyboard],
    [get_quick_time_keyboard], and [Messages.similar_keyboard] of the
    [elif] chain); the lemmas show that each button the code
    builds reaches the branch of [button_callback] or of [handle_message]
    it is meant for, and that [cleanup_old_reminders] only deletes
    terminal rows and keeps the database well formed. *)

From stdpp Require Import sorting.
From S2P Require Import Spec2Rocq Calendar Text Store Scheduler Isoformat Recovery Handlers Callbacks Messages.

Module Listing.
Import Text Store Scheduler Isoformat Recovery Handlers Callbacks Messages.

(** ** [get_user_reminders] and [cleanup_old_reminders] *)

(** One dictionary of the list (bot.py 122-130). *)
Record user_item := mkuitem {
  li_id : string; li_message : string; li_time : datetime; li_status : status;
  li_priority : string; li_rtype : option string; li_rinterval : option Z;
}.

(** [WHERE user_id = ? AND status = 'pending'] (bot.py 114-120). *)
Definition user_item_of (user_id : Z) (kr : string * reminder_row) : option user_item :=
  let r := kr.2 in
  if bool_decide (r_user r = user_id) && is_pending r
  then Some (mkuitem (r_id r) (r_message r) (r_time r) (r_status r) (r_priority r)
                     (r_rtype r) (r_rinterval r))
  else None.

(** [ORDER BY reminder_time ASC] on the stored text. *)
Definition item_le (a b : user_item) : Prop :=
  String.compare (isoformat (li_time a)) (isoformat (li_time b)) <> Gt.

#[export] Instance item_le_dec : RelDecision item_le.
Proof. intros a b. unfold item_le. apply _. Defined.

Definition get_user_reminders (user_id : Z) (db : Db) : list user_item :=
  merge_sort item_le (omap (user_item_of user_id) (map_to_list (rows db))).

(** [status IN ('completed', 'cancelled') AND reminder_time < ?], the
    stored text compared with the cutoff's. *)
Definition cleanup_doomed (cutoff : string) (r : reminder_row) : bool :=
  match r_status r with Completed | Cancelled => true | Pending => false end
  && match String.compare (isoformat (r_time r)) cutoff with Lt => true | _ => false end.

(** bot.py 182-194: [now] is the server's naive [datetime.now()] to the
    second and [us] its microsecond, which the subtraction keeps and
    [isoformat] writes; the result is [c.rowcount].  (The subtraction
    raises [OverflowError] only for a clock within [days] of the year 1,
    which is not modelled.) *)
Definition cleanup_old_reminders (now : naive) (us : Z) (days : Z) (db : Db) : exc (Z * Db) :=
  let cutoff := isoformat_naive_us (add_seconds now (- (days * 86400))) us in
  let kept := filter (fun kr : string * reminder_row => cleanup_doomed cutoff kr.2 = false) (rows db) in
  Ok (Z.of_nat (size (rows db)) - Z.of_nat (size kept), mkdb (users db) kept).

(** ** The replies *)

Definition dq : string := String (Ascii.ascii_of_nat 34) EmptyString.

(** The commands of [start] (bot.py 326-332). *)
Definition COMMANDS : list (string * string) :=
  [("/start", "Start the bot"); ("/help", "Show help message"); ("/timezone", "Set your timezone");
   ("/format", "Show reminder format"); ("/list", "List your reminders")].

Definition welcome_text : string :=
  "Welcome! Here are the available commands:" +:+ newline +:+ newline
  +:+ join newline (map (fun cd => "<a href='tg://command?command=" +:+ cd.1 +:+ "&bot=dancingReminder_bot'>"
                                   +:+ cd.1 +:+ "</a> - " +:+ cd.2) COMMANDS)
  +:+ newline +:+ newline +:+ "Please set your timezone first using /timezone".

(** The text of [format_command] (bot.py 346-397). *)
Definition format_text : string :=
  join newline
    ["";
     "*Reminder Formats*";
     "";
     "1️⃣ *Quick Format:*";
     "Just type your reminder naturally:";
     "• " +:+ dq +:+ "remind me tomorrow at 3pm to call mom" +:+ dq;
     "• " +:+ dq +:+ "daily reminder at 9am to take medicine" +:+ dq;
     "• " +:+ dq +:+ "urgent reminder every monday at 10am for team meeting" +:+ dq;
     "";
     "2️⃣ *Structured Format:*";
     "```";
     "reminder";
     "priority: high";
     "time: 9:00am";
     "date: 25/02/2024";
     "repeat: daily";
     "Take medicine";
     "```";
     "";
     "3️⃣ *Multiple Reminders:*";
     "```";
     "reminder";
     "time: 9:00am";
     "Take medicine";
     "";
     "time: 2:30pm";
     "Doctor appointment";
     "```";
     "";
     "*Priority Levels:*";
     "🔴 High (urgent, important)";
     "🟡 Medium (default)";
     "🟢 Low";
     "";
     "*Recurrence Options:*";
     "• daily, weekly, monthly";
     "• every 2 days";
     "• every week";
     "• every month";
     "";
     "*Time Formats:*";
     "• 12-hour: 9:00am, 2:30pm";
     "• 24-hour: 09:00, 14:30";
     "• Words: morning, noon, evening, night";
     "";
     "*Quick Words:*";
     "• today, tomorrow, tonight";
     "• next monday, next week";
     "• morning, afternoon, evening";
     "";
     "Use the ⌨️ Quick Time buttons below for common times!";
     "    "].

(** The text of [help_command] (bot.py 570-619). *)
Definition help_text : string :=
  join newline
    ["";
     "🤖 *Dancing Reminder Bot Help*";
     "";
     "*Available Commands:*";
     "📌 /start - Start the bot";
     "❓ /help - Show this help message";
     "🌍 /timezone - Set your timezone";
     "📝 /format - Show reminder formats";
     "📋 /list - List your active reminders";
     "❌ /cancel - Cancel a reminder";
     "";
     "*Quick Guide:*";
     "";
     "1️⃣ *Natural Language:*";
     "Just type naturally:";
     "• " +:+ dq +:+ "remind me tomorrow at 3pm to call mom" +:+ dq;
     "• " +:+ dq +:+ "urgent reminder at 9am for meeting" +:+ dq;
     "• " +:+ dq +:+ "daily reminder at 8pm to sleep" +:+ dq;
     "";
     "2️⃣ *Priority Levels:*";
     "• 🔴 High: " +:+ dq +:+ "urgent reminder..." +:+ dq +:+ " or " +:+ dq +:+ "priority: high" +:+ dq;
     "• 🟡 Medium: (default)";
     "• 🟢 Low: " +:+ dq +:+ "low priority..." +:+ dq +:+ " or " +:+ dq +:+ "priority: low" +:+ dq;
     "";
     "3️⃣ *Recurring Reminders:*";
     "• " +:+ dq +:+ "daily reminder..." +:+ dq;
     "• " +:+ dq +:+ "every monday..." +:+ dq;
     "• " +:+ dq +:+ "every 2 days..." +:+ dq;
     "• " +:+ dq +:+ "monthly reminder..." +:+ dq;
     "";
     "4️⃣ *Quick Times:*";
     "Use the ⌨️ button panel for common times:";
     "• In 1 hour";
     "• Tonight";
     "• Tomorrow morning";
     "• This weekend";
     "";
     "5️⃣ *Managing Reminders:*";
     "• /list - See all reminders";
     "• Click cancel buttons";
     "• Use /cancel with reminder ID";
     "";
     "*Pro Tips:*";
     "• Use natural language for quick reminders";
     "• Set priority for important tasks";
     "• Use recurring reminders for habits";
     "• Check /format for all options";
     "";
     "Need examples? Type /format to see all formats!";
     "    "].

(** [get_quick_time_keyboard] (bot.py 947-953): the texts of its buttons. *)
Definition get_quick_time_keyboard : list (list string) :=
  [[assoc_get QUICK_TIMES "in_1_hour"; assoc_get QUICK_TIMES "in_2_hours"];
   [assoc_get QUICK_TIMES "tonight"; assoc_get QUICK_TIMES "tomorrow_morning"];
   [assoc_get QUICK_TIMES "tomorrow_afternoon"; assoc_get QUICK_TIMES "this_weekend"]].

(** The inline keyboard of [timezone_command] (bot.py 405-407): label
    and callback data. *)
Definition timezone_keyboard : list (list (string * string)) :=
  map (fun tl => [(tl.2, "tz_" +:+ tl.1)]) (firstn 4 TIMEZONE_SUGGESTIONS).

(** One entry of the [/list] text (bot.py 667-673). *)
Definition entry_text (it : user_item) : string :=
  "🕐 " +:+ fmt_date (wall (li_time it)) +:+ " at " +:+ fmt_time (wall (li_time it)) +:+ newline
  +:+ "📝 " +:+ li_message it +:+ newline
  +:+ "ID: `" +:+ li_id it +:+ "`" +:+ newline +:+ newline.

Definition list_text (items : list user_item) : string :=
  foldl (fun acc it => acc +:+ entry_text it) ("*Your Active Reminders:*" +:+ newline +:+ newline) items
  +:+ newline +:+ "To edit or cancel a reminder, use the buttons below each reminder.".

(** The inline keyboard of [list_reminders] (bot.py 675-678). *)
Definition list_keyboard (items : list user_item) : list (list (string * string)) :=
  map (fun it => [("✏️ Edit", "edit_" +:+ li_id it); ("❌ Cancel", "cancel_" +:+ li_id it)]) items.

(** bot.py 325-343 *)
Definition start (chat : Z) : M unit := reply chat welcome_text.

(** bot.py 345-402 *)
Definition format_command (chat : Z) : M unit := reply chat format_text.

(** bot.py 569-624 *)
Definition help_command (chat : Z) : M unit := reply chat help_text.

(** bot.py 404-413 *)
Definition timezone_command (chat : Z) : M unit :=
  reply chat ("Please select your timezone from these common options, or type a timezone name (e.g., 'Asia/Kolkata'):").

(** The command handlers that only reply (main, bot.py 1235-1238). *)
Definition reply_commands : list (Z -> M unit) := [start; help_command; format_command; timezone_command].

(** bot.py 655-684 *)
Definition list_reminders (chat user : Z) : M unit :=
  reminders ← db_read (fun db => Ok (get_user_reminders user db));
  match reminders with
  | [] => reply chat "You don't have any active reminders."
  | _ => reply chat (list_text reminders)
  end.

(** ** The store functions *)

(** [get_user_reminders] lists exactly the user's pending rows. *)
Lemma get_user_reminders_elem user db it :
  it ∈ get_user_reminders user db <->
  exists k r, rows db !! k = Some r /\ r_user r = user /\ r_status r = Pending
    /\ it = mkuitem (r_id r) (r_message r) (r_time r) (r_status r) (r_priority r) (r_rtype r) (r_rinterval r).
Proof.
  unfold get_user_reminders. rewrite merge_sort_Permutation, list_elem_of_omap. split.
  - intros [[k r] [Hin Hj]]. apply elem_of_map_to_list in Hin. unfold user_item_of in Hj; cbn in Hj.
    destruct (bool_decide (r_user r = user)) eqn:Hu; [| done].
    destruct (is_pending r) eqn:Hp; [| done]. cbn in Hj. simplify_eq.
    apply bool_decide_eq_true in Hu. apply bool_decide_eq_true in Hp. exists k, r. repeat split; congruence.
  - intros (k & r & Hk & Hu & Hp & ->). exists (k, r). split; [by apply elem_of_map_to_list |].
    unfold user_item_of; cbn. rewrite bool_decide_eq_true_2, is_pending_true by done. done.
Qed.

Section Cleanup.
Variables (now : naive) (us : Z) (days : Z) (db : Db).

Definition cleanup_cutoff : string := isoformat_naive_us (add_seconds now (- (days * 86400))) us.

Lemma cleanup_old_reminders_eq :
  cleanup_old_reminders now us days db
  = Ok (Z.of_nat (size (rows db))
        - Z.of_nat (size (filter (fun kr : string * reminder_row => cleanup_doomed cleanup_cutoff kr.2 = false) (rows db))),
        mkdb (users db) (filter (fun kr : string * reminder_row => cleanup_doomed cleanup_cutoff kr.2 = false) (rows db))).
Proof. reflexivity. Qed.

Lemma doomed_not_pending r : r_status r = Pending -> cleanup_doomed cleanup_cutoff r = false.
Proof. unfold cleanup_doomed. by intros ->. Qed.

End Cleanup.

(** ** The keyboards *)

Section Keyboards.
Context `{TzDatabase}.

(** Each button of the [/list] keyboard runs the edit-menu branch or the
    cancel branch for its reminder. *)
Lemma list_keyboard_dispatch chat user items row b :
  In row (list_keyboard items) -> In b row ->
  exists it, In it items
    /\ (button_callback chat user b.2 = edit_button chat user (li_id it)
        \/ button_callback chat user b.2 = cancel_button chat (li_id it)).
Proof.
  unfold list_keyboard. rewrite in_map_iff. intros (it & <- & Hit) Hb. exists it. split; [done |].
  destruct Hb as [<- | [<- | []]]; cbn; [left; apply button_callback_edit | right; apply button_callback_cancel].
Qed.

Lemma button_callback_tz chat user tz :
  button_callback chat user ("tz_" +:+ tz) = tz_button chat user tz.
Proof.
  unfold button_callback. rewrite startswith_app.
  change 3%nat with (String.length "tz_"). by rewrite drop_app.
Qed.

(** Each button of the [/timezone] keyboard sets its zone. *)
Lemma timezone_keyboard_dispatch chat user row b :
  In row timezone_keyboard -> In b row ->
  exists tz, In tz (map fst TIMEZONE_SUGGESTIONS) /\ button_callback chat user b.2 = tz_button chat user tz.
Proof.
  unfold timezone_keyboard. rewrite in_map_iff. intros (tl & <- & Htl) [<- | []].
  exists tl.1. split; [| apply button_callback_tz].
  apply in_map. rewrite <- (firstn_skipn 4 TIMEZONE_SUGGESTIONS). apply in_or_app. by left.
Qed.

(** Each button of the quick-time keyboard sends a text [handle_message]
    reads as a quick time. *)
Lemma quick_time_keyboard_quick row b :
  In row get_quick_time_keyboard -> In b row -> is_quick_time (strip b) = true.
Proof.
  intros Hrow Hb. cbn in Hrow.
  repeat (destruct Hrow as [<- | Hrow]; [repeat (destruct Hb as [<- | Hb]; [vm_compute; reflexivity |]); done |]).
  done.
Qed.

(** Each button that the fallback of the [elif] chain offers sets a zone
    of [TIMEZONE_SUGGESTIONS]. *)
Lemma similar_keyboard_dispatch chat user text row b :
  In row (similar_keyboard text) -> In b row ->
  exists tz, In tz (map fst TIMEZONE_SUGGESTIONS) /\ button_callback chat user b.2 = tz_button chat user tz.
Proof.
  unfold similar_keyboard. rewrite in_map_iff. intros (tz & <- & Htz) [<- | []].
  exists tz. split; [| apply button_callback_tz].
  unfold similar_timezones in Htz.
  apply list_elem_of_In, list_elem_of_filter in Htz as [_ Htz]. apply list_elem_of_In in Htz.
  rewrite <- (firstn_skipn 4 TIMEZONE_SUGGESTIONS), map_app. apply in_or_app. by left.
Qed.

(** Only the first four suggestions are ever offered: a misspelt
    "Asia/Tokio" is offered Kolkata and Dubai, not Tokyo. *)
Example similar_timezones_tokio : similar_timezones "Asia/Tokio" = ["Asia/Kolkata"; "Asia/Dubai"].
Proof. vm_compute. reflexivity. Qed.

End Keyboards.

Section PreservesListing.
Context (R : World -> World -> Prop) `{!PreOrder R} `{!Respects R}.

Lemma preserves_list_reminders chat user : preserves R (list_reminders chat user).
Proof. unfold list_reminders, reply. preserves_tac_with fail. Qed.

Lemma preserves_reply chat text : preserves R (reply chat text).
Proof. unfold reply. preserves_tac_with fail. Qed.

Lemma preserves_reply_commands h chat : In h reply_commands -> preserves R (h chat).
Proof. intros Hh. repeat destruct Hh as [<- | Hh]; try done; apply preserves_reply. Qed.

End PreservesListing.

(** ** Properties *)

(** C19 [cleanup_old_reminders] is the retention sweep of the
    specification (§3): it deletes exactly the completed and cancelled
    rows whose stored time text sorts before the cutoff
    ([datetime.now() - timedelta(days)], naive, with its microseconds),
    returns their number,
    keeps every pending row and the users, and keeps the database well
    formed (no trigger runs on [DELETE], and no pending row is deleted,
    so the counters stay exact). *)
Theorem cleanup_old_reminders_sweep now us days db :
  db_wf db ->
  exists n db', cleanup_old_reminders now us days db = Ok (n, db')
    /\ db_wf db' /\ users db' = users db
    /\ (forall k r, rows db' !! k = Some r
                    <-> rows db !! k = Some r /\ cleanup_doomed (cleanup_cutoff now us days) r = false)
    /\ n = Z.of_nat (size (filter (fun kr : string * reminder_row =>
                                     cleanup_doomed (cleanup_cutoff now us days) kr.2 = true) (rows db))).
Proof.
  intros Hwf. rewrite cleanup_old_reminders_eq. do 2 eexists. split; [reflexivity |].
  set (c := cleanup_cutoff now us days).
  assert (Hl : forall k r, filter (fun kr : string * reminder_row => cleanup_doomed c kr.2 = false) (rows db) !! k = Some r
                           <-> rows db !! k = Some r /\ cleanup_doomed c r = false)
    by (intros; by rewrite map_lookup_filter_Some).
  split; [| split; [done | split; [exact Hl |]]].
  - destruct Hwf as [Hk Ho Hc Hn]. split; cbn.
    + intros k r [Hr _]%Hl. by apply Hk.
    + intros k r [Hr _]%Hl. by apply (Ho k).
    + intros k r [Hr _]%Hl. by apply (Hc k).
    + intros uid u Hu. rewrite (Hn _ _ Hu). unfold pending_count. symmetry.
      apply count_where_filter. intros k v [_ Hp]. by apply doomed_not_pending.
  - pose proof (map_size_filter_split (fun kr : string * reminder_row => cleanup_doomed c kr.2 = true) (rows db)) as Hs.
    replace (filter (fun kv : string * reminder_row => ~ cleanup_doomed c kv.2 = true) (rows db))
      with (filter (fun kr : string * reminder_row => cleanup_doomed c kr.2 = false) (rows db)) in Hs
      by (apply map_filter_ext; intros; symmetry; apply not_true_iff_false).
    lia.
Qed.

(** ** Witnesses *)

(** A user with one pending reminder and one completed in January. *)
Definition db_old : Db :=
  mkdb {[ 7 := mkuser (Some "UTC") 50 1 ]}
       {[ "r1" := row0;
          "o1" := mkrow "o1" 7 "Old" (mkdt (mknaive (mkdate 2024 1 2) 9 0 0) (Some 0)) Completed "medium"
                        None None None None ]}.

Example cleanup_old_reminders_sweep_witness :
  exists n db', cleanup_old_reminders (mknaive (mkdate 2024 3 1) 12 0 0) 250000 30 db_old = Ok (n, db')
    /\ db_wf db' /\ users db' = users db_old
    /\ (forall k r, rows db' !! k = Some r
                    <-> rows db_old !! k = Some r
                        /\ cleanup_doomed (cleanup_cutoff (mknaive (mkdate 2024 3 1) 12 0 0) 250000 30) r = false)
    /\ n = Z.of_nat (size (filter (fun kr : string * reminder_row =>
             cleanup_doomed (cleanup_cutoff (mknaive (mkdate 2024 3 1) 12 0 0) 250000 30) kr.2 = true) (rows db_old))).
Proof. apply cleanup_old_reminders_sweep. apply db_wfb_spec. vm_compute. reflexivity. Defined.

End Listing.
