(* ===== verification/Bot.v ===== *)
(** * The running bot

    [Module Bot] composes the components: the process of [main]
    (bot.py 1221-1252) is the step relation [step] on [World], whose
    events are a due timer thread running [send_reminder], a handler
    running on a chat update, time passing, the environment changing
    (the delivery sink, database contention), and a restart of the
    process, after which [main] runs [handle_missed_reminders] again
    ([main_start]); [load_config] is the configuration read at import.
    Every step preserves any relation that respects the primitives;
    instantiated with the evolution of the database and the growth of
    the outbox, this gives the invariants of every reachable state.  The race of the Cancel
    button with the timer is a run of two steps; a restart arms each
    pending reminder once. *)

From stdpp Require Import sorting.
From S2P Require Import Spec2Rocq Calendar Text Parse Recurrence Store Scheduler Recovery Handlers Callbacks Messages Listing.

Module Bot.
Import Store Recurrence Scheduler Recovery Handlers Callbacks Messages Listing.

(** The module-level configuration (bot.py 19-28), read from the
    environment that [load_dotenv] fills from [.env]. *)
Record config := mkconfig {
  TELEGRAM_BOT_TOKEN : string;
  MAX_REMINDERS_PER_USER : Z;
  DEFAULT_TIMEZONE : string;
}.

Definition load_config (getenv : string -> option string) : exc config :=
  let token := getenv "TELEGRAM_BOT_TOKEN" in
  if negb (truthy_str token) then
    Raise (ValueError "TELEGRAM_BOT_TOKEN not found in environment variables. Please set it in .env file.")
  else
    let m := default "50" (getenv "MAX_REMINDERS_PER_USER") in
    match Text.int_of_string m with
    | None => Raise (ValueError ("invalid literal for int() with base 10: '" +:+ m +:+ "'"))
    | Some n => Ok (mkconfig (default "" token) n (default "UTC" (getenv "DEFAULT_TIMEZONE")))
    end.

Section Steps.
Context `{TzDatabase}.

Definition remove_timer (h : nat) (w : World) : World :=
  set_timers (filter (fun t => t_handle t <> h) (w_timers w)) (w_next_timer w) w.

Definition set_sink (b : bool) (w : World) : World :=
  mkworld (w_db w) (w_busy w) (w_active w) (w_timers w) (w_next_timer w) (w_outbox w) b
          (w_uuid w) (w_uuid_next w) (w_now w) (w_user_data w).

(** A restart of the process: the timer threads, [active_reminders] and
    [context.user_data] are lost with it; the database, the messages
    already sent and the clock remain. *)
Definition restart (w : World) : World :=
  mkworld (w_db w) (w_busy w) ∅ [] (w_next_timer w) (w_outbox w) (w_sink_up w)
          (w_uuid w) (w_uuid_next w) (w_now w) ∅.

(** [main] (bot.py 1221-1252) up to [start_polling]: [init_db] creates
    only what is missing and leaves the rows as they are; then
    [handle_missed_reminders] runs once, before any handler.  The
    handlers it registers (1235-1242) are the steps below. *)
Definition main_start (w : World) : World := snd (handle_missed_reminders w).

(** The events of the process: a due timer thread runs [send_reminder], a
    handler runs on a chat update, time passes, the environment changes
    (delivery sink up or down, future database contention), the process
    restarts and runs the start of [main] again. *)
Inductive step : World -> World -> Prop :=
| step_fire w t :
    t ∈ w_timers w -> t_due t <= w_now w ->
    step w (snd (send_reminder (t_args t) (remove_timer (t_handle t) w)))
| step_message w server_today chat user text :
    step w (snd (handle_message server_today chat user text w))
| step_button w chat user data : step w (snd (button_callback chat user data w))
| step_cancel_command w chat user args : step w (snd (cancel_reminder chat user args w))
| step_list w chat user : step w (snd (list_reminders chat user w))
| step_reply_command w chat h : In h reply_commands -> step w (snd (h chat w))
| step_set_timezone w user tz : step w (snd (db_call (CallSetTimezone user tz) w))
| step_tick w d : 0 <= d -> step w (set_now (w_now w + d) w)
| step_sink w b : step w (set_sink b w)
| step_contention w busy : step w (set_busy busy w)
| step_restart w : step w (main_start (restart w)).

End Steps.

Section StepPreserves.
Context (R : World -> World -> Prop) `{!PreOrder R} `{!Respects R} `{TzDatabase}.

(** Every step of the bot respects [R]. *)
Lemma step_preserves w w' : step w w' -> R w w'.
Proof.
  intros Hs; destruct Hs.
  - transitivity (remove_timer (t_handle t) w);
    [papply respects_shape; done | apply (preserves_send_reminder R)].
  - papply preserves_handle_message.
  - papply preserves_button_callback.
  - papply preserves_cancel_reminder.
  - papply preserves_list_reminders.
  - by papply preserves_reply_commands.
  - papply respects_db_call.
  - papply respects_shape; done.
  - papply respects_shape; done.
  - papply respects_shape; done.
  - transitivity (restart w); [papply respects_shape; done | apply (preserves_handle_missed_reminders R)].
Qed.

Lemma rtc_step_preserves w w' : rtc step w w' -> R w w'.
Proof.
  induction 1 as [w|w1 w2 w3 Hs _ IH]; [reflexivity |].
  etrans; [apply step_preserves, Hs | exact IH].
Qed.

End StepPreserves.

Section Runs.
Context `{TzDatabase}.

Lemma remove_timer_sink h w : w_sink_up (remove_timer h w) = w_sink_up w.
Proof. reflexivity. Qed.

Lemma rtc_step_db_rel w w' : rtc step w w' -> db_rel w w'.
Proof. apply rtc_step_preserves; apply _. Qed.

(** C1 In every state the running bot reaches from a well-formed database,
    the database is well formed: row keys are ids, every row has an owner
    and satisfies the schema's CHECKs, and each user's [reminder_count]
    equals the number of its pending reminders, whatever timers fire,
    handlers run, or transactions fail. *)
Theorem reachable_db_wf w w' :
  rtc step w w' -> db_wf (w_db w) -> db_wf (w_db w').
Proof. intros Hr. by destruct (rtc_step_db_rel _ _ Hr) as [Hwf _]. Qed.

(** C2 Along every run of the bot, a completed or cancelled reminder row
    is never changed again: a cancel racing a firing leaves exactly one
    terminal status. *)
Theorem reachable_terminal w w' k r :
  rtc step w w' -> rows (w_db w) !! k = Some r -> r_status r <> Pending ->
  rows (w_db w') !! k = Some r.
Proof. intros Hr. destruct (rtc_step_db_rel _ _ Hr) as [_ Ht]. apply Ht. Qed.

Lemma rtc_step_out_rel w w' : rtc step w w' -> out_rel w w'.
Proof. apply rtc_step_preserves; apply _. Qed.

(** C3 The inline [Cancel] button on an armed reminder cancels the row,
    then [.cancel()] on the metadata dictionary raises [AttributeError]:
    the timer thread survives, fires, and delivers the cancelled
    reminder, while the row stays [cancelled]. *)
Theorem cancelled_reminder_still_delivered chat user w r e t :
  db_wf (w_db w) -> w_busy w = [] -> w_sink_up w = true ->
  rows (w_db w) !! a_id (t_args t) = Some r -> r_status r = Pending ->
  w_active w !! a_id (t_args t) = Some e -> e_timer e = t_handle t ->
  t ∈ w_timers w -> t_due t <= w_now w ->
  let w1 := snd (button_callback chat user ("cancel_" +:+ a_id (t_args t)) w) in
  let w2 := snd (send_reminder (t_args t) (remove_timer (t_handle t) w1)) in
  step w w1 /\ step w1 w2
  /\ rows (w_db w1) !! a_id (t_args t) = Some (set_status Cancelled r)
  /\ rows (w_db w2) !! a_id (t_args t) = Some (set_status Cancelled r)
  /\ (a_chat (t_args t), reminder_text (t_args t)) ∈ w_outbox w2.
Proof.
  intros Hwf Hbusy Hsink Hr Hp He _ Ht Hdue w1 w2.
  pose proof (cancel_button_spec chat _ w r e Hwf Hbusy Hr Hp He) as Hc.
  subst w1 w2. rewrite button_callback_cancel, Hc. cbn [snd].
  set (w1 := set_db _ [] w).
  assert (Hr1 : rows (w_db w1) !! a_id (t_args t) = Some (set_status Cancelled r))
    by (cbn; apply lookup_insert_eq).
  split; [| split; [| split; [exact Hr1 | split]]].
  - pose proof (step_button w chat user ("cancel_" +:+ a_id (t_args t))) as Hs.
    by rewrite button_callback_cancel, Hc in Hs.
  - by apply step_fire.
  - destruct (send_reminder_db_rel (t_args t) (remove_timer (t_handle t) w1)) as [_ Hterm].
    apply Hterm; [exact Hr1 | discriminate].
  - by apply send_reminder_delivers.
Qed.

(** C9 Liveness of an armed reminder: from any state in which a timer is
    armed and the delivery sink is up, the bot has a run (time passes to
    the due instant, then the timer thread fires) that delivers the
    reminder's text to its chat; the delivery stays in the outbox of
    every later state. *)
Theorem armed_timer_delivered w t :
  t ∈ w_timers w -> w_sink_up w = true ->
  exists w', rtc step w w' /\ (a_chat (t_args t), reminder_text (t_args t)) ∈ w_outbox w'
    /\ forall w'', rtc step w' w'' -> (a_chat (t_args t), reminder_text (t_args t)) ∈ w_outbox w''.
Proof.
  intros Ht Hs. set (w1 := set_now (w_now w + Z.max 0 (t_due t - w_now w)) w).
  exists (snd (send_reminder (t_args t) (remove_timer (t_handle t) w1))).
  assert (Hd : (a_chat (t_args t), reminder_text (t_args t))
               ∈ w_outbox (snd (send_reminder (t_args t) (remove_timer (t_handle t) w1))))
    by (apply send_reminder_delivers; by rewrite remove_timer_sink).
  split; [| split; [done |]].
  - apply (rtc_l _ _ w1); [unfold w1; apply step_tick; lia |]. apply rtc_once.
    apply step_fire; [done | unfold w1; cbn; lia].
  - intros w'' Hrun. destruct (rtc_step_out_rel _ _ Hrun) as [k Hk]. rewrite Hk.
    apply elem_of_app. by left.
Qed.

(** C10 A restart of the bot arms every pending reminder exactly once:
    the timers of the old process die with it, and [main] runs
    [handle_missed_reminders] once, which (when every pending reminder
    is stored with its offset and is still due) sets one timer per
    pending row and leaves the database unchanged. *)
Theorem restart_arms_each_pending_once w k r :
  db_wf (w_db w) -> w_busy w = [] -> all_future (w_now w) (w_db w) ->
  rows (w_db w) !! k = Some r -> r_status r = Pending ->
  List.length (timers_for k (w_timers (main_start (restart w)))) = 1%nat
  /\ w_db (main_start (restart w)) = w_db w.
Proof.
  intros Hwf Hb Hall Hk Hp. unfold main_start.
  destruct (handle_missed_future (restart w) Hb Hall) as [act Hr]. rewrite Hr.
  cbn -[merge_sort omap pending_join map_to_list future_timers timers_for]. split; [| done].
  rewrite timers_for_future. by apply (listed_once _ _ r).
Qed.

End Runs.

(** ** Witnesses *)

#[local] Existing Instance utc_db.

Example cancelled_reminder_still_delivered_witness :
  let w := world_of row0 args0 user0 in
  let t := mktimer 0 (instant dt0) args0 in
  let w1 := snd (button_callback 42 7 ("cancel_" +:+ a_id (t_args t)) w) in
  let w2 := snd (send_reminder (t_args t) (remove_timer (t_handle t) w1)) in
  step w w1 /\ step w1 w2
  /\ rows (w_db w1) !! a_id (t_args t) = Some (set_status Cancelled row0)
  /\ rows (w_db w2) !! a_id (t_args t) = Some (set_status Cancelled row0)
  /\ (a_chat (t_args t), reminder_text (t_args t)) ∈ w_outbox w2.
Proof.
  apply (cancelled_reminder_still_delivered 42 7 (world_of row0 args0 user0) row0 entry0
           (mktimer 0 (instant dt0) args0)); close_hyp.
Defined.

(** A run of two steps: the Cancel button, then the timer firing. *)
Example reachable_db_wf_witness :
  let w := world_of row0 args0 user0 in
  let w1 := snd (button_callback 42 7 ("cancel_" +:+ "r1") w) in
  db_wf (w_db (snd (send_reminder args0 (remove_timer 0 w1)))).
Proof.
  apply (reachable_db_wf (world_of row0 args0 user0)).
  - eapply rtc_l; [apply step_button |].
    eapply rtc_l; [| apply rtc_refl]. apply (step_fire _ (mktimer 0 (instant dt0) args0)); close_hyp.
  - close_hyp.
Defined.

Example reachable_terminal_witness :
  let w := world_of row0 args0 user0 in
  let w1 := snd (button_callback 42 7 ("cancel_" +:+ "r1") w) in
  rows (w_db (snd (send_reminder args0 (remove_timer 0 w1)))) !! "r1"
  = Some (set_status Cancelled row0).
Proof.
  apply (reachable_terminal (snd (button_callback 42 7 ("cancel_" +:+ "r1") (world_of row0 args0 user0)))).
  - eapply rtc_l; [| apply rtc_refl]. apply (step_fire _ (mktimer 0 (instant dt0) args0)); close_hyp.
  - vm_compute. reflexivity.
  - discriminate.
Defined.

Example armed_timer_delivered_witness :
  let w := world_of row0 args0 user0 in
  exists w', rtc step w w' /\ (a_chat args0, reminder_text args0) ∈ w_outbox w'
    /\ forall w'', rtc step w' w'' -> (a_chat args0, reminder_text args0) ∈ w_outbox w''.
Proof.
  apply (armed_timer_delivered (world_of row0 args0 user0) (mktimer 0 (instant dt0) args0)); close_hyp.
Defined.

(** The bot restarts an hour before an armed reminder is due: the old
    timer is gone and one new timer is armed. *)
Example restart_arms_each_pending_once_witness :
  let w := set_now (instant dt0 - 3600) (world_of row0 args0 user0) in
  List.length (timers_for "r1" (w_timers w)) = 1%nat
  /\ List.length (timers_for "r1" (w_timers (main_start (restart w)))) = 1%nat
  /\ w_db (main_start (restart w)) = w_db w.
Proof.
  split; [reflexivity |].
  apply (restart_arms_each_pending_once _ "r1" row0); [close_hyp | close_hyp | | close_hyp | close_hyp].
  apply all_future_one; [eexists; reflexivity | vm_compute; reflexivity].
Defined.

End Bot.
